(** * GRC Advisor: maturity scoring, gap rules, risk pool and report assembly

    A shallow embedding of the deterministic core of the GRC advisor
    (scoringFramework: [calculateMaturityScore], [identifyGaps];
    grcEngine: [generateBaseRisks], [generateReport] and its fallbacks),
    followed by the properties the specification states about it.

    Conventions of the embedding.
    - A JavaScript number is an exact rational ([Q]); the IEEE-754 rounding
      of the individual operations is not represented.
    - A profile field is [None] when the property is missing or undefined
      and [Some v] when it holds a value of the type the code expects.
    - A call that can raise returns a [result]; [Throw] is a JavaScript
      exception (a rejected promise for the async functions).
    - Property lookup on an object literal sees the object's own keys and
      then the property names it inherits from [Object.prototype]. *)

From Stdlib Require Import ZArith QArith Qround Qminmax Qabs Lqa Lia.
From Stdlib Require Import List String Ascii Bool Sorted.
From Stdlib Require DecimalString.
Import ListNotations.

Local Open Scope string_scope.
Local Open Scope Z_scope.

(* ================================================================== *)
(** ** JavaScript values and operators used by the code *)

Module JS.

Inductive error : Type :=
| TypeError (msg : string)
| Error (msg : string).

Inductive result (A : Type) : Type :=
| Ok (a : A)
| Throw (e : error).
Arguments Ok {A} a.
Arguments Throw {A} e.

Definition bind {A B} (m : result A) (k : A -> result B) : result B :=
  match m with
  | Ok a => k a
  | Throw e => Throw e
  end.

Definition number := Q.

(** The value of a numeric profile field: the forms fill these with
    [parseInt], which yields an integer or NaN. *)
Inductive jsnum : Type :=
| Int (z : Z)
| NaN.

(** [v === 'lit'] for a field that is a string or undefined. *)
Definition strictEq (v : option string) (lit : string) : bool :=
  match v with
  | Some s => String.eqb s lit
  | None => false
  end.

(** ToBoolean of a string-or-undefined: the empty string is falsy. *)
Definition truthy (v : option string) : bool :=
  match v with
  | Some s => negb (String.eqb s "")
  | None => false
  end.

(** ToBoolean of a number-or-undefined: 0 and NaN are falsy. *)
Definition truthyNum (v : option jsnum) : bool :=
  match v with
  | Some (Int z) => negb (z =? 0)
  | _ => false
  end.

(** [v > 0]: undefined converts to NaN, and NaN compares false. *)
Definition gtZero (v : option jsnum) : bool :=
  match v with
  | Some (Int z) => 0 <? z
  | _ => false
  end.

(** [Array.prototype.includes] on an array of strings. *)
Definition includes (l : list string) (x : string) : bool :=
  existsb (String.eqb x) l.

(** [v.includes(x)] where [v] may be undefined: reading a property of
    undefined raises a TypeError. *)
Definition includesOf (v : option (list string)) (x : string) : result bool :=
  match v with
  | Some l => Ok (includes l x)
  | None => Throw (TypeError "Cannot read properties of undefined (reading 'includes')")
  end.

(** [v?.includes(x)]: undefined when [v] is, hence falsy. *)
Definition includesOpt (v : option (list string)) (x : string) : bool :=
  match v with
  | Some l => includes l x
  | None => false
  end.

(** [arr.push(a)]. *)
Definition push {A} (l : list A) (a : A) : list A := (l ++ [a])%list.

Definition Math_max (a b : number) : number := Qmax a b.
Definition Math_min (a b : number) : number := Qmin a b.

(** [Math.round]: the nearest integer, ties towards +infinity. *)
Definition Math_round (x : number) : Z := Qfloor (x + (1 # 2))%Q.

(** ToString of an integer number. *)
Definition showZ (z : Z) : string :=
  DecimalString.NilZero.string_of_int (Z.to_int z).

(** ToString inside a template literal. *)
Definition showStr (v : option string) : string :=
  match v with
  | Some s => s
  | None => "undefined"
  end.

Definition showNum (v : option jsnum) : string :=
  match v with
  | Some (Int z) => showZ z
  | Some NaN => "NaN"
  | None => "undefined"
  end.

(** The property names every object literal inherits from
    [Object.prototype]; each of them holds a function (or, for
    [__proto__], the prototype object), so each is truthy. *)
Definition Object_prototype_keys : list string :=
  [ "constructor"; "hasOwnProperty"; "isPrototypeOf"; "propertyIsEnumerable";
    "toLocaleString"; "toString"; "valueOf"; "__proto__";
    "__defineGetter__"; "__defineSetter__"; "__lookupGetter__"; "__lookupSetter__" ].

Inductive property (A : Type) : Type :=
| OwnProperty (a : A)
| InheritedProperty
| Undefined.
Arguments OwnProperty {A} a.
Arguments InheritedProperty {A}.
Arguments Undefined {A}.

(** [obj[key]] on an object literal given by its own entries. *)
Definition getProperty {A} (obj : list (string * A)) (key : string) : property A :=
  match find (fun kv => String.eqb (fst kv) key) obj with
  | Some kv => OwnProperty (snd kv)
  | None =>
      if existsb (String.eqb key) Object_prototype_keys
      then InheritedProperty
      else Undefined
  end.

Definition mapProperty {A B} (f : A -> B) (v : property A) : property B :=
  match v with
  | OwnProperty a => OwnProperty (f a)
  | InheritedProperty => InheritedProperty
  | Undefined => Undefined
  end.

Definition hasOwn {A} (obj : list (string * A)) (key : string) : bool :=
  existsb (fun kv => String.eqb (fst kv) key) obj.

Definition inherited (key : string) : bool :=
  existsb (String.eqb key) Object_prototype_keys.

End JS.

Import JS.

Declare Scope js_scope.
Delimit Scope js_scope with js.
Notation "x <- m ;; k" := (bind m (fun x => k))
  (at level 61, m at next level, right associativity) : js_scope.
Notation "a === s" := (strictEq a s) (at level 70, no associativity) : js_scope.
Notation "a !== s" := (negb (strictEq a s)) (at level 70, no associativity) : js_scope.
Local Open Scope js_scope.

(* ================================================================== *)
(** ** The assessment profile *)

Record Profile : Type := mkProfile {
  (* organisation *)
  name : option string;
  region : option string;
  industry : option string;
  employees : option jsnum;
  (* governance *)
  policiesDocumented : option string;
  cisoPresent : option string;
  securityTeamSize : option jsnum;
  managementReview : option string;
  (* risk *)
  riskAssessmentFreq : option string;
  bcpDocumented : option string;
  backupFrequency : option string;
  cyberInsurance : option string;
  (* compliance *)
  complianceFrameworks : option (list string);
  privacyProgram : option string;
  lastAuditDate : option string;
  (* technical *)
  firewallEnabled : option string;
  networkSegmentation : option string;
  antivirus : option string;
  edr : option string;
  vulnerabilityScanning : option string;
  patchingAutomated : option string;
  (* application *)
  mfa : option string;
  sso : option string;
  encryption : option string;
  codeReview : option string;
  (* operational *)
  incidentResponsePlan : option string;
  securityTraining : option string;
  vendorRiskProgram : option string;
  (* risk generation *)
  remote : option string;
  hosting : option string;
  criticalVendorCount : option jsnum;
  (* fields read only by the earlier revision of the engine *)
  cloudDataClassification : option string;
  vendors : option string;
  vendorRiskAssessments : option string;
  dataTypes : option (list string);
  dataEncryptionAtRest : option string;
  dataEncryptionInTransit : option string;
  logging : option string;
  compliance : option string;
  privilegedAccessManagement : option string;
  existingCertifications : option (list string);
  privacyOfficerAppointed : option string;
  siemDeployed : option string
}.

(** The profile with no field set. *)
Definition emptyProfile : Profile :=
  mkProfile None None None None None None None None None None None None None
            None None None None None None None None None None None None None
            None None None None None None None None None None None None None
            None None None None.

(** The initial [formData] of the assessment form (pages/Assessment.jsx),
    which is what [onComplete] passes on when nothing is edited. *)
Definition formDefaults : Profile :=
  {| name := Some ""; region := Some "us"; industry := Some "saas";
     employees := None;
     policiesDocumented := Some "none"; cisoPresent := Some "no";
     securityTeamSize := Some (Int 0); managementReview := Some "never";
     riskAssessmentFreq := Some "never"; bcpDocumented := Some "no";
     backupFrequency := Some "none"; cyberInsurance := Some "no";
     complianceFrameworks := Some []; privacyProgram := Some "no";
     lastAuditDate := Some "";
     firewallEnabled := Some "yes"; networkSegmentation := Some "no";
     antivirus := Some "yes"; edr := Some "no";
     vulnerabilityScanning := Some "never"; patchingAutomated := Some "no";
     mfa := Some "none"; sso := Some "no"; encryption := Some "no";
     codeReview := Some "no";
     incidentResponsePlan := Some "no"; securityTraining := Some "none";
     vendorRiskProgram := Some "no";
     remote := Some "yes"; hosting := Some "cloud";
     criticalVendorCount := Some (Int 5);
     cloudDataClassification := None; vendors := None;
     vendorRiskAssessments := None; dataTypes := None;
     dataEncryptionAtRest := None; dataEncryptionInTransit := None;
     logging := None; compliance := None;
     privilegedAccessManagement := None; existingCertifications := None;
     privacyOfficerAppointed := None; siemDeployed := None |}.

Definition withIndustry (v : option string) (p : Profile) : Profile :=
  mkProfile (name p) (region p) v (employees p)
    (policiesDocumented p) (cisoPresent p) (securityTeamSize p) (managementReview p)
    (riskAssessmentFreq p) (bcpDocumented p) (backupFrequency p) (cyberInsurance p)
    (complianceFrameworks p) (privacyProgram p) (lastAuditDate p)
    (firewallEnabled p) (networkSegmentation p) (antivirus p) (edr p)
    (vulnerabilityScanning p) (patchingAutomated p)
    (mfa p) (sso p) (encryption p) (codeReview p)
    (incidentResponsePlan p) (securityTraining p) (vendorRiskProgram p)
    (remote p) (hosting p) (criticalVendorCount p)
    (cloudDataClassification p) (vendors p) (vendorRiskAssessments p) (dataTypes p)
    (dataEncryptionAtRest p) (dataEncryptionInTransit p) (logging p) (compliance p)
    (privilegedAccessManagement p) (existingCertifications p)
    (privacyOfficerAppointed p) (siemDeployed p).

Definition withDataTypes (v : option (list string)) (p : Profile) : Profile :=
  mkProfile (name p) (region p) (industry p) (employees p)
    (policiesDocumented p) (cisoPresent p) (securityTeamSize p) (managementReview p)
    (riskAssessmentFreq p) (bcpDocumented p) (backupFrequency p) (cyberInsurance p)
    (complianceFrameworks p) (privacyProgram p) (lastAuditDate p)
    (firewallEnabled p) (networkSegmentation p) (antivirus p) (edr p)
    (vulnerabilityScanning p) (patchingAutomated p)
    (mfa p) (sso p) (encryption p) (codeReview p)
    (incidentResponsePlan p) (securityTraining p) (vendorRiskProgram p)
    (remote p) (hosting p) (criticalVendorCount p)
    (cloudDataClassification p) (vendors p) (vendorRiskAssessments p) v
    (dataEncryptionAtRest p) (dataEncryptionInTransit p) (logging p) (compliance p)
    (privilegedAccessManagement p) (existingCertifications p)
    (privacyOfficerAppointed p) (siemDeployed p).

(* ================================================================== *)
(** ** scoringFramework: industry weights, dimension scores, gaps *)

Module ScoringFramework.

Record DimensionEntry : Type := mkDim {
  weight : number;
  threshold : number;
  label : option string
}.

Record Dimensions : Type := mkDims {
  d_governance : option DimensionEntry;
  d_risk : option DimensionEntry;
  d_compliance : option DimensionEntry;
  d_technical : option DimensionEntry;
  d_application : option DimensionEntry;
  d_operational : option DimensionEntry
}.

Record IndustryConfig : Type := mkConfig {
  dimensions : Dimensions;
  penalties : option (list (string * number));
  bonuses : option (list (string * number))
}.

Definition WeightTable := list (string * IndustryConfig).

Local Open Scope Q_scope.

Definition INDUSTRY_WEIGHTS : WeightTable :=
  [ ("fintech",
     mkConfig
       (mkDims (Some (mkDim 0.15 75 (Some "Governance & Strategy")))
               (Some (mkDim 0.15 80 (Some "Risk & Continuity")))
               (Some (mkDim 0.25 90 (Some "Compliance & Privacy")))
               (Some (mkDim 0.15 85 (Some "Technical Security")))
               (Some (mkDim 0.15 85 (Some "App & Data Security")))
               (Some (mkDim 0.15 80 (Some "Operational Security"))))
       (Some [ ("no_mfa", -25); ("no_encryption", -25); ("no_incident_response", -20) ])
       (Some [ ("cert_exists", 10) ]));
    ("healthcare",
     mkConfig
       (mkDims (Some (mkDim 0.10 70 None))
               (Some (mkDim 0.15 80 None))
               (Some (mkDim 0.30 95 None))
               (Some (mkDim 0.15 80 None))
               (Some (mkDim 0.15 85 None))
               (Some (mkDim 0.15 80 None)))
       None None);
    ("saas",
     mkConfig
       (mkDims (Some (mkDim 0.10 70 None))
               (Some (mkDim 0.15 75 None))
               (Some (mkDim 0.15 80 None))
               (Some (mkDim 0.20 85 None))
               (Some (mkDim 0.25 90 None))
               (Some (mkDim 0.15 80 None)))
       None None);
    ("default",
     mkConfig
       (mkDims (Some (mkDim 0.166 70 (Some "Governance & Strategy")))
               (Some (mkDim 0.166 70 (Some "Risk & Continuity")))
               (Some (mkDim 0.166 70 (Some "Compliance & Privacy")))
               (Some (mkDim 0.166 70 (Some "Technical Security")))
               (Some (mkDim 0.166 70 (Some "App & Data Security")))
               (Some (mkDim 0.166 70 (Some "Operational Security"))))
       (Some [ ("no_mfa", -20); ("no_backup", -20) ])
       None) ].

(** [clamp(val) = Math.max(0, Math.min(100, val))]. *)
Definition clamp (val : number) : number :=
  Math_max 0 (Math_min 100 val).

(** 1. Governance & Strategy. *)
Definition calculateGovernanceScore (profile : Profile) : number :=
  let score := 50 in
  let score :=
    if policiesDocumented profile === "complete" then score + 20
    else if policiesDocumented profile === "partial" then score + 10
    else score - 15 in
  let score := if cisoPresent profile === "yes" then score + 15 else score in
  let score :=
    if truthyNum (securityTeamSize profile) && gtZero (securityTeamSize profile)
    then score + 10 else score in
  let score :=
    if truthy (managementReview profile) && (managementReview profile !== "never")
    then score + 5 else score in
  clamp score.

(** 2. Risk & Continuity. *)
Definition calculateRiskScore (profile : Profile) : number :=
  let score := 50 in
  let score :=
    if (riskAssessmentFreq profile === "annual") || (riskAssessmentFreq profile === "quarterly")
    then score + 15 else score - 10 in
  let score := if cyberInsurance profile === "yes" then score + 10 else score in
  let score := if bcpDocumented profile === "yes" then score + 15 else score - 10 in
  let score :=
    if (backupFrequency profile === "daily") || (backupFrequency profile === "real_time")
    then score + 10
    else if backupFrequency profile === "none" then score - 20
    else score in
  clamp score.

(** 3. Compliance & Privacy. *)
Definition calculateComplianceScore (profile : Profile) : number :=
  let score := 50 in
  let certs := match complianceFrameworks profile with Some l => l | None => [] end in
  let score := if (0 <? Z.of_nat (List.length certs))%Z then score + 20 else score in
  let score :=
    if includes certs "iso27001" || includes certs "soc2" then score + 10 else score in
  let score := if privacyProgram profile === "yes" then score + 10 else score in
  let score :=
    if truthy (lastAuditDate profile) && (lastAuditDate profile !== "never")
    then score + 10 else score in
  clamp score.

(** 4. Technical Security. *)
Definition calculateTechnicalScore (profile : Profile) : number :=
  let score := 50 in
  let score := if firewallEnabled profile === "yes" then score + 10 else score in
  let score := if networkSegmentation profile === "yes" then score + 10 else score in
  let score :=
    if (antivirus profile === "yes") || (edr profile === "yes") then score + 10 else score in
  let score :=
    if vulnerabilityScanning profile === "regular" then score + 15
    else if vulnerabilityScanning profile === "never" then score - 15
    else score in
  let score := if patchingAutomated profile === "yes" then score + 5 else score in
  clamp score.

(** 5. Application & Data Security. *)
Definition calculateApplicationScore (profile : Profile) : number :=
  let score := 50 in
  let score :=
    if mfa profile === "mandatory" then score + 25
    else if mfa profile === "optional" then score - 10
    else score - 25 in
  let score := if sso profile === "yes" then score + 5 else score in
  let score := if encryption profile === "yes" then score + 15 else score in
  let score := if codeReview profile === "yes" then score + 10 else score in
  clamp score.

(** 6. Operational Security. *)
Definition calculateOperationalScore (profile : Profile) : number :=
  let score := 50 in
  let score := if incidentResponsePlan profile === "yes" then score + 20 else score - 15 in
  let score := if securityTraining profile === "regular" then score + 15 else score - 10 in
  let score := if vendorRiskProgram profile === "yes" then score + 10 else score in
  clamp score.

Record Labels : Type := mkLabels {
  l_governance : string;
  l_risk : string;
  l_compliance : string;
  l_technical : string;
  l_application : string;
  l_operational : string
}.

Record MaturityResult : Type := mkMaturity {
  overall : Z;
  governance : Z;
  risk : Z;
  compliance : Z;
  technical : Z;
  application : Z;
  operational : Z;
  labels : Labels
}.

(** [entry?.weight || 0.166]: the fallback applies when the entry is
    missing and when its weight is the falsy number 0. *)
Definition weightOr (entry : option DimensionEntry) : number :=
  match entry with
  | Some e => if Qeq_bool (weight e) 0 then 0.166 else weight e
  | None => 0.166
  end.

(** The weighted sum of the six dimension scores under [dims]. *)
Definition weightedSum (dims : Dimensions) (s_gov s_risk s_comp s_tech s_app s_ops : number)
  : number :=
  s_gov * weightOr (d_governance dims) +
  s_risk * weightOr (d_risk dims) +
  s_comp * weightOr (d_compliance dims) +
  s_tech * weightOr (d_technical dims) +
  s_app * weightOr (d_application dims) +
  s_ops * weightOr (d_operational dims).

(** [config.dimensions], where [config] is what the two lookups produced:
    an inherited property has no [dimensions], so [dims] is undefined and
    the first [dims.governance] raises; a missing [default] entry leaves
    [config] itself undefined. *)
Definition dimensionsOf (config : property IndustryConfig) : result Dimensions :=
  match config with
  | OwnProperty c => Ok (dimensions c)
  | InheritedProperty =>
      Throw (TypeError "Cannot read properties of undefined (reading 'governance')")
  | Undefined =>
      Throw (TypeError "Cannot read properties of undefined (reading 'dimensions')")
  end.

(** ToPropertyKey of [profile.industry]. *)
Definition industryProperty (profile : Profile) : string := showStr (industry profile).

(** The first two statements of [calculateMaturityScore]: the key that
    is looked up and the value the lookups leave in [config]. *)
Definition selectConfig (W : WeightTable) (profile : Profile) : property IndustryConfig :=
  let industryKey :=
    match getProperty W (industryProperty profile) with
    | Undefined => "default"
    | _ => industryProperty profile
    end in
  match getProperty W industryKey with
  | Undefined => getProperty W "default"
  | c => c
  end.

(** [calculateMaturityScore], with the weight table as a parameter. *)
Definition calculateMaturityScoreIn (W : WeightTable) (profile : Profile)
  : result MaturityResult :=
  let config := selectConfig W profile in
  let s_gov := calculateGovernanceScore profile in
  let s_risk := calculateRiskScore profile in
  let s_comp := calculateComplianceScore profile in
  let s_tech := calculateTechnicalScore profile in
  let s_app := calculateApplicationScore profile in
  let s_ops := calculateOperationalScore profile in
  dims <- dimensionsOf config ;;
  let overall := weightedSum dims s_gov s_risk s_comp s_tech s_app s_ops in
  let overall := if mfa profile === "none" then overall - 5 else overall in
  let overall := if backupFrequency profile === "none" then overall - 5 else overall in
  Ok {| overall := Math_round (clamp overall);
        governance := Math_round s_gov;
        risk := Math_round s_risk;
        compliance := Math_round s_comp;
        technical := Math_round s_tech;
        application := Math_round s_app;
        operational := Math_round s_ops;
        labels := {| l_governance := "Governance & Strategy";
                     l_risk := "Risk & Continuity";
                     l_compliance := "Compliance & Privacy";
                     l_technical := "Technical Security";
                     l_application := "App & Data Security";
                     l_operational := "Operational Security" |} |}.

Definition calculateMaturityScore (profile : Profile) : result MaturityResult :=
  calculateMaturityScoreIn INDUSTRY_WEIGHTS profile.


(** *** Gaps *)

Inductive Severity : Type := Critical | High | Medium.

Record Gap : Type := mkGap {
  category : string;
  severity : Severity;
  description : string
}.

Definition gapGovernance : Gap :=
  mkGap "Governance" High "Lack of formal security leadership and documented policies.".
Definition gapNoBackup : Gap :=
  mkGap "Risk" Critical "No backup strategy found—data loss is imminent in an attack.".
Definition gapNoBcp : Gap :=
  mkGap "Risk" Medium "Undefined Business Continuity Plan.".
Definition gapCompliance : Gap :=
  mkGap "Compliance" High "Compliance posture is weak for a regulated industry.".
Definition gapNoScanning : Gap :=
  mkGap "Technical" High "No visibility into system vulnerabilities.".
Definition gapNoMfa : Gap :=
  mkGap "Application" Critical "Multi-Factor Authentication (MFA) is not enabled.".
Definition gapNoEncryption : Gap :=
  mkGap "Application" High "Sensitive data is not encrypted.".
Definition gapNoIncidentResponse : Gap :=
  mkGap "Operational" High "No Incident Response Plan to handle breaches.".
Definition gapNoTraining : Gap :=
  mkGap "Operational" Medium "Employees are not trained on security risks.".

Definition identifyGaps (profile : Profile) (scores : MaturityResult) : list Gap :=
  let gaps := [] in
  (* 1. Governance *)
  let gaps := if (governance scores <? 60)%Z then push gaps gapGovernance else gaps in
  (* 2. Risk *)
  let gaps := if backupFrequency profile === "none" then push gaps gapNoBackup else gaps in
  let gaps :=
    if (bcpDocumented profile !== "yes") && (risk scores <? 50)%Z
    then push gaps gapNoBcp else gaps in
  (* 3. Compliance *)
  let gaps :=
    if (compliance scores <? 50)%Z &&
       ((industry profile === "fintech") || (industry profile === "healthcare"))
    then push gaps gapCompliance else gaps in
  (* 4. Technical *)
  let gaps :=
    if vulnerabilityScanning profile === "never" then push gaps gapNoScanning else gaps in
  (* 5. Application *)
  let gaps := if mfa profile === "none" then push gaps gapNoMfa else gaps in
  let gaps := if encryption profile === "no" then push gaps gapNoEncryption else gaps in
  (* 6. Operational *)
  let gaps :=
    if incidentResponsePlan profile !== "yes" then push gaps gapNoIncidentResponse else gaps in
  let gaps := if securityTraining profile !== "regular" then push gaps gapNoTraining else gaps in
  gaps.

End ScoringFramework.

(* ================================================================== *)
(** ** The risk register shared by both revisions of grcEngine *)

Module RiskRegister.

Definition LIKELIHOOD_SCALE : list (Z * string) :=
  [ (1, "Rare"); (2, "Unlikely"); (3, "Possible"); (4, "Likely"); (5, "Almost Certain") ].

Definition CONSEQUENCE_SCALE : list (Z * string) :=
  [ (1, "Insignificant"); (2, "Minor"); (3, "Moderate"); (4, "Major");
    (5, "Catastrophic"); (6, "Doomsday") ].

(** [SCALE[n]]: undefined ([None]) outside the table. *)
Definition scaleLabel (scale : list (Z * string)) (n : Z) : option string :=
  option_map snd (find (fun kv => fst kv =? n) scale).

(** The [id] of a record is the temporary string [R<n>] while it sits in
    the pool and a number once the selection has been renumbered. *)
Inductive RiskId : Type :=
| TempId (s : string)
| SeqId (n : Z).

Record RiskRecord : Type := mkRisk {
  id : RiskId;
  risk : string;
  likelihoodScore : Z;
  likelihoodLabel : option string;
  consequenceScore : Z;
  consequenceLabel : option string;
  score : Z;
  level : string;
  mitigation : string
}.

(** The two variables [addToPool] closes over. *)
Record PoolState : Type := mkPool {
  pool : list RiskRecord;
  idCounter : Z
}.

Definition emptyPool : PoolState := mkPool [] 1.

Section AddToPool.

Variable getRiskLevel : Z -> string.

Definition addToPool (st : PoolState) (risk : string)
  (likelihoodScore consequenceScore : Z) (mitigation : string) : PoolState :=
  let score := likelihoodScore * consequenceScore in
  {| pool := push (pool st)
       ( {| id := TempId ("R" ++ showZ (idCounter st));
            risk := risk;
            likelihoodScore := likelihoodScore;
            likelihoodLabel := scaleLabel LIKELIHOOD_SCALE likelihoodScore;
            consequenceScore := consequenceScore;
            consequenceLabel := scaleLabel CONSEQUENCE_SCALE consequenceScore;
            score := score;
            level := getRiskLevel score;
            mitigation := mitigation |} );
     idCounter := idCounter st + 1 |}.

End AddToPool.

(** [pool.sort((a, b) => b.score - a.score)]: [Array.prototype.sort] is
    stable, so the result is the stable sort under the comparator, written
    here as an insertion sort that keeps equal elements in pool order. *)
Definition byScoreDesc (a b : RiskRecord) : Z := score b - score a.

Fixpoint insertBy {A} (cmp : A -> A -> Z) (x : A) (l : list A) : list A :=
  match l with
  | [] => [x]
  | y :: ys => if 0 <? cmp x y then y :: insertBy cmp x ys else x :: y :: ys
  end.

Definition sortBy {A} (cmp : A -> A -> Z) (l : list A) : list A :=
  fold_right (insertBy cmp) [] l.

(** [arr.slice(0, n)]. *)
Definition slice0 {A} (n : nat) (l : list A) : list A := firstn n l.

(** [arr.map((r, index) => f r index)]. *)
Fixpoint mapIndexFrom {A B} (f : A -> Z -> B) (index : Z) (l : list A) : list B :=
  match l with
  | [] => []
  | r :: rs => f r index :: mapIndexFrom f (index + 1) rs
  end.

Definition mapIndex {A B} (f : A -> Z -> B) (l : list A) : list B :=
  mapIndexFrom f 0 l.

(** [{ ...r, id: index + 1 }]. *)
Definition renumber (r : RiskRecord) (index : Z) : RiskRecord :=
  {| id := SeqId (index + 1);
     risk := risk r;
     likelihoodScore := likelihoodScore r;
     likelihoodLabel := likelihoodLabel r;
     consequenceScore := consequenceScore r;
     consequenceLabel := consequenceLabel r;
     score := score r;
     level := level r;
     mitigation := mitigation r |}.

(** Sort, keep the top [n], renumber: the tail of [generateBaseRisks]. *)
Definition selectTop (n : nat) (pool : list RiskRecord) : list RiskRecord :=
  let sorted := sortBy byScoreDesc pool in
  let selectedRisks := slice0 n sorted in
  mapIndex renumber selectedRisks.

End RiskRegister.

(* ================================================================== *)
(** ** aiEngine: the text-generation collaborator, as grcEngine sees it *)

Module AiEngine.

Record QuantifiedRisk : Type := mkQuantified {
  q_risk : string;
  sle : number;
  aro : number;
  ale : number;
  mitigationCost : number;
  roi : number
}.

(** What [generateRecommendations] resolves to: an object whose
    [recommendations] property may be missing. *)
Record RecommendationsResult (R : Type) : Type := mkRecResult {
  recommendations : option (list R)
}.
Arguments mkRecResult {R} _.
Arguments recommendations {R} _.

(** The four exported generators.  Each either resolves to a value or
    rejects; a rejection covers a transport error, a timeout, an
    unparseable answer and a failure while the prompt is being built. *)
Record Collaborator (R : Type) : Type := mkCollaborator {
  generateExecutiveSummary :
    Profile -> ScoringFramework.MaturityResult -> result string;
  generateRecommendations :
    Profile -> list ScoringFramework.Gap -> ScoringFramework.MaturityResult ->
    result (RecommendationsResult R);
  generateComplianceRoadmap : Profile -> result string;
  quantifyRisks : Profile -> list RiskRegister.RiskRecord -> result (list QuantifiedRisk)
}.
Arguments generateExecutiveSummary {R} _ _ _.
Arguments generateRecommendations {R} _ _ _ _.
Arguments generateComplianceRoadmap {R} _ _.
Arguments quantifyRisks {R} _ _ _.

(** [try { body } catch (error) { handler }]. *)
Definition tryCatch {A} (body : result A) (handler : error -> A) : A :=
  match body with
  | Ok a => a
  | Throw e => handler e
  end.

(** The line feed of a template literal. *)
Definition nl : string := String (ascii_of_nat 10) "".

End AiEngine.

(* ================================================================== *)
(** ** grcEngine (src/logic/grcEngine.js): top 15, breakpoints 6/15/25 *)

Module GrcEngine.

Import RiskRegister.

Definition getRiskLevel (score : Z) : string :=
  if 25 <=? score then "Extreme"
  else if 15 <=? score then "High"
  else if 6 <=? score then "Medium"
  else "Low".

Definition add := addToPool getRiskLevel.

(** The profile-based rules, one per block of the source; each takes the
    pool state the previous block left. *)

(* Remote *)
Definition remoteRule (profile : Profile) (st : PoolState) : PoolState :=
  if remote profile === "yes"
  then add st "Remote Endpoint Compromise"
         (if mfa profile === "mandatory" then 2 else 4) 4
         "Enforce Endpoint Encryption, VPN, and Mandatory MFA"
  else st.

(* Cloud *)
Definition cloudRule (profile : Profile) (st : PoolState) : PoolState :=
  if hosting profile === "cloud"
  then add st "Cloud Misconfiguration / Data Leak" 3 5 "CSPM, Regular automated audits"
  else st.

(* Ransomware (Backup checks) *)
Definition ransomwareRule (profile : Profile) (st : PoolState) : PoolState :=
  if backupFrequency profile === "none"
  then add st "Ransomware Data Loss" 5 6 "Implement 3-2-1 Backup Strategy immediately"
  else add st "Ransomware Operational Impact" 3 4 "Test Restore Procedures".

(* Auth *)
Definition authRule (profile : Profile) (st : PoolState) : PoolState :=
  if mfa profile === "none"
  then add st "Credential Reuse / Brute Force" 5 4 "Implement MFA for all accesses"
  else st.

(* Encryption *)
Definition encryptionRule (profile : Profile) (st : PoolState) : PoolState :=
  if encryption profile === "no"
  then add st "Data Theft in Transit/Rest" 3 5 "Enable full disk encryption and TLS 1.3"
  else st.

(* Incident Response *)
Definition incidentResponseRule (profile : Profile) (st : PoolState) : PoolState :=
  if incidentResponsePlan profile === "no"
  then add st "Chaotic Breach Response" 4 4 "Develop and Test IR Playbooks"
  else st.

(* Supply Chain *)
Definition supplyChainRule (profile : Profile) (st : PoolState) : PoolState :=
  if vendorRiskProgram profile === "no"
  then add st "Third-Party Vendor Breach" 3 4 "Implement Vendor Risk Assessments"
  else st.

(** The universal risks, always present. *)
Definition universalRisks (profile : Profile) (st : PoolState) : PoolState :=
  let st := add st "Phishing / Social Engineering" 4 4 "Security Awareness Training" in
  let st := add st "Insider Threat" 2 3 "Least Privilege Access Control" in
  let st := add st "Unpatched Vulnerabilities"
              (if patchingAutomated profile === "yes" then 2 else 4) 4
              "Automated Patch Management" in
  let st := add st "Shadow IT" 3 2 "CASB and Policy Enforcement" in
  let st := add st "DDoS Attack" 2 3 "DDoS Mitigation Service" in
  let st := add st "Regulatory Fines" 2 5 "Compliance Gap Analysis" in
  st.

(** The pool as it stands just before the sort. *)
Definition riskPool (profile : Profile) : list RiskRecord :=
  let st := emptyPool in
  let st := remoteRule profile st in
  let st := cloudRule profile st in
  let st := ransomwareRule profile st in
  let st := authRule profile st in
  let st := encryptionRule profile st in
  let st := incidentResponseRule profile st in
  let st := supplyChainRule profile st in
  let st := universalRisks profile st in
  pool st.

(** The size of the slice the engine keeps. *)
Definition TOP_N : nat := 15.

Definition generateBaseRisks (profile : Profile) : list RiskRecord :=
  selectTop TOP_N (riskPool profile).

(** *** Fallbacks *)

Import AiEngine.
Definition generateFallbackSummary (profile : Profile) (maturity : ScoringFramework.MaturityResult)
  (gaps : list ScoringFramework.Gap) : string :=
  "# Executive Summary for " ++ showStr (name profile) ++ nl ++ nl ++
  "Overall Score: **" ++ showZ (ScoringFramework.overall maturity) ++ "%**" ++ nl ++ nl ++
  "Identified " ++ showZ (Z.of_nat (List.length gaps)) ++
  " key gaps. Recommendations follow below.".

Record FallbackRecommendation : Type := mkFallbackRec {
  rec_id : Z;
  title : string;
  priority : ScoringFramework.Severity;
  steps : list string
}.

Definition generateFallbackRecommendations (gaps : list ScoringFramework.Gap)
  : list FallbackRecommendation :=
  mapIndex
    (fun gap i =>
       {| rec_id := i + 1;
          title := "Fix " ++ ScoringFramework.category gap ++ " Issue";
          priority := ScoringFramework.severity gap;
          steps := [ "Investigate"; "Remediate" ] |})
    (slice0 10 gaps).

Definition generateFallbackComplianceRoadmap (profile : Profile) : string :=
  "# Compliance Roadmap" ++ nl ++ nl ++
  "Focus on standard frameworks relevant to " ++ showStr (industry profile) ++ ".".

(** *** The report *)

Record Methodology : Type := mkMethodology {
  m_title : string;
  m_executiveSummary : string;
  m_framework : string;
  m_principles : list (string * string);
  m_controls : list string
}.

Definition generateMethodologyOverview : Methodology :=
  {| m_title := "Six-Pillar Security Framework";
     m_executiveSummary :=
       "This assessment evaluates the organization's security posture across six critical dimensions: Governance, Risk, Compliance, Technical Security, Application Security, and Operational Security. It utilizes industry-standard weighting and scoring to provide an actionable roadmap.";
     m_framework := "Standardized GRC Maturity Model";
     m_principles :=
       [ ("Holistic", "Covering people, process, and technology.");
         ("Risk-Based", "Prioritizing remediation based on potential business impact.");
         ("Defensible", "Aligning with recognized standards like NIST CSF and ISO 27001.") ];
     m_controls := [ "Strategic"; "Tactical"; "Operational" ] |}.

Record SectionData : Type := mkSection {
  s_score : Z;
  s_title : string
}.

Record Sections : Type := mkSections {
  sec_governance : SectionData;
  sec_risk : SectionData;
  sec_compliance : SectionData;
  sec_technical : SectionData;
  sec_application : SectionData;
  sec_operational : SectionData
}.

(** An entry of [report.recommendations]: what the collaborator returned,
    or what the fallback built. *)
Inductive Recommendation (R : Type) : Type :=
| FromAI (r : R)
| FromFallback (f : FallbackRecommendation).
Arguments FromAI {R} r.
Arguments FromFallback {R} f.

Record Report (R B : Type) : Type := mkReport {
  executiveSummary : string;
  recommendations : list (Recommendation R);
  complianceRoadmap : string;
  maturity : ScoringFramework.MaturityResult;
  benchmarks : B;
  gaps : list ScoringFramework.Gap;
  risks : list RiskRecord;
  quantifiedRisks : list QuantifiedRisk;
  methodology : Methodology;
  sections : Sections
}.
Arguments executiveSummary {R B} _.
Arguments recommendations {R B} _.
Arguments complianceRoadmap {R B} _.
Arguments maturity {R B} _.
Arguments benchmarks {R B} _.
Arguments gaps {R B} _.
Arguments risks {R B} _.
Arguments quantifiedRisks {R B} _.
Arguments methodology {R B} _.
Arguments sections {R B} _.

(** The shape the catch block of step 8 gives a base risk. *)
Definition unquantified (r : RiskRecord) : QuantifiedRisk :=
  {| q_risk := risk r; sle := 0%Q; aro := 0%Q; ale := 0%Q;
     mitigationCost := 0%Q; roi := 0%Q |}.

Section GenerateReport.

(** The objects the collaborator puts in its recommendation list. *)
Variable R : Type.

(** [getBenchmarkComparison] is imported from ./benchmarks, which is not
    among the sources; the report only stores what it returns, so it is a
    parameter here. *)
Variable Benchmarks : Type.
Variable getBenchmarkComparison : Profile -> Z -> Benchmarks.

Variable ai : Collaborator R.

Definition generateReport (profile : Profile) : result (Report R Benchmarks) :=
  (* 1. maturity scores *)
  maturity <- ScoringFramework.calculateMaturityScore profile ;;
  (* 2. benchmarks *)
  let benchmarks := getBenchmarkComparison profile (ScoringFramework.overall maturity) in
  (* 3. gaps *)
  let gaps := ScoringFramework.identifyGaps profile maturity in
  (* 4. risk scenarios *)
  let baseRisks := generateBaseRisks profile in
  (* 5. executive summary *)
  let executiveSummary :=
    tryCatch (generateExecutiveSummary ai profile maturity)
             (fun _ => generateFallbackSummary profile maturity gaps) in
  (* 6. recommendations *)
  let aiRecommendations :=
    tryCatch
      (result <- generateRecommendations ai profile gaps maturity ;;
       Ok (match AiEngine.recommendations result with
           | Some l => map FromAI l
           | None => []
           end))
      (fun _ => map FromFallback (generateFallbackRecommendations gaps)) in
  (* 7. compliance roadmap *)
  let complianceRoadmap :=
    tryCatch (generateComplianceRoadmap ai profile)
             (fun _ => generateFallbackComplianceRoadmap profile) in
  (* 8. risk quantification *)
  let quantifiedRisks :=
    tryCatch (quantifyRisks ai profile baseRisks)
             (fun _ => map unquantified baseRisks) in
  Ok {| executiveSummary := executiveSummary;
        recommendations := aiRecommendations;
        complianceRoadmap := complianceRoadmap;
        maturity := maturity;
        benchmarks := benchmarks;
        gaps := gaps;
        risks := baseRisks;
        quantifiedRisks := quantifiedRisks;
        methodology := generateMethodologyOverview;
        sections :=
          {| sec_governance :=
               mkSection (ScoringFramework.governance maturity) (ScoringFramework.l_governance (ScoringFramework.labels maturity));
             sec_risk :=
               mkSection (ScoringFramework.risk maturity) (ScoringFramework.l_risk (ScoringFramework.labels maturity));
             sec_compliance :=
               mkSection (ScoringFramework.compliance maturity) (ScoringFramework.l_compliance (ScoringFramework.labels maturity));
             sec_technical :=
               mkSection (ScoringFramework.technical maturity) (ScoringFramework.l_technical (ScoringFramework.labels maturity));
             sec_application :=
               mkSection (ScoringFramework.application maturity) (ScoringFramework.l_application (ScoringFramework.labels maturity));
             sec_operational :=
               mkSection (ScoringFramework.operational maturity) (ScoringFramework.l_operational (ScoringFramework.labels maturity)) |} |}.

End GenerateReport.

End GrcEngine.

(* ================================================================== *)
(** ** grcEngine, the revision for the full profile: top 12, breakpoints 6/12/20 *)

Module GrcEngine12.

Import RiskRegister.

Definition getRiskLevel (score : Z) : string :=
  if 20 <=? score then "Extreme"
  else if 12 <=? score then "High"
  else if 6 <=? score then "Medium"
  else "Low".

Definition add := addToPool getRiskLevel.

(** [a || b] where either operand may raise; [b] is not evaluated when
    [a] is true. *)
Definition orElse (a b : result bool) : result bool :=
  x <- a ;; if x then Ok true else b.

(** The conditional rules, one per block of the source; each takes the
    pool state the previous block left. *)

(* Remote Access *)
Definition remoteAccessRule (profile : Profile) (st : PoolState) : PoolState :=
  if remote profile === "yes"
  then add st "Remote Endpoint Compromise"
         (if mfa profile === "mandatory" then 2 else 4) 4
         "Enforce Endpoint Encryption, VPN, and Mandatory MFA"
  else st.

(* Cloud Configuration *)
Definition cloudConfigurationRule (profile : Profile) (st : PoolState) : PoolState :=
  if hosting profile === "cloud"
  then add st "Cloud Misconfiguration"
         (if cloudDataClassification profile === "yes" then 2 else 4) 5
         "Enable Cloud Security Posture Management (CSPM), Regular Audits"
  else st.

(* Supply Chain *)
Definition supplyChainRule (profile : Profile) (st : PoolState) : PoolState :=
  if (vendors profile === "yes") || gtZero (criticalVendorCount profile)
  then add st "Supply Chain / Third-Party Breach"
         (if vendorRiskAssessments profile === "yes" then 2 else 4) 4
         "Vendor Risk Assessment Program, Least Privilege Access, SLAs"
  else st.

(* Data Leakage *)
Definition dataLeakageRule (profile : Profile) (st : PoolState) : result PoolState :=
  sensitive <- orElse (includesOf (dataTypes profile) "pii")
                 (orElse (includesOf (dataTypes profile) "financial")
                         (includesOf (dataTypes profile) "health")) ;;
  Ok (if sensitive
      then add st "Data Breach / Leakage (Sensitive Data)"
             (if (dataEncryptionAtRest profile === "yes") &&
                 (dataEncryptionInTransit profile === "yes") then 2 else 4) 5
             "Data Loss Prevention (DLP), Encryption at Rest/Transit, Access Logging"
      else st).

(* Ransomware *)
Definition ransomwareRule (profile : Profile) (st : PoolState) : PoolState :=
  if backupFrequency profile === "none"
  then add st "Ransomware Attack with Data Loss" 5 6
         "Implement Backup Strategy, Offline Backups, Incident Response Plan"
  else add st "Ransomware Attack (Recoverable)" 3 4
         "Regular Backups, EDR, Incident Response Plan".

(* Weak Auth *)
Definition weakAuthRule (profile : Profile) (st : PoolState) : PoolState :=
  if mfa profile !== "mandatory"
  then add st "Credential Stuffing / Brute Force" 5 4
         "Mandatory MFA, Strong Password Policies, Account Lockout"
  else st.

(* Log Failure *)
Definition logFailureRule (profile : Profile) (st : PoolState) : PoolState :=
  if logging profile !== "advanced"
  then add st "Failure to Detect Intrusions" 4 4
         "Centralized Logging, SIEM, Real-time Alerting"
  else st.

(* Compliance *)
Definition complianceRule (profile : Profile) (st : PoolState) : result PoolState :=
  exposed <- (if compliance profile === "none"
              then orElse (includesOf (dataTypes profile) "pii")
                          (Ok (industry profile === "healthcare"))
              else Ok false) ;;
  Ok (if exposed
      then add st "Regulatory Non-Compliance Fines" 5 5
             "Compliance Audits, Legal Counsel, Policy Management"
      else st).

(** The conditional rules, in source order. *)
Definition profileRisks (profile : Profile) : result PoolState :=
  let st := emptyPool in
  let st := remoteAccessRule profile st in
  let st := cloudConfigurationRule profile st in
  let st := supplyChainRule profile st in
  st <- dataLeakageRule profile st ;;
  let st := ransomwareRule profile st in
  let st := weakAuthRule profile st in
  let st := logFailureRule profile st in
  st <- complianceRule profile st ;;
  Ok st.

(** The universal rules, appended to whatever the conditional rules left. *)
Definition universalRisks (profile : Profile) (st : PoolState) : PoolState :=
  let st := add st "Insider Threat / Privilege Abuse"
              (if privilegedAccessManagement profile === "yes" then 2 else 3) 3
              "RBAC, Privileged Access Management, Audit Logging" in
  let st := add st "Social Engineering & Phishing Attacks" 4 4
              "Security Awareness Training, Phishing Simulations, Email Filtering" in
  let st := add st "Exploitation of Unpatched Vulnerabilities" 3 4
              "Automated Patch Management, Regular Vulnerability Scanning" in
  let st := add st "Unsanctioned Shadow IT Usage" 3 2
              "Cloud Access Security Broker (CASB), Software Asset Management" in
  let st := add st "Web Application Attacks (SQLi, XSS)" 3 4
              "Web Application Firewall (WAF), Secure Code Review, DAST/SAST" in
  let st := add st "Denial of Service (DDoS) Attack" 2 3
              "DDoS Protection Services (e.g., Cloudflare), Redundancy" in
  let st := add st "Mobile Device Compromise (BYOD)" 3 3
              "Mobile Device Management (MDM), Containerization, Remote Wipe" in
  let st := add st "Insecure API Endpoints" 3 4
              "API Gateway, Rate Limiting, API Authentication" in
  let st := add st "Data Integrity Corruption" 1 5
              "File Integrity Monitoring (FIM), Checksums, Backup Validation" in
  let st := add st "Physical Security Breach" 2 3
              "Access Cards, CCTV, Visitor Management" in
  let st := add st "Reputational Damage from Incident" 3 5
              "Crisis Communication Plan, PR Strategy" in
  let st := add st "Theft of Intellectual Property" 2 5
              "DLP, Access Control, NDA, DRM" in
  let st := add st "Business Interruption / Failure" 2 6
              "Business Continuity Plan (BCP), Disaster Recovery (DR) Drills" in
  let st := add st "Insecure Default Configurations" 3 4
              "Hardening Benchmarks (CIS), Automated Config Management" in
  let st := add st "Network Eavesdropping / MitM"
              (if dataEncryptionInTransit profile === "yes" then 1 else 2) 3
              "End-to-End Encryption, VPN, Mutual TLS" in
  let st := add st "Inadequate Employee Offboarding" 3 3
              "Automated Account Deprovisioning, Exit Interviews" in
  let st := add st "Data Leakage via AI/LLM Tools" 4 4
              "AI Usage Policy, Enterprise AI Gateways" in
  let st := add st "Brand Impersonation on Social Media" 3 2
              "Social Media Monitoring, Verified Profiles" in
  st.

(** The pool as it stands just before the sort. *)
Definition riskPool (profile : Profile) : result (list RiskRecord) :=
  st <- profileRisks profile ;;
  Ok (pool (universalRisks profile st)).

Definition TOP_N : nat := 12.

Definition generateBaseRisks (profile : Profile) : result (list RiskRecord) :=
  pool <- riskPool profile ;;
  Ok (selectTop TOP_N pool).

(** *** Fallbacks *)

Import AiEngine.

(** [arr[i]?.description || dflt]. *)
Definition descriptionOr (l : list ScoringFramework.Gap) (i : nat) (dflt : string) : string :=
  match nth_error l i with
  | Some g =>
      if String.eqb (ScoringFramework.description g) "" then dflt
      else ScoringFramework.description g
  | None => dflt
  end.

Definition isCritical (g : ScoringFramework.Gap) : bool :=
  match ScoringFramework.severity g with
  | ScoringFramework.Critical => true
  | _ => false
  end.

Definition generateFallbackSummary (profile : Profile)
  (maturity : ScoringFramework.MaturityResult) (gaps : list ScoringFramework.Gap) : string :=
  let criticalGaps := filter isCritical gaps in
  "# Executive Summary" ++ nl ++ nl ++
  showStr (name profile) ++ " has achieved an overall security maturity score of **" ++
  showZ (ScoringFramework.overall maturity) ++
  "%** based on comprehensive assessment across governance, access control, risk management, and compliance dimensions." ++
  nl ++ nl ++
  "**Key Findings:**" ++ nl ++
  "- " ++ showZ (Z.of_nat (List.length criticalGaps)) ++ " critical security gaps identified" ++ nl ++
  "- Current maturity level: " ++
  (if 80 <=? ScoringFramework.overall maturity then "Strong"
   else if 60 <=? ScoringFramework.overall maturity then "Moderate"
   else "Developing") ++ nl ++
  "- Industry: " ++ showStr (industry profile) ++ nl ++
  "- Employee Count: " ++ showNum (employees profile) ++ nl ++ nl ++
  "**Priority Actions Required:**" ++ nl ++
  "1. " ++ descriptionOr criticalGaps 0 "Improve overall security posture" ++ nl ++
  "2. " ++ descriptionOr criticalGaps 1 "Enhance compliance documentation" ++ nl ++
  "3. " ++ descriptionOr criticalGaps 2 "Implement missing technical controls".

Record FallbackRecommendation : Type := mkFallbackRec {
  rec_id : Z;
  title : string;
  rec_category : string;
  priority : ScoringFramework.Severity;
  businessImpact : string;
  steps : list string;
  estimatedCost : Z * Z;
  timeline : string;
  resources : string * string;
  successMetrics : list string;
  quickWins : list string
}.

Definition generateFallbackRecommendations (gaps : list ScoringFramework.Gap)
  (profile : Profile) : list FallbackRecommendation :=
  mapIndex
    (fun gap i =>
       {| rec_id := i + 1;
          title := "Address " ++ ScoringFramework.category gap ++ " Gap";
          rec_category := ScoringFramework.category gap;
          priority := ScoringFramework.severity gap;
          businessImpact := ScoringFramework.description gap;
          steps := [ "Assess current state"; "Design solution";
                     "Implement controls"; "Verify effectiveness" ];
          estimatedCost := (5000, 25000);
          timeline := "4-8 weeks";
          resources := ("1 FTE for 4 weeks", "TBD based on specific solution");
          successMetrics := [ "Gap closed"; "Risk reduced" ];
          quickWins := [] |})
    (slice0 10 gaps).

(** The roadmap template reads [profile.dataTypes.includes] twice, so the
    fallback itself raises when the list is missing. *)
Definition generateFallbackComplianceRoadmap (profile : Profile) : result string :=
  pii <- includesOf (dataTypes profile) "pii" ;;
  financial <- includesOf (dataTypes profile) "financial" ;;
  Ok ("# Compliance Roadmap for " ++ showStr (name profile) ++ nl ++ nl ++
      "Based on your industry (" ++ showStr (industry profile) ++
      ") and data types, the following compliance frameworks are recommended:" ++ nl ++ nl ++
      "1. **ISO 27001** - Information Security Management System" ++ nl ++
      "2. **SOC 2 Type II** - Trust Service Criteria for " ++ showStr (industry profile) ++ nl ++
      (if pii then "3. **GDPR/CCPA** - Privacy regulations (REQUIRED)" ++ nl else "") ++ nl ++
      (if financial then "4. **PCI-DSS** - Payment Card Industry (REQUIRED)" ++ nl else "") ++
      nl ++ nl ++
      "Contact a compliance consultant for detailed roadmap implementation.").

(** *** Supporting sections *)

Definition generateGovernanceSection (profile : Profile) : list (string * string) :=
  [ ("System Owner", "Executive accountable for system operations and security.");
    (if cisoPresent profile === "yes" then "CISO" else "Security Officer",
     if cisoPresent profile === "yes"
     then "Chief Information Security Officer leading security strategy."
     else "Responsible for security controls implementation.");
    (if privacyOfficerAppointed profile === "yes"
     then "Data Protection Officer (DPO)" else "Privacy Lead",
     if privacyOfficerAppointed profile === "yes"
     then "Ensures privacy compliance (GDPR/CCPA)."
     else "Designated privacy point of contact.") ].

Definition generatePrivilegeMatrix (profile : Profile) : list (string * string) :=
  [ ("Super Admin", "Full System Access (Read/Write/Delete/Config)");
    ("Security Admin", "Security Tools, Logs, Audit (Read/Write)");
    ("Manager", "Dept Data (Read/Write), User Mgmt (Dept only)");
    ("Standard User", "Own Data (Read/Write), Public Data (Read)");
    ("Auditor", "Logs & Reports (Read Only)") ].

(** Each entry is [(std, status)]. *)
Definition generateComplianceSection (profile : Profile) : result (list (string * string)) :=
  let certs := existingCertifications profile in
  let frameworks := [] in
  (* ISO 27001 *)
  let frameworks :=
    push frameworks
      ("ISO 27001",
       if includesOpt certs "iso27001" then "✅ Certified" else "Recommended Framework") in
  (* GDPR/CCPA *)
  needsPrivacy <- orElse (includesOf (dataTypes profile) "pii")
                    (Ok ((region profile === "eu") || (region profile === "us"))) ;;
  let frameworks :=
    push frameworks
      ("GDPR/CCPA",
       if includesOpt certs "gdpr" || includesOpt certs "ccpa" then "✅ Compliant"
       else if needsPrivacy then "⚠️ REQUIRED" else "N/A") in
  (* PCI-DSS *)
  pci <- (if includesOpt certs "pci_dss" then Ok "✅ Compliant"
          else financial <- includesOf (dataTypes profile) "financial" ;;
               Ok (if financial then "⚠️ REQUIRED" else "N/A")) ;;
  let frameworks := push frameworks ("PCI-DSS", pci) in
  (* SOC 2 *)
  let frameworks :=
    push frameworks
      ("SOC 2",
       if includesOpt certs "soc2" then "✅ Certified"
       else if (industry profile === "saas") || (industry profile === "fintech")
            then "Highly Recommended" else "Optional") in
  (* HIPAA *)
  hipaa <- orElse (Ok (industry profile === "healthcare"))
             (includesOf (dataTypes profile) "health") ;;
  let frameworks :=
    if hipaa
    then push frameworks
           ("HIPAA", if includesOpt certs "hipaa" then "✅ Compliant" else "⚠️ REQUIRED")
    else frameworks in
  Ok frameworks.

Record LoggingSection : Type := mkLogging {
  retention : string;
  alerts : string;
  frequency : string
}.

Definition generateLoggingSection (profile : Profile) : LoggingSection :=
  {| retention :=
       if logging profile === "advanced"
       then "12 Months (90 days hot, 9 months archive)" else "6 Months";
     alerts :=
       if siemDeployed profile === "yes"
       then "Real-time SIEM alerts enabled" else "Basic error monitoring only";
     frequency :=
       if logging profile === "advanced"
       then "Daily automated analysis, Weekly manual review" else "Monthly review" |}.

(** *** The report *)

Inductive Recommendation (R : Type) : Type :=
| FromAI (r : R)
| FromFallback (f : FallbackRecommendation).
Arguments FromAI {R} r.
Arguments FromFallback {R} f.

(** The [access] entry of the source's report (user counts and control
    labels formatted from numeric fields) is not carried: it reads no
    property of a possibly undefined value and no other entry uses it. *)
Record Report (R B : Type) : Type := mkReport {
  executiveSummary : string;
  recommendations : list (Recommendation R);
  complianceRoadmap : string;
  maturity : ScoringFramework.MaturityResult;
  benchmarks : B;
  gaps : list ScoringFramework.Gap;
  risks : list RiskRecord;
  quantifiedRisks : list QuantifiedRisk;
  r_governance : list (string * string);
  r_matrix : list (string * string);
  r_compliance : list (string * string);
  r_logging : LoggingSection
}.
Arguments executiveSummary {R B} _.
Arguments recommendations {R B} _.
Arguments complianceRoadmap {R B} _.
Arguments maturity {R B} _.
Arguments benchmarks {R B} _.
Arguments gaps {R B} _.
Arguments risks {R B} _.
Arguments quantifiedRisks {R B} _.

Definition unquantified (r : RiskRecord) : QuantifiedRisk :=
  {| q_risk := risk r; sle := 0%Q; aro := 0%Q; ale := 0%Q;
     mitigationCost := 0%Q; roi := 0%Q |}.

(** [try { body } catch (error) { handler }] where the handler may raise. *)
Definition tryCatchM {A} (body : result A) (handler : error -> result A) : result A :=
  match body with
  | Ok a => Ok a
  | Throw e => handler e
  end.

Section GenerateReport.

Variable R : Type.

(** [getBenchmarkComparison] is imported from ./benchmarks, which is not
    among the sources; the report only stores what it returns, so it is a
    parameter here. *)
Variable Benchmarks : Type.
Variable getBenchmarkComparison : Profile -> Z -> Benchmarks.

Variable ai : Collaborator R.

Definition generateReport (profile : Profile) : result (Report R Benchmarks) :=
  (* 1. maturity scores *)
  maturity <- ScoringFramework.calculateMaturityScore profile ;;
  (* 2. benchmarks *)
  let benchmarks := getBenchmarkComparison profile (ScoringFramework.overall maturity) in
  (* 3. gaps *)
  let gaps := ScoringFramework.identifyGaps profile maturity in
  (* 4. risk scenarios *)
  baseRisks <- generateBaseRisks profile ;;
  (* 5. executive summary *)
  let executiveSummary :=
    tryCatch (generateExecutiveSummary ai profile maturity)
             (fun _ => generateFallbackSummary profile maturity gaps) in
  (* 6. recommendations *)
  let aiRecommendations :=
    tryCatch
      (result <- generateRecommendations ai profile gaps maturity ;;
       Ok (match AiEngine.recommendations result with
           | Some l => map FromAI l
           | None => []
           end))
      (fun _ => map FromFallback (generateFallbackRecommendations gaps profile)) in
  (* 7. compliance roadmap *)
  complianceRoadmap <-
    tryCatchM (generateComplianceRoadmap ai profile)
              (fun _ => generateFallbackComplianceRoadmap profile) ;;
  (* 8. risk quantification *)
  let quantifiedRisks :=
    tryCatch (quantifyRisks ai profile baseRisks)
             (fun _ => map unquantified baseRisks) in
  (* supporting data *)
  let governance := generateGovernanceSection profile in
  let matrix := generatePrivilegeMatrix profile in
  compliance <- generateComplianceSection profile ;;
  let logging := generateLoggingSection profile in
  Ok {| executiveSummary := executiveSummary;
        recommendations := aiRecommendations;
        complianceRoadmap := complianceRoadmap;
        maturity := maturity;
        benchmarks := benchmarks;
        gaps := gaps;
        risks := baseRisks;
        quantifiedRisks := quantifiedRisks;
        r_governance := governance;
        r_matrix := matrix;
        r_compliance := compliance;
        r_logging := logging |}.

End GenerateReport.

End GrcEngine12.

(* ================================================================== *)
(** ** The specification's reading of the scorer and of the gap rules *)

Module Spec.

Import ScoringFramework.

Local Open Scope Q_scope.

(** The maturity result of the assessment form's initial profile. *)
Definition formMaturity : MaturityResult :=
  {| overall := 24; governance := 35; risk := 10; compliance := 50;
     technical := 55; application := 25; operational := 25;
     labels := {| l_governance := "Governance & Strategy";
                  l_risk := "Risk & Continuity";
                  l_compliance := "Compliance & Privacy";
                  l_technical := "Technical Security";
                  l_application := "App & Data Security";
                  l_operational := "Operational Security" |} |}.

(** "The selected industry's dimension weights": the entry of the table
    under [profile.industry] when the table has that key, and the entry
    under [default] otherwise. *)
Definition selectedConfig (W : WeightTable) (profile : Profile) : option IndustryConfig :=
  match find (fun kv => String.eqb (fst kv) (industryProperty profile)) W with
  | Some kv => Some (snd kv)
  | None => option_map snd (find (fun kv => String.eqb (fst kv) "default") W)
  end.

Definition weightOf (entry : option DimensionEntry) : number :=
  match entry with
  | Some e => weight e
  | None => 0
  end.

(** "Sigma dimensionScore_i x weight_i". *)
Definition weightedScore (c : IndustryConfig) (gov rsk comp tech app ops : number) : number :=
  gov * weightOf (d_governance (dimensions c)) +
  rsk * weightOf (d_risk (dimensions c)) +
  comp * weightOf (d_compliance (dimensions c)) +
  tech * weightOf (d_technical (dimensions c)) +
  app * weightOf (d_application (dimensions c)) +
  ops * weightOf (d_operational (dimensions c)).

(** The six dimension scores of a profile, before rounding. *)
Definition rawGovernance := calculateGovernanceScore.
Definition rawRisk := calculateRiskScore.
Definition rawCompliance := calculateComplianceScore.
Definition rawTechnical := calculateTechnicalScore.
Definition rawApplication := calculateApplicationScore.
Definition rawOperational := calculateOperationalScore.

(** The weighted score of a profile under a configuration. *)
Definition weightedScoreOf (c : IndustryConfig) (profile : Profile) : number :=
  weightedScore c (rawGovernance profile) (rawRisk profile) (rawCompliance profile)
    (rawTechnical profile) (rawApplication profile) (rawOperational profile).

(** The weighted score recomputed from the rounded dimension scores of a
    result. *)
Definition weightedScoreOfResult (c : IndustryConfig) (r : MaturityResult) : number :=
  weightedScore c (inject_Z (governance r)) (inject_Z (risk r)) (inject_Z (compliance r))
    (inject_Z (technical r)) (inject_Z (application r)) (inject_Z (operational r)).

(** A result whose seven scores all lie in [0,100]. *)
Definition scoresInRange (r : MaturityResult) : Prop :=
  (0 <= overall r <= 100 /\ 0 <= governance r <= 100 /\ 0 <= risk r <= 100 /\
   0 <= compliance r <= 100 /\ 0 <= technical r <= 100 /\
   0 <= application r <= 100 /\ 0 <= operational r <= 100)%Z.

(** "Minus 5 if MFA is entirely absent, minus 5 if no backups exist": a
    function of the two fields alone. *)
Definition globalPenalty (mfa backupFrequency : option string) : number :=
  (if mfa === "none" then 5 else 0) + (if backupFrequency === "none" then 5 else 0).

(** Every entry of the table carries its six weights, none of them zero,
    so the [|| 0.166] fallback of the source never fires on it. *)
Definition declaredWeights (c : IndustryConfig) : Prop :=
  weightOr (d_governance (dimensions c)) = weightOf (d_governance (dimensions c)) /\
  weightOr (d_risk (dimensions c)) = weightOf (d_risk (dimensions c)) /\
  weightOr (d_compliance (dimensions c)) = weightOf (d_compliance (dimensions c)) /\
  weightOr (d_technical (dimensions c)) = weightOf (d_technical (dimensions c)) /\
  weightOr (d_application (dimensions c)) = weightOf (d_application (dimensions c)) /\
  weightOr (d_operational (dimensions c)) = weightOf (d_operational (dimensions c)).

(** The table with every penalty and bonus list removed. *)
Definition withoutAdjustments (W : WeightTable) : WeightTable :=
  map (fun kv => (fst kv, mkConfig (dimensions (snd kv)) None None)) W.

(** Two tables that differ at most in their penalty and bonus lists. *)
Definition sameDimensions (W W' : WeightTable) : Prop :=
  map (fun kv => (fst kv, dimensions (snd kv))) W =
  map (fun kv => (fst kv, dimensions (snd kv))) W'.

(** The gap rules as a table, in the order the source declares them:
    each rule is a guard paired with the gap it emits. *)
Definition gapRules : list ((Profile -> MaturityResult -> bool) * Gap) :=
  [ (fun _ scores => (governance scores <? 60)%Z, gapGovernance);
    (fun profile _ => backupFrequency profile === "none", gapNoBackup);
    (fun profile scores =>
       (bcpDocumented profile !== "yes") && (risk scores <? 50)%Z, gapNoBcp);
    (fun profile scores =>
       (compliance scores <? 50)%Z &&
       ((industry profile === "fintech") || (industry profile === "healthcare")),
     gapCompliance);
    (fun profile _ => vulnerabilityScanning profile === "never", gapNoScanning);
    (fun profile _ => mfa profile === "none", gapNoMfa);
    (fun profile _ => encryption profile === "no", gapNoEncryption);
    (fun profile _ => incidentResponsePlan profile !== "yes", gapNoIncidentResponse);
    (fun profile _ => securityTraining profile !== "regular", gapNoTraining) ].

(** The gaps of the rules whose guard fired, in rule order. *)
Definition firedGaps (profile : Profile) (scores : MaturityResult) : list Gap :=
  map snd (filter (fun rule => fst rule profile scores) gapRules).

(** A list in which some [High] gap stands before some [Critical] one. *)
Definition highBeforeCritical (gaps : list Gap) : Prop :=
  exists l1 g l2 g' l3,
    gaps = (l1 ++ g :: l2 ++ g' :: l3)%list /\
    severity g = High /\ severity g' = Critical.

End Spec.

(** The risk-register properties of the specification. *)
Module RiskSpec.

Import RiskRegister.

(** "score == likelihoodScore * consequenceScore". *)
Definition scoreIsProduct (r : RiskRecord) : Prop :=
  score r = likelihoodScore r * consequenceScore r.

(** "Ordered by non-increasing score". *)
Definition sortedByScoreDesc (l : list RiskRecord) : Prop :=
  StronglySorted (fun a b => score b <= score a) l.

(** "Ids are exactly 1..length with no gaps", in list order. *)
Definition idsFromOne (l : list RiskRecord) : Prop :=
  map id l = map (fun k => SeqId (Z.of_nat k)) (seq 1 (List.length l)).

(** A record with the given name, ordinals and score occurs in [l]. *)
Definition hasRisk (name : string) (likelihood consequence total : Z)
  (l : list RiskRecord) : Prop :=
  exists r, In r l /\ risk r = name /\ likelihoodScore r = likelihood /\
            consequenceScore r = consequence /\ score r = total.

(** The same, as a test. *)
Definition hasRiskb (name : string) (likelihood consequence total : Z)
  (l : list RiskRecord) : bool :=
  existsb (fun r => String.eqb (risk r) name && (likelihoodScore r =? likelihood) &&
                    (consequenceScore r =? consequence) && (score r =? total)) l.

(** How many records of [l] score at least [t]. *)
Definition countGe (t : Z) (l : list RiskRecord) : nat :=
  List.length (filter (fun r => t <=? score r) l).

(** [adds g t k st st']: [st'] is [st] after some calls of [addToPool],
    at most [k] of which may add a record scoring [t] or more. *)
Inductive adds (g : Z -> string) (t : Z) : nat -> PoolState -> PoolState -> Prop :=
| adds_none k st : adds g t k st st
| adds_low k st st' name l c m :
    adds g t k st st' -> l * c < t ->
    adds g t k st (addToPool g st' name l c m)
| adds_high k st st' name l c m :
    adds g t k st st' ->
    adds g t (S k) st (addToPool g st' name l c m).

End RiskSpec.

(** The collaborator whose four generators always reject. *)
Module Outage.

Import AiEngine.

Definition generationFailed : error := Error "AI generation failed".

Definition failing (R : Type) : Collaborator R :=
  {| generateExecutiveSummary := fun _ _ => Throw generationFailed;
     generateRecommendations := fun _ _ _ => Throw generationFailed;
     generateComplianceRoadmap := fun _ => Throw generationFailed;
     quantifyRisks := fun _ _ => Throw generationFailed |}.

(** Every call [generateReport] makes to [ai] for [profile] rejects. *)
Definition allFail {R} (ai : Collaborator R) (profile : Profile) : Prop :=
  (forall maturity, exists e, generateExecutiveSummary ai profile maturity = Throw e) /\
  (forall gaps maturity, exists e, generateRecommendations ai profile gaps maturity = Throw e) /\
  (exists e, generateComplianceRoadmap ai profile = Throw e) /\
  (forall risks, exists e, quantifyRisks ai profile risks = Throw e).

End Outage.

(* ================================================================== *)
(** ** What the rules put in the pool *)

From Stdlib Require Import Permutation.

Module PoolSpec.

Import RiskRegister.

(** [built g P st st']: [st'] is [st] after some calls of [addToPool],
    each with a name and two ordinals that satisfy [P]. *)
Inductive built (g : Z -> string) (P : string -> Z -> Z -> Prop)
  : PoolState -> PoolState -> Prop :=
| built_none st : built g P st st
| built_add st st' name l c m :
    built g P st st' -> P name l c ->
    built g P st (addToPool g st' name l c m).

(** [st'] holds between [lo] and [hi] records more than [st]. *)
Definition grows (lo hi : nat) (st st' : PoolState) : Prop :=
  (List.length (pool st) + lo <= List.length (pool st') /\
   List.length (pool st') <= List.length (pool st) + hi)%nat.

(** A record as [addToPool] makes them under the classifier [g], with a
    name and ordinals that satisfy [P]. *)
Definition madeBy (g : Z -> string) (P : string -> Z -> Z -> Prop) (r : RiskRecord) : Prop :=
  P (risk r) (likelihoodScore r) (consequenceScore r) /\
  score r = likelihoodScore r * consequenceScore r /\
  level r = g (score r) /\
  likelihoodLabel r = scaleLabel LIKELIHOOD_SCALE (likelihoodScore r) /\
  consequenceLabel r = scaleLabel CONSEQUENCE_SCALE (consequenceScore r).

(** Ordinals on the two scales. *)
Definition onScales (l c : Z) : Prop := 1 <= l <= 5 /\ 1 <= c <= 6.

(** What the engine that keeps 15 can add for a profile: ordinals on the
    scales, a score of 6 or more, and a score of 25 or more only when the
    profile has no backups. *)
Definition entry15 (profile : Profile) (name : string) (l c : Z) : Prop :=
  onScales l c /\ 6 <= l * c /\
  (25 <= l * c -> (backupFrequency profile === "none") = true).

(** What the engine that keeps 12 can add: ordinals on the scales. *)
Definition entry12 (name : string) (l c : Z) : Prop := onScales l c.

(** A record whose ordinals are on the scales, whose score is their
    product, whose level is the class of that score under [g], and whose
    two labels are defined. *)
Definition wellFormed (g : Z -> string) (r : RiskRecord) : Prop :=
  onScales (likelihoodScore r) (consequenceScore r) /\
  score r = likelihoodScore r * consequenceScore r /\
  1 <= score r <= 30 /\
  level r = g (score r) /\
  likelihoodLabel r <> None /\
  consequenceLabel r <> None.

(** The fields of a record other than its [id]. *)
Definition content (r : RiskRecord)
  : string * Z * option string * Z * option string * Z * string * string :=
  (risk r, likelihoodScore r, likelihoodLabel r, consequenceScore r,
   consequenceLabel r, score r, level r, mitigation r).

End PoolSpec.

(* ================================================================== *)
(** ** pages/Report.jsx: what the page takes from the report *)

Module ReportPage.

Import RiskRegister.


Section GetRecs.

(** The objects the collaborator puts in its recommendation list, and
    their [category] property. *)
Variable R : Type.
Variable categoryOf : R -> option string.

(** [String.prototype.toLowerCase]. *)
Variable toLowerCase : string -> string.

(** [r.category]: the fallback objects of this engine are built without
    that property. *)
Definition category (r : GrcEngine.Recommendation R) : option string :=
  match r with
  | GrcEngine.FromAI a => categoryOf a
  | GrcEngine.FromFallback _ => None
  end.



End GetRecs.

(** The rows of the risk table: [data.risks.slice(0, 5)]. *)
Definition riskRows (risks : list RiskRecord) : list RiskRecord := slice0 5 risks.

End ReportPage.

(* ================================================================== *)
(** ** The risk matrix of the report page (src/unnamed/part_002) *)

Module RiskMatrix.

Import RiskRegister.

Definition likelihoods : list Z := [5; 4; 3; 2; 1].
Definition consequences : list Z := [1; 2; 3; 4; 5; 6].

(** The key of a cell: [`${l}-${c}`]. *)
Definition cellKey (l c : Z) : string := showZ l ++ "-" ++ showZ c.

(** [obj[key] = v] on an object given by its own entries. *)
Fixpoint setProperty {A} (obj : list (string * A)) (key : string) (v : A)
  : list (string * A) :=
  match obj with
  | [] => [(key, v)]
  | (k, a) :: rest =>
      if String.eqb k key then (k, v) :: rest else (k, a) :: setProperty rest key v
  end.

Definition RiskMap := list (string * list RiskId).

(** The body of [risks.forEach]: create the cell's list when the lookup is
    falsy, then push the id.  A lookup that lands on an inherited property
    is truthy and has no [push]. *)
Definition addRisk (riskMap : RiskMap) (r : RiskRecord) : result RiskMap :=
  let key := cellKey (likelihoodScore r) (consequenceScore r) in
  let riskMap :=
    match getProperty riskMap key with
    | Undefined => setProperty riskMap key []
    | _ => riskMap
    end in
  match getProperty riskMap key with
  | OwnProperty ids => Ok (setProperty riskMap key (push ids (id r)))
  | InheritedProperty => Throw (TypeError "riskMap[key].push is not a function")
  | Undefined => Throw (TypeError "Cannot read properties of undefined (reading 'push')")
  end.

Fixpoint forEachRisk (riskMap : RiskMap) (risks : list RiskRecord) : result RiskMap :=
  match risks with
  | [] => Ok riskMap
  | r :: rest => riskMap <- addRisk riskMap r ;; forEachRisk riskMap rest
  end.

Definition buildRiskMap (risks : list RiskRecord) : result RiskMap :=
  forEachRisk [] risks.

(** [riskMap[`${l}-${c}`] || []]; [None] when the lookup lands on an
    inherited property, which is no list of ids. *)
Definition cellIds (riskMap : RiskMap) (l c : Z) : option (list RiskId) :=
  match getProperty riskMap (cellKey l c) with
  | OwnProperty ids => Some ids
  | Undefined => Some []
  | InheritedProperty => None
  end.

Definition getCellColor (l c : Z) : string :=
  let score := l * c in
  if 25 <=? score then "#ef4444"
  else if 15 <=? score then "#f97316"
  else if 6 <=? score then "#eab308"
  else "#22c55e".

(** The badge of a record in the risk table of the same page:
    [r.level === 'Extreme' ? red : r.level === 'High' ? orange :
     r.level === 'Medium' ? amber : green]. *)
Definition levelColor (level : string) : string :=
  if String.eqb level "Extreme" then "#ef4444"
  else if String.eqb level "High" then "#f97316"
  else if String.eqb level "Medium" then "#eab308"
  else "#22c55e".

(** The ids of the records of [risks] with likelihood [l] and consequence
    [c], in the order of [risks]. *)
Definition idsAt (l c : Z) (risks : list RiskRecord) : list RiskId :=
  map id (filter (fun r => (likelihoodScore r =? l) && (consequenceScore r =? c)) risks).

(** The ids a lookup finds, none when the cell has not been made. *)
Definition idsOf (v : property (list RiskId)) : list RiskId :=
  match v with
  | OwnProperty ids => ids
  | _ => []
  end.

(** Whether the character [ch] occurs in [s]. *)
Fixpoint occurs (ch : ascii) (s : string) : bool :=
  match s with
  | EmptyString => false
  | String a rest => Ascii.eqb a ch || occurs ch rest
  end.

End RiskMatrix.

(* ================================================================== *)
(** ** components/SlideDeck (src/unnamed/part_003) *)

Module SlideDeck.

(** [a + b], [a - b] and [a % b] on integers and NaN; the remainder takes
    the sign of the dividend and is NaN for a zero divisor. *)
Definition plus (a b : jsnum) : jsnum :=
  match a, b with
  | Int x, Int y => Int (x + y)
  | _, _ => NaN
  end.

Definition minus (a b : jsnum) : jsnum :=
  match a, b with
  | Int x, Int y => Int (x - y)
  | _, _ => NaN
  end.

Definition remainder (a b : jsnum) : jsnum :=
  match a, b with
  | Int x, Int y => if y =? 0 then NaN else Int (Z.rem x y)
  | _, _ => NaN
  end.

Section Deck.

Variable Slide : Type.
Variable slides : list Slide.

Definition slides_length : jsnum := Int (Z.of_nat (List.length slides)).

(** The updaters handed to [setCurrentSlide]. *)
Definition nextSlide (prev : jsnum) : jsnum :=
  remainder (plus prev (Int 1)) slides_length.

Definition prevSlide (prev : jsnum) : jsnum :=
  remainder (plus (minus prev (Int 1)) slides_length) slides_length.

(** [slides[currentSlide]]: undefined ([None]) off the array. *)
Definition slideAt (currentSlide : jsnum) : option Slide :=
  match currentSlide with
  | Int z => if z <? 0 then None else nth_error slides (Z.to_nat z)
  | NaN => None
  end.

(** The values [currentSlide] can take: 0 at first, then whatever the
    two arrows and the dots (one per slide, [setCurrentSlide(idx)]) give. *)
Inductive reachable : jsnum -> Prop :=
| reach_initial : reachable (Int 0)
| reach_next cur : reachable cur -> reachable (nextSlide cur)
| reach_prev cur : reachable cur -> reachable (prevSlide cur)
| reach_dot cur idx :
    reachable cur -> (idx < List.length slides)%nat -> reachable (Int (Z.of_nat idx)).

End Deck.

End SlideDeck.

(* ================================================================== *)
(** ** pages/Assessment.jsx: the wizard around the form *)

Module Assessment.

Definition totalSteps : Z := 6.

Definition COMPLIANCE_LIST : list (string * string) :=
  [ ("iso27001", "ISO 27001"); ("soc2", "SOC 2 Type II"); ("pci_dss", "PCI-DSS");
    ("hipaa", "HIPAA"); ("gdpr", "GDPR / CCPA"); ("nist", "NIST CSF") ].

(** The state of the component, and the profile handed to [onComplete]
    once that has been called. *)
Record Wizard : Type := mkWizard {
  step : Z;
  formData : Profile;
  completed : option Profile
}.

Definition initial : Wizard := mkWizard 1 formDefaults None.

(** [next]: advance, or on the last step hand the form over. *)
Definition next (w : Wizard) : Wizard :=
  if step w <? totalSteps
  then mkWizard (step w + 1) (formData w) (completed w)
  else mkWizard (step w) (formData w) (Some (formData w)).

(** [back]: [setStep(Math.max(1, step - 1))]. *)
Definition back (w : Wizard) : Wizard :=
  mkWizard (Z.max 1 (step w - 1)) (formData w) (completed w).

(** The fields the inputs of the form write with
    [update(field, e.target.value)] or [update(field, v)]. *)
Inductive TextField : Type :=
| f_name
| f_industry
| f_policiesDocumented
| f_cisoPresent
| f_managementReview
| f_riskAssessmentFreq
| f_bcpDocumented
| f_backupFrequency
| f_cyberInsurance
| f_privacyProgram
| f_lastAuditDate
| f_firewallEnabled
| f_networkSegmentation
| f_antivirus
| f_patchingAutomated
| f_vulnerabilityScanning
| f_mfa
| f_sso
| f_encryption
| f_codeReview
| f_incidentResponsePlan
| f_vendorRiskProgram
| f_securityTraining.

(** The calls of [update] in the form: a text for one of the fields
    above, or [parseInt(e.target.value)] for the team size. *)
Inductive Edit : Type :=
| SetText (field : TextField) (value : string)
| SetSecurityTeamSize (value : jsnum).

Definition sameField (f g : TextField) : bool :=
  match f, g with
  | f_name, f_name => true
  | f_industry, f_industry => true
  | f_policiesDocumented, f_policiesDocumented => true
  | f_cisoPresent, f_cisoPresent => true
  | f_managementReview, f_managementReview => true
  | f_riskAssessmentFreq, f_riskAssessmentFreq => true
  | f_bcpDocumented, f_bcpDocumented => true
  | f_backupFrequency, f_backupFrequency => true
  | f_cyberInsurance, f_cyberInsurance => true
  | f_privacyProgram, f_privacyProgram => true
  | f_lastAuditDate, f_lastAuditDate => true
  | f_firewallEnabled, f_firewallEnabled => true
  | f_networkSegmentation, f_networkSegmentation => true
  | f_antivirus, f_antivirus => true
  | f_patchingAutomated, f_patchingAutomated => true
  | f_vulnerabilityScanning, f_vulnerabilityScanning => true
  | f_mfa, f_mfa => true
  | f_sso, f_sso => true
  | f_encryption, f_encryption => true
  | f_codeReview, f_codeReview => true
  | f_incidentResponsePlan, f_incidentResponsePlan => true
  | f_vendorRiskProgram, f_vendorRiskProgram => true
  | f_securityTraining, f_securityTraining => true
  | _, _ => false
  end.

(** [update]: [{ ...p, [field]: value }]. *)
Definition update (e : Edit) (p : Profile) : Profile :=
  let text (f : TextField) (old : option string) : option string :=
    match e with
    | SetText field value => if sameField f field then Some value else old
    | SetSecurityTeamSize _ => old
    end in
  let number (old : option jsnum) : option jsnum :=
    match e with
    | SetSecurityTeamSize value => Some value
    | SetText _ _ => old
    end in
  mkProfile
    (text f_name (name p))
    (region p)
    (text f_industry (industry p))
    (employees p)
    (text f_policiesDocumented (policiesDocumented p))
    (text f_cisoPresent (cisoPresent p))
    (number (securityTeamSize p))
    (text f_managementReview (managementReview p))
    (text f_riskAssessmentFreq (riskAssessmentFreq p))
    (text f_bcpDocumented (bcpDocumented p))
    (text f_backupFrequency (backupFrequency p))
    (text f_cyberInsurance (cyberInsurance p))
    (complianceFrameworks p)
    (text f_privacyProgram (privacyProgram p))
    (text f_lastAuditDate (lastAuditDate p))
    (text f_firewallEnabled (firewallEnabled p))
    (text f_networkSegmentation (networkSegmentation p))
    (text f_antivirus (antivirus p))
    (edr p)
    (text f_vulnerabilityScanning (vulnerabilityScanning p))
    (text f_patchingAutomated (patchingAutomated p))
    (text f_mfa (mfa p))
    (text f_sso (sso p))
    (text f_encryption (encryption p))
    (text f_codeReview (codeReview p))
    (text f_incidentResponsePlan (incidentResponsePlan p))
    (text f_securityTraining (securityTraining p))
    (text f_vendorRiskProgram (vendorRiskProgram p))
    (remote p)
    (hosting p)
    (criticalVendorCount p)
    (cloudDataClassification p)
    (vendors p)
    (vendorRiskAssessments p)
    (dataTypes p)
    (dataEncryptionAtRest p)
    (dataEncryptionInTransit p)
    (logging p)
    (compliance p)
    (privilegedAccessManagement p)
    (existingCertifications p)
    (privacyOfficerAppointed p)
    (siemDeployed p).

(** The array [toggle] stores:
    [arr.includes(value) ? arr.filter(x => x !== value) : [...arr, value]]. *)
Definition toggled (arr : list string) (value : string) : list string :=
  if includes arr value
  then filter (fun x => negb (String.eqb x value)) arr
  else (arr ++ [value])%list.

Definition withComplianceFrameworks (v : option (list string)) (p : Profile) : Profile :=
  mkProfile (name p) (region p) (industry p) (employees p)
    (policiesDocumented p) (cisoPresent p) (securityTeamSize p) (managementReview p)
    (riskAssessmentFreq p) (bcpDocumented p) (backupFrequency p) (cyberInsurance p)
    v (privacyProgram p) (lastAuditDate p)
    (firewallEnabled p) (networkSegmentation p) (antivirus p) (edr p)
    (vulnerabilityScanning p) (patchingAutomated p)
    (mfa p) (sso p) (encryption p) (codeReview p)
    (incidentResponsePlan p) (securityTraining p) (vendorRiskProgram p)
    (remote p) (hosting p) (criticalVendorCount p)
    (cloudDataClassification p) (vendors p) (vendorRiskAssessments p) (dataTypes p)
    (dataEncryptionAtRest p) (dataEncryptionInTransit p) (logging p) (compliance p)
    (privilegedAccessManagement p) (existingCertifications p)
    (privacyOfficerAppointed p) (siemDeployed p).

(** [toggle('complianceFrameworks', value)], the one use of [toggle] in
    the form. *)
Definition toggleFramework (value : string) (p : Profile) : result Profile :=
  match complianceFrameworks p with
  | Some arr => Ok (withComplianceFrameworks (Some (toggled arr value)) p)
  | None => Throw (TypeError "Cannot read properties of undefined (reading 'includes')")
  end.

(** The states the two buttons, the inputs and the check boxes (one per
    entry of [COMPLIANCE_LIST]) can lead to. *)
Inductive reachable : Wizard -> Prop :=
| reach_initial : reachable initial
| reach_next w : reachable w -> reachable (next w)
| reach_back w : reachable w -> reachable (back w)
| reach_update w e :
    reachable w -> reachable (mkWizard (step w) (update e (formData w)) (completed w))
| reach_toggle w value data :
    reachable w -> In value (map fst COMPLIANCE_LIST) ->
    toggleFramework value (formData w) = Ok data ->
    reachable (mkWizard (step w) data (completed w)).

End Assessment.

(* ================================================================== *)
(** ** Sample inputs *)

(** The form's initial answers with the industry set to fintech, and the
    result the scorer gives for them. *)
Definition fintechForm : Profile := withIndustry (Some "fintech") formDefaults.

Definition fintechMaturity : ScoringFramework.MaturityResult :=
  {| ScoringFramework.overall := 25;
     ScoringFramework.governance := 35;
     ScoringFramework.risk := 10;
     ScoringFramework.compliance := 50;
     ScoringFramework.technical := 55;
     ScoringFramework.application := 25;
     ScoringFramework.operational := 25;
     ScoringFramework.labels :=
       {| ScoringFramework.l_governance := "Governance & Strategy";
          ScoringFramework.l_risk := "Risk & Continuity";
          ScoringFramework.l_compliance := "Compliance & Privacy";
          ScoringFramework.l_technical := "Technical Security";
          ScoringFramework.l_application := "App & Data Security";
          ScoringFramework.l_operational := "Operational Security" |} |}.

(* ================================================================== *)
(** * Properties *)

Import ScoringFramework.

(** ** Numbers *)

Section Numbers.

Local Open Scope Q_scope.

Lemma clamp_bounds (x : number) : 0 <= clamp x /\ clamp x <= 100.
Proof.
  unfold clamp, Math_max, Math_min. split.
  - apply Q.le_max_l.
  - apply Q.max_lub; [ lra | apply Q.le_min_l ].
Qed.

Lemma clamp_id (x : number) : 0 <= x -> x <= 100 -> clamp x == x.
Proof.
  intros H0 H1. unfold clamp, Math_max, Math_min.
  rewrite (Q.min_r 100 x H1). now apply Q.max_r.
Qed.

(** [clamp] moves a number no further from a point of [0,100] than it
    was. *)
Lemma clamp_near (x y : number) :
  0 <= x -> x <= 100 ->
  (y <= x -> y <= clamp y /\ clamp y <= x) /\
  (x <= y -> x <= clamp y /\ clamp y <= y).
Proof.
  intros H0 H1. unfold clamp, Math_max, Math_min.
  destruct (Q.min_spec 100 y) as [[Hm Em] | [Hm Em]];
    destruct (Q.max_spec 0 (Qmin 100 y)) as [[Hx Ex] | [Hx Ex]];
    rewrite Ex; rewrite ?Em in *; split; intros Hxy; split; lra.
Qed.

Lemma clamp_compat (x y : number) : x == y -> clamp x == clamp y.
Proof.
  intros E. unfold clamp, Math_max, Math_min. now rewrite E.
Qed.

Lemma Math_round_compat (x y : number) : x == y -> Math_round x = Math_round y.
Proof.
  intros E. unfold Math_round. now rewrite E.
Qed.

Lemma Math_round_bounds (x : number) :
  0 <= x -> x <= 100 -> (0 <= Math_round x <= 100)%Z.
Proof.
  intros H0 H1. unfold Math_round. split.
  - change 0%Z with (Qfloor 0). apply Qfloor_resp_le. lra.
  - change 100%Z with (Qfloor (100 + (1 # 2))). apply Qfloor_resp_le. lra.
Qed.

(** Whatever number reaches it, [Math.round(clamp(x))] is an integer of
    [0,100]. *)
Lemma rounded_clamp_in_range (x : number) : (0 <= Math_round (clamp x) <= 100)%Z.
Proof. apply Math_round_bounds; apply clamp_bounds. Qed.

(** [Math.round] moves a number by at most one half. *)
Lemma Math_round_near (x : number) :
  inject_Z (Math_round x) - (1 # 2) <= x /\ x < inject_Z (Math_round x) + (1 # 2).
Proof.
  unfold Math_round.
  pose proof (Qfloor_le (x + (1 # 2))) as Hl.
  pose proof (Qlt_floor (x + (1 # 2))) as Hu.
  rewrite inject_Z_plus in Hu. change (inject_Z 1) with 1 in Hu.
  split; lra.
Qed.

Lemma Math_round_int (z : Z) : Math_round (inject_Z z) = z.
Proof.
  unfold Math_round.
  pose proof (Qfloor_le (inject_Z z + (1 # 2))) as Hl.
  pose proof (Qlt_floor (inject_Z z + (1 # 2))) as Hu.
  set (f := Qfloor (inject_Z z + (1 # 2))) in *.
  rewrite inject_Z_plus in Hu. change (inject_Z 1) with 1 in Hu.
  assert (Ha : inject_Z f < inject_Z (z + 1)).
  { rewrite inject_Z_plus. change (inject_Z 1) with 1. lra. }
  assert (Hb : inject_Z z < inject_Z (f + 1)).
  { rewrite inject_Z_plus. change (inject_Z 1) with 1. lra. }
  rewrite <- Zlt_Qlt in Ha, Hb. lia.
Qed.

End Numbers.

(** ** Dimension scores *)

(** Evaluate the comparisons whose field value is known. *)
Ltac eval_known :=
  repeat match goal with
         | |- context [strictEq (Some ?a) ?b] =>
             let v := eval vm_compute in (strictEq (Some a) b) in
             change (strictEq (Some a) b) with v
         end;
  cbn [negb].

Ltac split_ifs :=
  repeat match goal with
         | |- context [if ?b then _ else _] => destruct b
         end.

Section DimensionScores.

Local Open Scope Q_scope.

Ltac integer_score :=
  split_ifs;
  match goal with
  | |- exists z, ?q = inject_Z z /\ _ =>
      let v := eval vm_compute in (Qnum q) in
      exists v; split; [ vm_compute; reflexivity | lia ]
  end.

Lemma governance_score_integer (p : Profile) :
  exists z, calculateGovernanceScore p = inject_Z z /\ (35 <= z <= 100)%Z.
Proof. unfold calculateGovernanceScore. integer_score. Qed.

Lemma risk_score_integer (p : Profile) :
  exists z, calculateRiskScore p = inject_Z z /\ (10 <= z <= 100)%Z.
Proof. unfold calculateRiskScore. integer_score. Qed.

Lemma compliance_score_integer (p : Profile) :
  exists z, calculateComplianceScore p = inject_Z z /\ (50 <= z <= 100)%Z.
Proof. unfold calculateComplianceScore. integer_score. Qed.

Lemma technical_score_integer (p : Profile) :
  exists z, calculateTechnicalScore p = inject_Z z /\ (35 <= z <= 100)%Z.
Proof. unfold calculateTechnicalScore. integer_score. Qed.

Lemma application_score_integer (p : Profile) :
  exists z, calculateApplicationScore p = inject_Z z /\ (25 <= z <= 100)%Z.
Proof. unfold calculateApplicationScore. integer_score. Qed.

Lemma operational_score_integer (p : Profile) :
  exists z, calculateOperationalScore p = inject_Z z /\ (25 <= z <= 95)%Z.
Proof. unfold calculateOperationalScore. integer_score. Qed.

End DimensionScores.

(** ** The aggregate score *)

Section Aggregate.

Local Open Scope Q_scope.

Lemma penalty_steps (x : number) (m b : option string) :
  (let overall := x in
   let overall := if m === "none" then overall - 5 else overall in
   let overall := if b === "none" then overall - 5 else overall in
   overall) == x - Spec.globalPenalty m b.
Proof.
  unfold Spec.globalPenalty. cbv zeta.
  destruct (m === "none"), (b === "none"); generalize x; intro y; lra.
Qed.

(** The three ways the lookups can end. *)
Lemma selectConfig_cases (W : WeightTable) (p : Profile) :
  (exists c, selectConfig W p = OwnProperty c /\ Spec.selectedConfig W p = Some c) \/
  (selectConfig W p = InheritedProperty /\
   hasOwn W (industryProperty p) = false /\ inherited (industryProperty p) = true) \/
  (selectConfig W p = Undefined /\ hasOwn W "default" = false).
Proof.
  assert (Hfind : forall k, find (fun kv : string * IndustryConfig => String.eqb (fst kv) k) W = None ->
                            hasOwn W k = false).
  { intros k F. unfold hasOwn. destruct (existsb _ W) eqn:E; [ | reflexivity ].
    apply existsb_exists in E. destruct E as (kv & Hin & Hk).
    now rewrite (find_none _ _ F kv Hin) in Hk. }
  unfold selectConfig, Spec.selectedConfig, getProperty, inherited.
  set (k := industryProperty p).
  destruct (find (fun kv => String.eqb (fst kv) k) W) as [kv|] eqn:F.
  - rewrite F. left. now exists (snd kv).
  - destruct (existsb (String.eqb k) Object_prototype_keys) eqn:I.
    + rewrite F, I. right. left. auto.
    + destruct (find (fun kv => String.eqb (fst kv) "default") W) as [kv|] eqn:D.
      * left. now exists (snd kv).
      * right. right. vm_compute existsb. auto.
Qed.

(** What [calculateMaturityScoreIn] returns, when it returns: the
    configuration it read and the value of each field. *)
Lemma overall_inversion (W : WeightTable) (p : Profile) (r : MaturityResult) :
  calculateMaturityScoreIn W p = Ok r ->
  exists c, Spec.selectedConfig W p = Some c /\
    overall r =
      Math_round (clamp (weightedSum (dimensions c)
                           (calculateGovernanceScore p) (calculateRiskScore p)
                           (calculateComplianceScore p) (calculateTechnicalScore p)
                           (calculateApplicationScore p) (calculateOperationalScore p)
                         - Spec.globalPenalty (mfa p) (backupFrequency p))) /\
    governance r = Math_round (calculateGovernanceScore p) /\
    risk r = Math_round (calculateRiskScore p) /\
    compliance r = Math_round (calculateComplianceScore p) /\
    technical r = Math_round (calculateTechnicalScore p) /\
    application r = Math_round (calculateApplicationScore p) /\
    operational r = Math_round (calculateOperationalScore p).
Proof.
  unfold calculateMaturityScoreIn. cbv zeta.
  destruct (selectConfig_cases W p) as [(c & -> & Hsel) | [(-> & _) | (-> & _)]];
    cbn [dimensionsOf bind]; try discriminate.
  intros H. injection H as <-. exists c. split; [ exact Hsel | ].
  cbn [overall governance risk compliance technical application operational].
  repeat split; try reflexivity.
  apply Math_round_compat, clamp_compat.
  apply (penalty_steps (weightedSum (dimensions c) _ _ _ _ _ _)).
Qed.

(** When the scorer returns and when it raises. *)
Lemma maturity_returns (p : Profile) :
  inherited (industryProperty p) = false ->
  exists r, calculateMaturityScore p = Ok r.
Proof.
  intros Hk. unfold calculateMaturityScore, calculateMaturityScoreIn. cbv zeta.
  destruct (selectConfig_cases INDUSTRY_WEIGHTS p) as [(c & -> & _) | [(_ & _ & H) | (_ & H)]].
  - cbn [dimensionsOf bind]. eexists. reflexivity.
  - congruence.
  - discriminate H.
Qed.

Lemma maturity_raises (p : Profile) :
  hasOwn INDUSTRY_WEIGHTS (industryProperty p) = false ->
  inherited (industryProperty p) = true ->
  calculateMaturityScore p =
  Throw (TypeError "Cannot read properties of undefined (reading 'governance')").
Proof.
  intros Hown Hk. unfold calculateMaturityScore, calculateMaturityScoreIn. cbv zeta.
  destruct (selectConfig_cases INDUSTRY_WEIGHTS p)
    as [(c & E & Hsel) | [(-> & _ & _) | (_ & H)]].
  - exfalso. unfold Spec.selectedConfig in Hsel.
    destruct (find _ INDUSTRY_WEIGHTS) as [kv|] eqn:F.
    + apply find_some in F. destruct F as [Hin Hkv].
      unfold hasOwn in Hown.
      assert (existsb (fun kv => String.eqb (fst kv) (industryProperty p)) INDUSTRY_WEIGHTS = true)
        by (apply existsb_exists; eauto).
      congruence.
    + unfold selectConfig, getProperty in E. rewrite F in E.
      unfold inherited in Hk. rewrite Hk in E. rewrite F, Hk in E. discriminate E.
  - reflexivity.
  - discriminate H.
Qed.

Lemma selectedConfig_in (W : WeightTable) (p : Profile) (c : IndustryConfig) :
  Spec.selectedConfig W p = Some c -> In c (map snd W).
Proof.
  unfold Spec.selectedConfig. intros H.
  destruct (find _ W) as [kv|] eqn:F.
  - injection H as <-. apply in_map. now apply find_some in F.
  - destruct (find (fun kv => String.eqb (fst kv) "default") W) as [kv|] eqn:D;
      [ | discriminate ].
    injection H as <-. apply in_map. now apply find_some in D.
Qed.

Lemma table_weights_declared (c : IndustryConfig) :
  In c (map snd INDUSTRY_WEIGHTS) -> Spec.declaredWeights c.
Proof.
  cbn [map snd INDUSTRY_WEIGHTS In].
  intros [<- | [<- | [<- | [<- | []]]]]; repeat split.
Qed.

Lemma weightedSum_declared (c : IndustryConfig) (a b d e f g : number) :
  Spec.declaredWeights c ->
  weightedSum (dimensions c) a b d e f g = Spec.weightedScore c a b d e f g.
Proof.
  intros (H1 & H2 & H3 & H4 & H5 & H6).
  unfold weightedSum, Spec.weightedScore. now rewrite H1, H2, H3, H4, H5, H6.
Qed.

(** The weighted score of integer dimension scores within their ranges,
    less at most 10, stays inside [0,100] under every entry of the table. *)
Lemma weighted_score_in_range (c : IndustryConfig) (zg zr zc zt za zo : Z) (pen : number) :
  In c (map snd INDUSTRY_WEIGHTS) ->
  (35 <= zg <= 100)%Z -> (0 <= zr <= 100)%Z -> (50 <= zc <= 100)%Z ->
  (0 <= zt <= 100)%Z -> (0 <= za <= 100)%Z -> (0 <= zo <= 100)%Z ->
  0 <= pen -> pen <= 10 ->
  let x := Spec.weightedScore c (inject_Z zg) (inject_Z zr) (inject_Z zc)
             (inject_Z zt) (inject_Z za) (inject_Z zo) - pen in
  0 <= x /\ x <= 100.
Proof.
  intros Hin Hg Hr Hc Ht Ha Ho Hp0 Hp1.
  assert (Q35 : 35 <= inject_Z zg /\ inject_Z zg <= 100)
    by (split; [ change 35 with (inject_Z 35) | change 100 with (inject_Z 100) ];
        rewrite <- Zle_Qle; lia).
  assert (Qr : 0 <= inject_Z zr /\ inject_Z zr <= 100)
    by (split; [ change 0 with (inject_Z 0) | change 100 with (inject_Z 100) ];
        rewrite <- Zle_Qle; lia).
  assert (Qc : 50 <= inject_Z zc /\ inject_Z zc <= 100)
    by (split; [ change 50 with (inject_Z 50) | change 100 with (inject_Z 100) ];
        rewrite <- Zle_Qle; lia).
  assert (Qt : 0 <= inject_Z zt /\ inject_Z zt <= 100)
    by (split; [ change 0 with (inject_Z 0) | change 100 with (inject_Z 100) ];
        rewrite <- Zle_Qle; lia).
  assert (Qa : 0 <= inject_Z za /\ inject_Z za <= 100)
    by (split; [ change 0 with (inject_Z 0) | change 100 with (inject_Z 100) ];
        rewrite <- Zle_Qle; lia).
  assert (Qo : 0 <= inject_Z zo /\ inject_Z zo <= 100)
    by (split; [ change 0 with (inject_Z 0) | change 100 with (inject_Z 100) ];
        rewrite <- Zle_Qle; lia).
  generalize dependent (inject_Z zg). generalize dependent (inject_Z zr).
  generalize dependent (inject_Z zc). generalize dependent (inject_Z zt).
  generalize dependent (inject_Z za). generalize dependent (inject_Z zo).
  intros. cbn [map snd INDUSTRY_WEIGHTS In] in Hin. subst x.
  destruct Hin as [<- | [<- | [<- | [<- | []]]]];
    unfold Spec.weightedScore, Spec.weightOf;
    cbn [dimensions d_governance d_risk d_compliance d_technical d_application
         d_operational weight];
    split; lra.
Qed.

Lemma globalPenalty_range (m b : option string) :
  0 <= Spec.globalPenalty m b /\ Spec.globalPenalty m b <= 10.
Proof.
  unfold Spec.globalPenalty. destruct (m === "none"), (b === "none"); split; lra.
Qed.

(** C1. For every profile on which [calculateMaturityScore] returns, the
    [overall] field is the weighted sum of the six dimension scores under
    the selected industry's weights, less 5 when [mfa] is 'none' and less 5
    when [backupFrequency] is 'none', clamped to [0,100] and rounded; the
    same expression recomputed from the rounded dimension scores of the
    result differs from [overall] by at most 1; and the bound of 1 still
    holds when the sum fed to [clamp] is off by up to a quarter, so it does
    not hinge on how the individual operations round. *)
Theorem overall_is_weighted_sum (p : Profile) (r : MaturityResult) :
  calculateMaturityScore p = Ok r ->
  exists c,
    Spec.selectedConfig INDUSTRY_WEIGHTS p = Some c /\
    overall r =
      Math_round (clamp (Spec.weightedScoreOf c p -
                         Spec.globalPenalty (mfa p) (backupFrequency p))) /\
    Qabs (inject_Z (overall r) -
          (Spec.weightedScoreOfResult c r -
           Spec.globalPenalty (mfa p) (backupFrequency p))) <= 1 /\
    (forall x : number,
       Qabs (x - (Spec.weightedScoreOfResult c r -
                  Spec.globalPenalty (mfa p) (backupFrequency p))) <= 1 # 4 ->
       Qabs (inject_Z (Math_round (clamp x)) -
             (Spec.weightedScoreOfResult c r -
              Spec.globalPenalty (mfa p) (backupFrequency p))) <= 1).
Proof.
  intros H. apply overall_inversion in H.
  destruct H as (c & Hsel & Ho & Hg & Hr & Hc & Ht & Ha & Hp).
  exists c. split; [ exact Hsel | ].
  pose proof (selectedConfig_in _ _ _ Hsel) as Hin.
  rewrite (weightedSum_declared _ _ _ _ _ _ _ (table_weights_declared _ Hin)) in Ho.
  split; [ exact Ho | ].
  destruct (governance_score_integer p) as (zg & Eg & Bg).
  destruct (risk_score_integer p) as (zr & Er & Br).
  destruct (compliance_score_integer p) as (zc & Ec & Bc).
  destruct (technical_score_integer p) as (zt & Et & Bt).
  destruct (application_score_integer p) as (za & Ea & Ba).
  destruct (operational_score_integer p) as (zo & Eo & Bo).
  unfold Spec.weightedScoreOf, Spec.rawGovernance, Spec.rawRisk, Spec.rawCompliance,
    Spec.rawTechnical, Spec.rawApplication, Spec.rawOperational in *.
  rewrite Eg, Er, Ec, Et, Ea, Eo in Ho.
  rewrite Eg in Hg. rewrite Er in Hr. rewrite Ec in Hc.
  rewrite Et in Ht. rewrite Ea in Ha. rewrite Eo in Hp.
  rewrite Math_round_int in Hg, Hr, Hc, Ht, Ha, Hp.
  unfold Spec.weightedScoreOfResult.
  rewrite Ho, Hg, Hr, Hc, Ht, Ha, Hp.
  destruct (globalPenalty_range (mfa p) (backupFrequency p)) as [P0 P1].
  destruct (weighted_score_in_range c zg zr zc zt za zo
              (Spec.globalPenalty (mfa p) (backupFrequency p)) Hin)
    as [X0 X1]; try lia; try assumption.
  set (x := Spec.weightedScore c _ _ _ _ _ _ - _) in *.
  split.
  - rewrite (Math_round_compat _ _ (clamp_id x X0 X1)).
    destruct (Math_round_near x) as [N0 N1].
    apply Qabs_Qle_condition. split; lra.
  - intros y Hy. apply Qabs_Qle_condition in Hy. destruct Hy as [Y0 Y1].
    destruct (Math_round_near (clamp y)) as [N0 N1].
    destruct (clamp_near x y X0 X1) as [C0 C1].
    apply Qabs_Qle_condition. split; lra.
Qed.

(** The profile of the assessment form scores 24 overall. *)
Lemma overall_is_weighted_sum_witness :
  exists c,
    Spec.selectedConfig INDUSTRY_WEIGHTS formDefaults = Some c /\
    24%Z =
      Math_round (clamp (Spec.weightedScoreOf c formDefaults -
                         Spec.globalPenalty (mfa formDefaults) (backupFrequency formDefaults))) /\
    Qabs (inject_Z 24 -
          (Spec.weightedScoreOfResult c
             Spec.formMaturity -
           Spec.globalPenalty (mfa formDefaults) (backupFrequency formDefaults))) <= 1 /\
    (forall x : number,
       Qabs (x - (Spec.weightedScoreOfResult c Spec.formMaturity -
                  Spec.globalPenalty (mfa formDefaults) (backupFrequency formDefaults)))
         <= 1 # 4 ->
       Qabs (inject_Z (Math_round (clamp x)) -
             (Spec.weightedScoreOfResult c Spec.formMaturity -
              Spec.globalPenalty (mfa formDefaults) (backupFrequency formDefaults))) <= 1).
Proof.
  apply (overall_is_weighted_sum formDefaults
           Spec.formMaturity).
  vm_compute. reflexivity.
Defined.

(** C2. For every profile on which [calculateMaturityScore] returns, each
    of the six dimension scores and the [overall] score lies in [0,100]. *)
Theorem scores_within_0_100 (p : Profile) (r : MaturityResult) :
  calculateMaturityScore p = Ok r -> Spec.scoresInRange r.
Proof.
  intros H. apply overall_inversion in H.
  destruct H as (c & _ & Ho & Hg & Hr & Hc & Ht & Ha & Hp).
  unfold Spec.scoresInRange. rewrite Ho, Hg, Hr, Hc, Ht, Ha, Hp.
  unfold calculateGovernanceScore, calculateRiskScore, calculateComplianceScore,
    calculateTechnicalScore, calculateApplicationScore, calculateOperationalScore.
  cbv zeta.
  repeat split; apply Math_round_bounds; apply clamp_bounds.
Qed.

Lemma scores_within_0_100_witness :
  Spec.scoresInRange
    Spec.formMaturity.
Proof.
  apply (scores_within_0_100 formDefaults). vm_compute. reflexivity.
Defined.

(** *** The penalty and bonus lists *)

Lemma getProperty_dimensions (W : WeightTable) (k : string) :
  getProperty (map (fun kv => (fst kv, dimensions (snd kv))) W) k =
  mapProperty dimensions (getProperty W k).
Proof.
  unfold getProperty.
  induction W as [| [k0 c0] W IH]; cbn [map find fst snd].
  - now destruct (existsb _ _).
  - destruct (String.eqb k0 k); [ reflexivity | exact IH ].
Qed.

Lemma selectConfig_dimensions (W W' : WeightTable) (p : Profile) :
  Spec.sameDimensions W W' ->
  mapProperty dimensions (selectConfig W p) = mapProperty dimensions (selectConfig W' p).
Proof.
  intros HW.
  assert (H : forall k, mapProperty dimensions (getProperty W k) =
                        mapProperty dimensions (getProperty W' k)).
  { intros k. rewrite <- !getProperty_dimensions. now rewrite HW. }
  unfold selectConfig.
  pose proof (H (industryProperty p)) as H1. pose proof (H "default"%string) as H2.
  destruct (getProperty W (industryProperty p)) eqn:E1,
           (getProperty W' (industryProperty p)) eqn:E1'; try discriminate H1;
    rewrite ?E1, ?E1'; try exact H1.
  destruct (getProperty W "default") eqn:E2, (getProperty W' "default") eqn:E2';
    try discriminate H2; exact H2.
Qed.

Lemma dimensionsOf_mapProperty (c : property IndustryConfig) :
  dimensionsOf c =
  match mapProperty dimensions c with
  | OwnProperty d => Ok d
  | InheritedProperty =>
      Throw (TypeError "Cannot read properties of undefined (reading 'governance')")
  | Undefined =>
      Throw (TypeError "Cannot read properties of undefined (reading 'dimensions')")
  end.
Proof. now destruct c. Qed.

Lemma adjustments_not_read (W W' : WeightTable) (p : Profile) :
  Spec.sameDimensions W W' ->
  calculateMaturityScoreIn W p = calculateMaturityScoreIn W' p.
Proof.
  intros HW. unfold calculateMaturityScoreIn. cbv zeta.
  rewrite !dimensionsOf_mapProperty, (selectConfig_dimensions W W' p HW).
  reflexivity.
Qed.

Lemma withoutAdjustments_sameDimensions (W : WeightTable) :
  Spec.sameDimensions (Spec.withoutAdjustments W) W.
Proof.
  unfold Spec.sameDimensions, Spec.withoutAdjustments.
  rewrite map_map. reflexivity.
Qed.

(** C10. The penalty and bonus lists of the weight table are never read:
    deleting them from any table leaves the result of the scorer unchanged
    on every profile, and whenever the scorer returns, what it subtracts
    from the weighted sum is the fixed 5 for [mfa === 'none'] plus the
    fixed 5 for [backupFrequency === 'none'], a function of those two
    fields and not of the industry. *)
Theorem penalty_tables_never_read :
  (forall (W : WeightTable) (p : Profile),
     calculateMaturityScoreIn (Spec.withoutAdjustments W) p = calculateMaturityScoreIn W p) /\
  (forall (p : Profile) (r : MaturityResult),
     calculateMaturityScore p = Ok r ->
     exists c,
       Spec.selectedConfig INDUSTRY_WEIGHTS p = Some c /\
       overall r =
         Math_round (clamp (Spec.weightedScoreOf c p -
                            Spec.globalPenalty (mfa p) (backupFrequency p)))).
Proof.
  split.
  - intros W p. apply adjustments_not_read, withoutAdjustments_sameDimensions.
  - intros p r H. apply overall_inversion in H.
    destruct H as (c & Hsel & Ho & _).
    exists c. split; [ exact Hsel | ].
    rewrite (weightedSum_declared _ _ _ _ _ _ _
               (table_weights_declared _ (selectedConfig_in _ _ _ Hsel))) in Ho.
    exact Ho.
Qed.

(** A fintech profile without MFA and without backups: the weighted sum is
    35 and the result 25, the table's [no_mfa] entry of -25 playing no part. *)
Lemma penalty_tables_never_read_witness :
  exists c,
    Spec.selectedConfig INDUSTRY_WEIGHTS (withIndustry (Some "fintech") formDefaults) = Some c /\
    25%Z =
      Math_round (clamp (Spec.weightedScoreOf c (withIndustry (Some "fintech") formDefaults) -
                         Spec.globalPenalty (Some "none") (Some "none"))).
Proof.
  apply (proj2 penalty_tables_never_read (withIndustry (Some "fintech") formDefaults)
           {| overall := 25; governance := 35; risk := 10; compliance := 50;
              technical := 55; application := 25; operational := 25;
              labels := {| l_governance := "Governance & Strategy";
                           l_risk := "Risk & Continuity";
                           l_compliance := "Compliance & Privacy";
                           l_technical := "Technical Security";
                           l_application := "App & Data Security";
                           l_operational := "Operational Security" |} |}).
  vm_compute. reflexivity.
Defined.

(** *** Unrecognised industry keys *)

(** A key that is neither in the table nor inherited selects the
    [default] entry, whose six weights are 0.166, and the scorer returns. *)
Lemma unknown_industry_uses_default (p : Profile) :
  hasOwn INDUSTRY_WEIGHTS (industryProperty p) = false ->
  inherited (industryProperty p) = false ->
  (exists r, calculateMaturityScore p = Ok r) /\
  exists c, Spec.selectedConfig INDUSTRY_WEIGHTS p = Some c /\
            getProperty INDUSTRY_WEIGHTS "default" = OwnProperty c /\
            map Spec.weightOf
              [ d_governance (dimensions c); d_risk (dimensions c);
                d_compliance (dimensions c); d_technical (dimensions c);
                d_application (dimensions c); d_operational (dimensions c) ] =
            [ 0.166; 0.166; 0.166; 0.166; 0.166; 0.166 ].
Proof.
  intros Hown Hk. split; [ now apply maturity_returns | ].
  unfold Spec.selectedConfig.
  destruct (find _ INDUSTRY_WEIGHTS) as [kv|] eqn:F.
  - exfalso. apply find_some in F. destruct F as [Hin Hkv].
    assert (hasOwn INDUSTRY_WEIGHTS (industryProperty p) = true)
      by (apply existsb_exists; eauto).
    congruence.
  - eexists. split; [ reflexivity | ]. split; reflexivity.
Qed.

(** C8, at the failing input.  'constructor' is not a key of the weight
    table, yet [INDUSTRY_WEIGHTS['constructor']] is truthy (the inherited
    [Object] function), so the fallback to [default] is skipped, [dims] is
    undefined and [calculateMaturityScore] raises a TypeError. *)
Theorem inherited_industry_key_raises :
  hasOwn INDUSTRY_WEIGHTS "constructor" = false /\
  calculateMaturityScore (withIndustry (Some "constructor") formDefaults) =
  Throw (TypeError "Cannot read properties of undefined (reading 'governance')").
Proof. split; reflexivity. Qed.

End Aggregate.

(** ** Gap rules *)

Section Gaps.

Lemma identifyGaps_form_defaults :
  identifyGaps formDefaults Spec.formMaturity =
  [ gapGovernance; gapNoBackup; gapNoBcp; gapNoScanning; gapNoMfa; gapNoEncryption;
    gapNoIncidentResponse; gapNoTraining ].
Proof. reflexivity. Qed.

(** C9. The list returned by [identifyGaps] is exactly the gaps of the
    rules whose guards fired, in the declaration order of the rules; it is
    not sorted by severity: on the assessment form's initial profile a
    High gap (Governance) precedes a Critical one (no backups). *)
Theorem gaps_keep_declaration_order :
  (forall (p : Profile) (scores : MaturityResult),
     identifyGaps p scores = Spec.firedGaps p scores) /\
  (exists (p : Profile) (scores : MaturityResult),
     calculateMaturityScore p = Ok scores /\
     Spec.highBeforeCritical (identifyGaps p scores)).
Proof.
  split.
  - intros p scores.
    unfold identifyGaps, Spec.firedGaps, Spec.gapRules. cbv zeta.
    cbn [filter fst snd].
    split_ifs; reflexivity.
  - exists formDefaults, Spec.formMaturity. split; [ reflexivity | ].
    rewrite identifyGaps_form_defaults.
    exists [], gapGovernance, [], gapNoBackup,
      [ gapNoBcp; gapNoScanning; gapNoMfa; gapNoEncryption;
        gapNoIncidentResponse; gapNoTraining ].
    repeat split.
Qed.

End Gaps.

(** ** The risk register *)

Section Register.

Import RiskRegister.

(** *** Sorting, slicing, renumbering *)

Lemma insertBy_length {A} (cmp : A -> A -> Z) (x : A) (l : list A) :
  List.length (insertBy cmp x l) = S (List.length l).
Proof.
  induction l as [| y ys IH]; cbn [insertBy]; [ reflexivity | ].
  destruct (0 <? cmp x y); cbn [List.length]; congruence.
Qed.

Lemma sortBy_length {A} (cmp : A -> A -> Z) (l : list A) :
  List.length (sortBy cmp l) = List.length l.
Proof.
  induction l as [| x xs IH]; [ reflexivity | ].
  cbn [sortBy fold_right]. fold (sortBy cmp xs).
  now rewrite insertBy_length, IH.
Qed.

Lemma insertBy_Forall {A} (P : A -> Prop) (cmp : A -> A -> Z) (x : A) (l : list A) :
  P x -> Forall P l -> Forall P (insertBy cmp x l).
Proof.
  intros Hx Hl. induction Hl as [| y ys Hy Hys IH]; cbn [insertBy].
  - now constructor.
  - destruct (0 <? cmp x y); repeat constructor; assumption.
Qed.

Lemma sortBy_Forall {A} (P : A -> Prop) (cmp : A -> A -> Z) (l : list A) :
  Forall P l -> Forall P (sortBy cmp l).
Proof.
  induction 1 as [| x xs Hx Hxs IH]; [ constructor | ].
  cbn [sortBy fold_right]. now apply insertBy_Forall.
Qed.

Lemma insertBy_sorted (x : RiskRecord) (l : list RiskRecord) :
  RiskSpec.sortedByScoreDesc l -> RiskSpec.sortedByScoreDesc (insertBy byScoreDesc x l).
Proof.
  unfold RiskSpec.sortedByScoreDesc.
  induction 1 as [| y ys Hys IH Hy]; cbn [insertBy].
  - repeat constructor.
  - unfold byScoreDesc at 1. destruct (Z.ltb_spec 0 (score y - score x)) as [Hlt | Hge].
    + constructor; [ exact IH | ].
      apply insertBy_Forall; [ lia | exact Hy ].
    + constructor; [ now constructor | ].
      constructor; [ lia | ].
      eapply Forall_impl; [ | exact Hy ]. cbv beta. intros z Hz. lia.
Qed.

Lemma sortBy_sorted (l : list RiskRecord) :
  RiskSpec.sortedByScoreDesc (sortBy byScoreDesc l).
Proof.
  induction l as [| x xs IH]; [ constructor | ].
  cbn [sortBy fold_right]. now apply insertBy_sorted.
Qed.

Lemma firstn_Forall {A} (P : A -> Prop) (n : nat) (l : list A) :
  Forall P l -> Forall P (firstn n l).
Proof.
  intros H. revert n.
  induction H as [| x xs Hx Hxs IH]; intros [| n]; cbn [firstn]; constructor; auto.
Qed.

Lemma firstn_sorted (n : nat) (l : list RiskRecord) :
  RiskSpec.sortedByScoreDesc l -> RiskSpec.sortedByScoreDesc (firstn n l).
Proof.
  unfold RiskSpec.sortedByScoreDesc. intros H. revert n.
  induction H as [| y ys Hys IH Hy]; intros [| n]; cbn [firstn]; try constructor.
  - apply IH.
  - now apply firstn_Forall.
Qed.

Lemma mapIndexFrom_length {A B} (f : A -> Z -> B) (i : Z) (l : list A) :
  List.length (mapIndexFrom f i l) = List.length l.
Proof.
  revert i. induction l as [| x xs IH]; intros i; cbn [mapIndexFrom List.length];
    [ reflexivity | now rewrite IH ].
Qed.

(** Renumbering touches the [id] alone. *)
Lemma renumber_Forall (P : RiskRecord -> Prop) (i : Z) (l : list RiskRecord) :
  (forall r k, P r -> P (renumber r k)) ->
  Forall P l -> Forall P (mapIndexFrom renumber i l).
Proof.
  intros HP H. revert i.
  induction H as [| x xs Hx Hxs IH]; intros i; cbn [mapIndexFrom]; constructor; auto.
Qed.

Lemma renumber_scores (i : Z) (l : list RiskRecord) :
  map score (mapIndexFrom renumber i l) = map score l.
Proof.
  revert i. induction l as [| x xs IH]; intros i; cbn [mapIndexFrom map];
    [ reflexivity | now rewrite IH ].
Qed.

Lemma sorted_by_scores (l l' : list RiskRecord) :
  map score l = map score l' ->
  RiskSpec.sortedByScoreDesc l -> RiskSpec.sortedByScoreDesc l'.
Proof.
  unfold RiskSpec.sortedByScoreDesc. intros E H. revert l' E.
  induction H as [| y ys Hys IH Hy]; intros [| y' ys'] E; try discriminate E;
    [ constructor | ].
  cbn [map] in E. injection E as Ey Eys.
  constructor; [ now apply IH | ].
  clear IH Hys. revert ys' Eys.
  induction Hy as [| z zs Hz Hzs IHz]; intros [| z' zs'] Eys; try discriminate Eys;
    [ constructor | ].
  cbn [map] in Eys. injection Eys as Ez Ezs.
  constructor; [ lia | now apply IHz ].
Qed.

Lemma renumber_ids (n : nat) (l : list RiskRecord) :
  map id (mapIndexFrom renumber (Z.of_nat n) l) =
  map (fun k => SeqId (Z.of_nat k)) (seq (S n) (List.length l)).
Proof.
  revert n. induction l as [| x xs IH]; intros n; [ reflexivity | ].
  cbn [mapIndexFrom map List.length seq renumber id]. f_equal.
  - f_equal. lia.
  - replace (Z.of_nat n + 1) with (Z.of_nat (S n)) by lia. apply IH.
Qed.

(** The three facts of the selection step, for any pool and any size. *)
Lemma selectTop_spec (n : nat) (pool : list RiskRecord) :
  List.length (selectTop n pool) = Nat.min n (List.length pool) /\
  RiskSpec.sortedByScoreDesc (selectTop n pool) /\
  RiskSpec.idsFromOne (selectTop n pool).
Proof.
  unfold selectTop, mapIndex, slice0. cbv zeta. repeat split.
  - now rewrite mapIndexFrom_length, length_firstn, sortBy_length.
  - eapply sorted_by_scores; [ symmetry; apply renumber_scores | ].
    apply firstn_sorted, sortBy_sorted.
  - unfold RiskSpec.idsFromOne. rewrite mapIndexFrom_length.
    apply (renumber_ids 0).
Qed.

(** C3. For every profile the list the builder returns has length
    min(N, pool size), is ordered by non-increasing score, and carries the
    ids 1..length in that order; this holds for the engine that keeps 15
    and, whenever its pool gets built, for the one that keeps 12 (which
    returns nothing when building the pool raises). *)
Theorem top_slice_ranked_and_numbered (p : Profile) :
  (List.length (GrcEngine.generateBaseRisks p) =
     Nat.min GrcEngine.TOP_N (List.length (GrcEngine.riskPool p)) /\
   RiskSpec.sortedByScoreDesc (GrcEngine.generateBaseRisks p) /\
   RiskSpec.idsFromOne (GrcEngine.generateBaseRisks p)) /\
  match GrcEngine12.riskPool p with
  | Ok pool =>
      exists out,
        GrcEngine12.generateBaseRisks p = Ok out /\
        List.length out = Nat.min GrcEngine12.TOP_N (List.length pool) /\
        RiskSpec.sortedByScoreDesc out /\
        RiskSpec.idsFromOne out
  | Throw e => GrcEngine12.generateBaseRisks p = Throw e
  end.
Proof.
  split.
  - apply selectTop_spec.
  - unfold GrcEngine12.generateBaseRisks.
    destruct (GrcEngine12.riskPool p) as [pool | e]; cbn [bind]; [ | reflexivity ].
    eexists. split; [ reflexivity | apply selectTop_spec ].
Qed.

(** *** Chains of [addToPool] *)

Lemma adds_weaken (g : Z -> string) (t : Z) (k k' : nat) (st st' : PoolState) :
  RiskSpec.adds g t k st st' -> (k <= k')%nat -> RiskSpec.adds g t k' st st'.
Proof.
  intros H. revert k'.
  induction H as [k st | k st st' name l c m H IH Hlt | k st st' name l c m H IH];
    intros k' Hk.
  - constructor.
  - apply RiskSpec.adds_low; auto.
  - destruct k' as [| k']; [ lia | ].
    apply RiskSpec.adds_high. apply IH. lia.
Qed.

Lemma adds_trans (g : Z -> string) (t : Z) (k1 k2 : nat) (st0 st1 st2 : PoolState) :
  RiskSpec.adds g t k1 st0 st1 -> RiskSpec.adds g t k2 st1 st2 ->
  RiskSpec.adds g t (k1 + k2) st0 st2.
Proof.
  intros H1 H2.
  induction H2 as [k st | k st st' name l c m H IH Hlt | k st st' name l c m H IH].
  - eapply adds_weaken; [ exact H1 | lia ].
  - apply RiskSpec.adds_low; auto.
  - rewrite Nat.add_succ_r. apply RiskSpec.adds_high. auto.
Qed.

Lemma adds_extends (g : Z -> string) (t : Z) (k : nat) (st st' : PoolState) :
  RiskSpec.adds g t k st st' -> exists extra, pool st' = (pool st ++ extra)%list.
Proof.
  induction 1 as [k st | k st st' name l c m H [extra IH] Hlt
                 | k st st' name l c m H [extra IH]].
  - exists []. now rewrite app_nil_r.
  - eexists. unfold addToPool, push. cbn [pool]. rewrite IH, <- app_assoc. reflexivity.
  - eexists. unfold addToPool, push. cbn [pool]. rewrite IH, <- app_assoc. reflexivity.
Qed.

Lemma adds_In (g : Z -> string) (t : Z) (k : nat) (st st' : PoolState) (r : RiskRecord) :
  RiskSpec.adds g t k st st' -> In r (pool st) -> In r (pool st').
Proof.
  intros H Hin. destruct (adds_extends _ _ _ _ _ H) as [extra ->].
  apply in_or_app. now left.
Qed.

Lemma adds_product (g : Z -> string) (t : Z) (k : nat) (st st' : PoolState) :
  RiskSpec.adds g t k st st' ->
  Forall RiskSpec.scoreIsProduct (pool st) -> Forall RiskSpec.scoreIsProduct (pool st').
Proof.
  induction 1 as [k st | k st st' name l c m H IH Hlt | k st st' name l c m H IH];
    intros H0; auto;
    unfold addToPool, push; cbn [pool];
    (apply Forall_app; split; [ now apply IH | repeat constructor ]).
Qed.

Lemma countGe_app (t : Z) (l l' : list RiskRecord) :
  RiskSpec.countGe t (l ++ l') = (RiskSpec.countGe t l + RiskSpec.countGe t l')%nat.
Proof. unfold RiskSpec.countGe. now rewrite filter_app, length_app. Qed.

Lemma adds_countGe (g : Z -> string) (t : Z) (k : nat) (st st' : PoolState) :
  RiskSpec.adds g t k st st' ->
  (RiskSpec.countGe t (pool st') <= RiskSpec.countGe t (pool st) + k)%nat.
Proof.
  induction 1 as [k st | k st st' name l c m H IH Hlt | k st st' name l c m H IH].
  - lia.
  - unfold addToPool, push. cbn [pool]. rewrite countGe_app.
    unfold RiskSpec.countGe at 2. cbn [filter score].
    destruct (Z.leb_spec t (l * c)); [ lia | cbn [List.length]; lia ].
  - unfold addToPool, push. cbn [pool]. rewrite countGe_app.
    unfold RiskSpec.countGe at 2. cbn [filter score].
    destruct (t <=? l * c); cbn [List.length]; lia.
Qed.

(** One call, of either kind. *)
Lemma adds_one_low (g : Z -> string) (t : Z) (k : nat) (st : PoolState)
  (name : string) (l c : Z) (m : string) :
  l * c < t -> RiskSpec.adds g t k st (addToPool g st name l c m).
Proof. intros H. apply RiskSpec.adds_low; [ constructor | exact H ]. Qed.

Lemma adds_one_high (g : Z -> string) (t : Z) (k : nat) (st : PoolState)
  (name : string) (l c : Z) (m : string) :
  RiskSpec.adds g t (S k) st (addToPool g st name l c m).
Proof. apply RiskSpec.adds_high. constructor. Qed.

(** *** Where a record lands after the sort *)

Lemma insertBy_In {A} (cmp : A -> A -> Z) (x a : A) (l : list A) :
  In a (insertBy cmp x l) <-> a = x \/ In a l.
Proof.
  induction l as [| y ys IH]; cbn [insertBy In].
  - intuition.
  - destruct (0 <? cmp x y); cbn [In]; [ rewrite IH | ]; intuition.
Qed.

Lemma sortBy_In {A} (cmp : A -> A -> Z) (a : A) (l : list A) :
  In a (sortBy cmp l) <-> In a l.
Proof.
  induction l as [| x xs IH]; [ reflexivity | ].
  cbn [sortBy fold_right In]. fold (sortBy cmp xs).
  rewrite insertBy_In, IH. intuition.
Qed.

Lemma insertBy_countGe (t : Z) (x : RiskRecord) (l : list RiskRecord) :
  RiskSpec.countGe t (insertBy byScoreDesc x l) = RiskSpec.countGe t (x :: l).
Proof.
  unfold RiskSpec.countGe.
  induction l as [| y ys IH]; cbn [insertBy]; [ reflexivity | ].
  destruct (0 <? byScoreDesc x y); [ | reflexivity ].
  cbn [filter] in *.
  destruct (t <=? score y), (t <=? score x); cbn [List.length] in *; lia.
Qed.

Lemma sortBy_countGe (t : Z) (l : list RiskRecord) :
  RiskSpec.countGe t (sortBy byScoreDesc l) = RiskSpec.countGe t l.
Proof.
  induction l as [| x xs IH]; [ reflexivity | ].
  cbn [sortBy fold_right]. fold (sortBy byScoreDesc xs).
  rewrite insertBy_countGe. unfold RiskSpec.countGe in *. cbn [filter].
  destruct (t <=? score x); cbn [List.length]; lia.
Qed.

Lemma sorted_before (l1 l2 : list RiskRecord) (r : RiskRecord) :
  RiskSpec.sortedByScoreDesc (l1 ++ r :: l2) ->
  Forall (fun a => score r <= score a) l1.
Proof.
  unfold RiskSpec.sortedByScoreDesc.
  induction l1 as [| a l1 IH]; cbn [app]; intros H; [ constructor | ].
  inversion H as [| ? ? Hs Ha]; subst.
  constructor; [ | now apply IH ].
  rewrite Forall_forall in Ha. apply Ha. apply in_or_app. right. now left.
Qed.

Lemma countGe_all (t : Z) (l : list RiskRecord) :
  Forall (fun a => t <= score a) l -> RiskSpec.countGe t l = List.length l.
Proof.
  unfold RiskSpec.countGe.
  induction 1 as [| a l Ha Hl IH]; [ reflexivity | ].
  cbn [filter]. destruct (Z.leb_spec t (score a)); [ | lia ].
  cbn [List.length]. now rewrite IH.
Qed.

Lemma mapIndexFrom_In (i : Z) (l : list RiskRecord) (r : RiskRecord) :
  In r l -> exists k, In (renumber r k) (mapIndexFrom renumber i l).
Proof.
  revert i. induction l as [| x xs IH]; intros i; [ intros [] | ].
  intros [-> | Hin]; cbn [mapIndexFrom In].
  - exists i. now left.
  - destruct (IH (i + 1) Hin) as [k Hk]. exists k. now right.
Qed.

(** A record of the pool is in the returned slice as soon as no more than
    [n] records of the pool score at least as much. *)
Lemma selectTop_keeps (n : nat) (rs : list RiskRecord) (name : string) (l c t : Z) :
  RiskSpec.hasRisk name l c t rs ->
  (RiskSpec.countGe t rs <= n)%nat ->
  RiskSpec.hasRisk name l c t (selectTop n rs).
Proof.
  intros (r & Hin & Hn & Hl & Hc & Ht) Hcount.
  assert (Hs : In r (firstn n (sortBy byScoreDesc rs))).
  { apply (sortBy_In byScoreDesc) in Hin.
    destruct (in_split _ _ Hin) as (s1 & s2 & E).
    pose proof (sortBy_sorted rs) as Hsorted. rewrite E in Hsorted.
    pose proof (sorted_before _ _ _ Hsorted) as Hbefore.
    assert (Hlen : (S (List.length s1) <= n)%nat).
    { rewrite <- (sortBy_countGe t rs), E, countGe_app in Hcount.
      rewrite <- Ht in Hcount at 1. rewrite (countGe_all _ _ Hbefore) in Hcount.
      unfold RiskSpec.countGe in Hcount. cbn [filter] in Hcount.
      rewrite <- Ht, Z.leb_refl in Hcount. cbn [List.length] in Hcount. lia. }
    rewrite E, firstn_app. apply in_or_app. right.
    destruct (n - List.length s1)%nat as [| m] eqn:Em; [ lia | ].
    cbn [firstn]. now left. }
  unfold selectTop, mapIndex, slice0. cbv zeta.
  destruct (mapIndexFrom_In 0 _ _ Hs) as [k Hk].
  exists (renumber r k). repeat split; assumption.
Qed.

Lemma countGe_mono (t t' : Z) (l : list RiskRecord) :
  t <= t' -> (RiskSpec.countGe t' l <= RiskSpec.countGe t l)%nat.
Proof.
  intros Ht. unfold RiskSpec.countGe.
  induction l as [| x xs IH]; [ reflexivity | ].
  cbn [filter].
  destruct (Z.leb_spec t' (score x)), (Z.leb_spec t (score x)); cbn [List.length]; lia.
Qed.

Lemma addToPool_hasRisk (g : Z -> string) (st : PoolState) (name : string)
  (l c : Z) (m : string) :
  RiskSpec.hasRisk name l c (l * c) (pool (addToPool g st name l c m)).
Proof.
  eexists. split.
  - unfold addToPool, push. cbn [pool]. apply in_or_app. right. left. reflexivity.
  - repeat split.
Qed.

Lemma adds_hasRisk (g : Z -> string) (t : Z) (k : nat) (st st' : PoolState)
  (name : string) (l c total : Z) :
  RiskSpec.adds g t k st st' ->
  RiskSpec.hasRisk name l c total (pool st) -> RiskSpec.hasRisk name l c total (pool st').
Proof.
  intros H (r & Hin & Hr). exists r. split; [ | exact Hr ].
  eapply adds_In; eauto.
Qed.

(** *** The rules of the engine that keeps 15 *)

Ltac rule_adds :=
  split_ifs;
  first [ apply adds_one_low; split_ifs; reflexivity
        | apply adds_one_high
        | apply RiskSpec.adds_none ].

Ltac universal_adds :=
  cbv zeta;
  repeat (apply RiskSpec.adds_low; [ | split_ifs; reflexivity ]);
  apply RiskSpec.adds_none.

Lemma remoteRule_adds p st :
  RiskSpec.adds GrcEngine.getRiskLevel 20 0 st (GrcEngine.remoteRule p st).
Proof. unfold GrcEngine.remoteRule, GrcEngine.add. rule_adds. Qed.

Lemma cloudRule_adds p st :
  RiskSpec.adds GrcEngine.getRiskLevel 20 0 st (GrcEngine.cloudRule p st).
Proof. unfold GrcEngine.cloudRule, GrcEngine.add. rule_adds. Qed.

Lemma ransomwareRule_adds p st :
  RiskSpec.adds GrcEngine.getRiskLevel 20 1 st (GrcEngine.ransomwareRule p st).
Proof. unfold GrcEngine.ransomwareRule, GrcEngine.add. rule_adds. Qed.

Lemma authRule_adds p st :
  RiskSpec.adds GrcEngine.getRiskLevel 20 1 st (GrcEngine.authRule p st).
Proof. unfold GrcEngine.authRule, GrcEngine.add. rule_adds. Qed.

Lemma encryptionRule_adds p st :
  RiskSpec.adds GrcEngine.getRiskLevel 20 0 st (GrcEngine.encryptionRule p st).
Proof. unfold GrcEngine.encryptionRule, GrcEngine.add. rule_adds. Qed.

Lemma incidentResponseRule_adds p st :
  RiskSpec.adds GrcEngine.getRiskLevel 20 0 st (GrcEngine.incidentResponseRule p st).
Proof. unfold GrcEngine.incidentResponseRule, GrcEngine.add. rule_adds. Qed.

Lemma supplyChainRule_adds p st :
  RiskSpec.adds GrcEngine.getRiskLevel 20 0 st (GrcEngine.supplyChainRule p st).
Proof. unfold GrcEngine.supplyChainRule, GrcEngine.add. rule_adds. Qed.

Lemma universalRisks_adds p st :
  RiskSpec.adds GrcEngine.getRiskLevel 20 0 st (GrcEngine.universalRisks p st).
Proof. unfold GrcEngine.universalRisks, GrcEngine.add. universal_adds. Qed.

Create HintDb rules.

#[local] Hint Resolve remoteRule_adds cloudRule_adds ransomwareRule_adds authRule_adds
  encryptionRule_adds incidentResponseRule_adds supplyChainRule_adds
  universalRisks_adds : rules.

(** Follow the rules backwards from the final state to the start state. *)
Ltac chain :=
  first [ apply (RiskSpec.adds_none _ _ 0%nat)
        | eapply adds_trans; [ | solve [ eauto with rules ] ]; chain ].

(** At most two records of the pool can score 20 or more. *)
Lemma riskPool_adds (p : Profile) :
  exists st, GrcEngine.riskPool p = pool st /\
             RiskSpec.adds GrcEngine.getRiskLevel 20 2 emptyPool st.
Proof.
  unfold GrcEngine.riskPool. cbv zeta. eexists. split; [ reflexivity | ].
  eapply adds_weaken; [ chain | cbn; lia ].
Qed.

Lemma riskPool_product (p : Profile) :
  Forall RiskSpec.scoreIsProduct (GrcEngine.riskPool p).
Proof.
  destruct (riskPool_adds p) as (st & -> & H).
  eapply adds_product; [ exact H | constructor ].
Qed.

Lemma riskPool_countGe (p : Profile) (t : Z) :
  20 <= t -> (RiskSpec.countGe t (GrcEngine.riskPool p) <= GrcEngine.TOP_N)%nat.
Proof.
  intros Ht. destruct (riskPool_adds p) as (st & -> & H).
  apply adds_countGe in H. pose proof (countGe_mono 20 t (pool st) Ht).
  unfold GrcEngine.TOP_N. cbn in H. lia.
Qed.

(** *** The rules of the engine that keeps 12 *)

Lemma remoteAccessRule12_adds p st :
  RiskSpec.adds GrcEngine12.getRiskLevel 20 0 st (GrcEngine12.remoteAccessRule p st).
Proof. unfold GrcEngine12.remoteAccessRule, GrcEngine12.add. rule_adds. Qed.

Lemma cloudConfigurationRule12_adds p st :
  RiskSpec.adds GrcEngine12.getRiskLevel 20 1 st (GrcEngine12.cloudConfigurationRule p st).
Proof. unfold GrcEngine12.cloudConfigurationRule, GrcEngine12.add. rule_adds. Qed.

Lemma supplyChainRule12_adds p st :
  RiskSpec.adds GrcEngine12.getRiskLevel 20 0 st (GrcEngine12.supplyChainRule p st).
Proof. unfold GrcEngine12.supplyChainRule, GrcEngine12.add. rule_adds. Qed.

Lemma ransomwareRule12_adds p st :
  RiskSpec.adds GrcEngine12.getRiskLevel 20 1 st (GrcEngine12.ransomwareRule p st).
Proof. unfold GrcEngine12.ransomwareRule, GrcEngine12.add. rule_adds. Qed.

Lemma weakAuthRule12_adds p st :
  RiskSpec.adds GrcEngine12.getRiskLevel 20 1 st (GrcEngine12.weakAuthRule p st).
Proof. unfold GrcEngine12.weakAuthRule, GrcEngine12.add. rule_adds. Qed.

Lemma logFailureRule12_adds p st :
  RiskSpec.adds GrcEngine12.getRiskLevel 20 0 st (GrcEngine12.logFailureRule p st).
Proof. unfold GrcEngine12.logFailureRule, GrcEngine12.add. rule_adds. Qed.

Lemma universalRisks12_adds p st :
  RiskSpec.adds GrcEngine12.getRiskLevel 20 0 st (GrcEngine12.universalRisks p st).
Proof. unfold GrcEngine12.universalRisks, GrcEngine12.add. universal_adds. Qed.

(** The two rules that test membership in [dataTypes]: what they do when
    the list is there, and that they raise when it is not. *)
Lemma dataLeakageRule12_cases p st :
  match dataTypes p with
  | Some _ =>
      exists st', GrcEngine12.dataLeakageRule p st = Ok st' /\
                  RiskSpec.adds GrcEngine12.getRiskLevel 20 1 st st'
  | None =>
      GrcEngine12.dataLeakageRule p st =
      Throw (TypeError "Cannot read properties of undefined (reading 'includes')")
  end.
Proof.
  unfold GrcEngine12.dataLeakageRule, GrcEngine12.orElse, GrcEngine12.add, includesOf.
  destruct (dataTypes p) as [dt |]; cbn [bind]; [ | reflexivity ].
  repeat match goal with
         | |- context [bind (if ?b then _ else _) _] => destruct b; cbn [bind]
         end;
    (eexists; split; [ reflexivity | rule_adds ]).
Qed.

Lemma complianceRule12_cases p st :
  dataTypes p <> None ->
  exists st', GrcEngine12.complianceRule p st = Ok st' /\
              RiskSpec.adds GrcEngine12.getRiskLevel 20 1 st st'.
Proof.
  unfold GrcEngine12.complianceRule, GrcEngine12.add, includesOf.
  destruct (dataTypes p) as [dt |]; [ intros _ | congruence ].
  match goal with
  | |- context [bind (if ?b then _ else _) _] => destruct b
  end;
    unfold GrcEngine12.orElse; cbn [bind];
    repeat match goal with
           | |- context [bind (if ?b then _ else _) _] => destruct b; cbn [bind]
           end;
    (eexists; split; [ reflexivity | rule_adds ]).
Qed.

#[local] Hint Resolve remoteAccessRule12_adds cloudConfigurationRule12_adds
  supplyChainRule12_adds ransomwareRule12_adds weakAuthRule12_adds
  logFailureRule12_adds universalRisks12_adds : rules.

(** The pool of the engine that keeps 12 gets built exactly when
    [dataTypes] is there, and then at most five of its records can score
    20 or more. *)
Lemma riskPool12_cases (p : Profile) :
  match dataTypes p with
  | Some _ =>
      exists st1 st2 st3,
        GrcEngine12.dataLeakageRule p st1 = Ok st2 /\
        RiskSpec.adds GrcEngine12.getRiskLevel 20 1 emptyPool st1 /\
        RiskSpec.adds GrcEngine12.getRiskLevel 20 1 st1 st2 /\
        RiskSpec.adds GrcEngine12.getRiskLevel 20 1
          (GrcEngine12.weakAuthRule p (GrcEngine12.ransomwareRule p st2)) st3 /\
        GrcEngine12.riskPool p = Ok (pool st3)
  | None =>
      GrcEngine12.riskPool p =
      Throw (TypeError "Cannot read properties of undefined (reading 'includes')")
  end.
Proof.
  unfold GrcEngine12.riskPool, GrcEngine12.profileRisks. cbv zeta.
  match goal with
  | |- context [GrcEngine12.dataLeakageRule p ?st] =>
      pose proof (dataLeakageRule12_cases p st) as H1;
      assert (Hpre : RiskSpec.adds GrcEngine12.getRiskLevel 20 1 emptyPool st)
        by (eapply adds_weaken; [ chain | cbn; lia ]);
      generalize dependent st; intros st1 H1 Hpre
  end.
  destruct (dataTypes p) as [dt |] eqn:Hd.
  - destruct H1 as (st2 & E12 & H12). rewrite E12. cbn [bind].
    match goal with
    | |- context [GrcEngine12.complianceRule p ?st] =>
        destruct (complianceRule12_cases p st) as (st3 & -> & H23);
          [ congruence | ]
    end.
    cbn [bind].
    exists st1, st2, (GrcEngine12.universalRisks p st3).
    split; [ exact E12 | ]. split; [ exact Hpre | ]. split; [ exact H12 | ].
    split; [ | reflexivity ].
    eapply adds_weaken;
      [ eapply adds_trans;
        [ eapply adds_trans; [ apply logFailureRule12_adds | exact H23 ]
        | apply universalRisks12_adds ]
      | cbn; lia ].
  - rewrite H1. reflexivity.
Qed.

Lemma riskPool12_adds (p : Profile) (l : list RiskRecord) :
  GrcEngine12.riskPool p = Ok l ->
  exists st, l = pool st /\ RiskSpec.adds GrcEngine12.getRiskLevel 20 5 emptyPool st.
Proof.
  intros E. pose proof (riskPool12_cases p) as H.
  destruct (dataTypes p); [ | congruence ].
  destruct H as (st1 & st2 & st3 & _ & H01 & H12 & H23 & E').
  rewrite E' in E. injection E as <-.
  exists st3. split; [ reflexivity | ].
  eapply adds_weaken;
    [ eapply adds_trans;
      [ eapply adds_trans;
        [ eapply adds_trans; [ exact H01 | exact H12 ]
        | eapply adds_trans; [ apply ransomwareRule12_adds | apply weakAuthRule12_adds ] ]
      | exact H23 ]
    | cbn; lia ].
Qed.

Lemma riskPool12_product (p : Profile) (l : list RiskRecord) :
  GrcEngine12.riskPool p = Ok l -> Forall RiskSpec.scoreIsProduct l.
Proof.
  intros E. destruct (riskPool12_adds p l E) as (st & -> & H).
  eapply adds_product; [ exact H | constructor ].
Qed.

(** *** The score of a record *)

Lemma renumber_product (r : RiskRecord) (k : Z) :
  RiskSpec.scoreIsProduct r -> RiskSpec.scoreIsProduct (renumber r k).
Proof. exact (fun H => H). Qed.

Lemma selectTop_product (n : nat) (l : list RiskRecord) :
  Forall RiskSpec.scoreIsProduct l -> Forall RiskSpec.scoreIsProduct (selectTop n l).
Proof.
  intros H. unfold selectTop, mapIndex, slice0. cbv zeta.
  apply renumber_Forall; [ exact renumber_product | ].
  now apply firstn_Forall, sortBy_Forall.
Qed.

(** C4. Every record the builder puts out satisfies
    score = likelihoodScore * consequenceScore: in the pool and in the
    returned list of the engine that keeps 15, and in the pool and the
    returned list of the engine that keeps 12 whenever its pool gets built
    (it returns nothing when building the pool raises). *)
Theorem score_is_likelihood_times_consequence (p : Profile) :
  (Forall RiskSpec.scoreIsProduct (GrcEngine.riskPool p) /\
   Forall RiskSpec.scoreIsProduct (GrcEngine.generateBaseRisks p)) /\
  match GrcEngine12.riskPool p with
  | Ok pool =>
      Forall RiskSpec.scoreIsProduct pool /\
      exists out, GrcEngine12.generateBaseRisks p = Ok out /\
                  Forall RiskSpec.scoreIsProduct out
  | Throw e => GrcEngine12.generateBaseRisks p = Throw e
  end.
Proof.
  split.
  - split; [ apply riskPool_product | ].
    apply selectTop_product, riskPool_product.
  - unfold GrcEngine12.generateBaseRisks.
    destruct (GrcEngine12.riskPool p) as [l | e] eqn:E; cbn [bind]; [ | reflexivity ].
    pose proof (riskPool12_product p l E) as H.
    split; [ exact H | ].
    eexists. split; [ reflexivity | now apply selectTop_product ].
Qed.

(** *** Missing list fields *)

(** C5, at the failing inputs.  In the engine that keeps 12, the
    data-leakage rule reads [profile.dataTypes.includes] with no guard: on
    every profile whose [dataTypes] is missing the builder raises a
    TypeError instead of treating the membership test as false. *)
Theorem missing_dataTypes_raises (p : Profile) :
  dataTypes p = None ->
  GrcEngine12.generateBaseRisks p =
  Throw (TypeError "Cannot read properties of undefined (reading 'includes')").
Proof.
  intros H. unfold GrcEngine12.generateBaseRisks.
  pose proof (riskPool12_cases p) as Hp. rewrite H in Hp. rewrite Hp. reflexivity.
Qed.

(** The assessment form's initial profile has no [dataTypes]. *)
Lemma missing_dataTypes_raises_witness :
  GrcEngine12.generateBaseRisks formDefaults =
  Throw (TypeError "Cannot read properties of undefined (reading 'includes')").
Proof.
  apply (missing_dataTypes_raises formDefaults). reflexivity.
Defined.

(** With the list in place the same builder returns. *)
Lemma present_dataTypes_returns (p : Profile) (dt : list string) :
  dataTypes p = Some dt -> exists out, GrcEngine12.generateBaseRisks p = Ok out.
Proof.
  intros H. unfold GrcEngine12.generateBaseRisks.
  pose proof (riskPool12_cases p) as Hp. rewrite H in Hp.
  destruct Hp as (st1 & st2 & st3 & _ & _ & _ & _ & ->). cbn [bind]. eauto.
Qed.

(** *** Scenario B *)

(** In the engine that keeps 15 both records are in the pool and in the
    returned list of every scenario-B profile. *)
Lemma scenarioB_in_top15 (p : Profile) :
  mfa p = Some "none" -> backupFrequency p = Some "none" ->
  remote p = Some "yes" -> hosting p = Some "cloud" ->
  RiskSpec.hasRisk "Ransomware Data Loss" 5 6 30 (GrcEngine.riskPool p) /\
  RiskSpec.hasRisk "Credential Reuse / Brute Force" 5 4 20 (GrcEngine.riskPool p) /\
  RiskSpec.hasRisk "Ransomware Data Loss" 5 6 30 (GrcEngine.generateBaseRisks p) /\
  RiskSpec.hasRisk "Credential Reuse / Brute Force" 5 4 20 (GrcEngine.generateBaseRisks p).
Proof.
  intros Hm Hb _ _.
  assert (H30 : RiskSpec.hasRisk "Ransomware Data Loss" 5 6 30 (GrcEngine.riskPool p)).
  { unfold GrcEngine.riskPool. cbv zeta.
    match goal with
    | |- context [GrcEngine.ransomwareRule p ?st] =>
        apply (adds_hasRisk GrcEngine.getRiskLevel 20 (0 + 1 + 0 + 0 + 0 + 0)
                 (GrcEngine.ransomwareRule p st)); [ chain | ]
    end.
    unfold GrcEngine.ransomwareRule, GrcEngine.add. rewrite Hb. eval_known.
    apply (addToPool_hasRisk _ _ _ 5 6). }
  assert (H20 : RiskSpec.hasRisk "Credential Reuse / Brute Force" 5 4 20 (GrcEngine.riskPool p)).
  { unfold GrcEngine.riskPool. cbv zeta.
    match goal with
    | |- context [GrcEngine.authRule p ?st] =>
        apply (adds_hasRisk GrcEngine.getRiskLevel 20 (0 + 0 + 0 + 0 + 0)
                 (GrcEngine.authRule p st)); [ chain | ]
    end.
    unfold GrcEngine.authRule, GrcEngine.add. rewrite Hm. eval_known.
    apply (addToPool_hasRisk _ _ _ 5 4). }
  repeat split; try assumption;
    (apply selectTop_keeps; [ assumption | apply riskPool_countGe; lia ]).
Qed.

(** In the engine that keeps 12 the same holds (under that engine's names
    for the two records) as soon as [dataTypes] is a list. *)
Lemma scenarioB_in_top12 (p : Profile) (dt : list string) :
  dataTypes p = Some dt ->
  mfa p = Some "none" -> backupFrequency p = Some "none" ->
  remote p = Some "yes" -> hosting p = Some "cloud" ->
  exists pool out,
    GrcEngine12.riskPool p = Ok pool /\
    GrcEngine12.generateBaseRisks p = Ok out /\
    RiskSpec.hasRisk "Ransomware Attack with Data Loss" 5 6 30 pool /\
    RiskSpec.hasRisk "Credential Stuffing / Brute Force" 5 4 20 pool /\
    RiskSpec.hasRisk "Ransomware Attack with Data Loss" 5 6 30 out /\
    RiskSpec.hasRisk "Credential Stuffing / Brute Force" 5 4 20 out.
Proof.
  intros Hd Hm Hb _ _.
  pose proof (riskPool12_cases p) as Hp. rewrite Hd in Hp.
  destruct Hp as (st1 & st2 & st3 & _ & _ & _ & H23 & E).
  destruct (riskPool12_adds p _ E) as (st & Est & Hall).
  assert (Hcount : forall t, 20 <= t ->
            (RiskSpec.countGe t (pool st3) <= GrcEngine12.TOP_N)%nat).
  { intros t Ht. rewrite Est. apply adds_countGe in Hall.
    pose proof (countGe_mono 20 t (pool st) Ht).
    unfold GrcEngine12.TOP_N. cbn in Hall. lia. }
  assert (H30 : RiskSpec.hasRisk "Ransomware Attack with Data Loss" 5 6 30 (pool st3)).
  { apply (adds_hasRisk _ _ _ _ _ _ _ _ _ H23).
    apply (adds_hasRisk _ _ _ _ _ _ _ _ _ (weakAuthRule12_adds p _)).
    unfold GrcEngine12.ransomwareRule, GrcEngine12.add. rewrite Hb. eval_known.
    apply (addToPool_hasRisk _ _ _ 5 6). }
  assert (H20 : RiskSpec.hasRisk "Credential Stuffing / Brute Force" 5 4 20 (pool st3)).
  { apply (adds_hasRisk _ _ _ _ _ _ _ _ _ H23).
    unfold GrcEngine12.weakAuthRule, GrcEngine12.add. rewrite Hm. eval_known.
    apply (addToPool_hasRisk _ _ _ 5 4). }
  exists (pool st3), (selectTop GrcEngine12.TOP_N (pool st3)).
  split; [ exact E | ].
  split; [ unfold GrcEngine12.generateBaseRisks; now rewrite E | ].
  repeat split; try assumption;
    (apply selectTop_keeps; [ assumption | apply Hcount; lia ]).
Qed.

(** C6, at the failing input.  The assessment form's initial profile is a
    scenario-B profile; the engine that keeps 12 builds no pool for it and
    returns no list, because the data-leakage rule raises first. *)
Theorem scenarioB_raises_in_top12 :
  (mfa formDefaults = Some "none" /\ backupFrequency formDefaults = Some "none" /\
   remote formDefaults = Some "yes" /\ hosting formDefaults = Some "cloud") /\
  GrcEngine12.riskPool formDefaults =
    Throw (TypeError "Cannot read properties of undefined (reading 'includes')") /\
  GrcEngine12.generateBaseRisks formDefaults =
    Throw (TypeError "Cannot read properties of undefined (reading 'includes')").
Proof. repeat split. Qed.

End Register.

(** ** Report assembly *)

Section Assembly.

Import AiEngine.

Variable R : Type.
Variable Benchmarks : Type.
Variable getBenchmarkComparison : Profile -> Z -> Benchmarks.

Lemma fallback_summary_nonempty (p : Profile) (m : MaturityResult) (gaps : list Gap) :
  GrcEngine.generateFallbackSummary p m gaps <> "".
Proof. unfold GrcEngine.generateFallbackSummary. cbn [append]. discriminate. Qed.

Lemma fallback_roadmap_nonempty (p : Profile) :
  GrcEngine.generateFallbackComplianceRoadmap p <> "".
Proof. unfold GrcEngine.generateFallbackComplianceRoadmap. cbn [append]. discriminate. Qed.

Lemma fallback_summary12_nonempty (p : Profile) (m : MaturityResult) (gaps : list Gap) :
  GrcEngine12.generateFallbackSummary p m gaps <> "".
Proof. unfold GrcEngine12.generateFallbackSummary. cbn [append]. discriminate. Qed.

Lemma fallback_roadmap12_returns (p : Profile) (dt : list string) :
  dataTypes p = Some dt ->
  exists text, GrcEngine12.generateFallbackComplianceRoadmap p = Ok text /\ text <> "".
Proof.
  intros H. unfold GrcEngine12.generateFallbackComplianceRoadmap, includesOf.
  rewrite H. cbn [bind]. eexists. split; [ reflexivity | ].
  cbn [append]. discriminate.
Qed.

Lemma complianceSection12_returns (p : Profile) (dt : list string) :
  dataTypes p = Some dt ->
  exists frameworks, GrcEngine12.generateComplianceSection p = Ok frameworks.
Proof.
  intros H. unfold GrcEngine12.generateComplianceSection, GrcEngine12.orElse, includesOf.
  rewrite H. cbv zeta. cbn [bind].
  repeat match goal with
         | |- context [bind (if ?b then _ else _) _] => destruct b; cbn [bind]
         end;
    eexists; reflexivity.
Qed.

(** When the scorer returns, an outage of all four generators leaves the
    engine that keeps 15 with a complete report built from the fallbacks. *)
Lemma outage_report_top15 (ai : Collaborator R) (p : Profile) (m : MaturityResult) :
  calculateMaturityScore p = Ok m ->
  Outage.allFail ai p ->
  exists rep,
    GrcEngine.generateReport R Benchmarks getBenchmarkComparison ai p = Ok rep /\
    GrcEngine.executiveSummary rep <> "" /\
    GrcEngine.recommendations rep =
      map GrcEngine.FromFallback
        (GrcEngine.generateFallbackRecommendations (identifyGaps p m)) /\
    GrcEngine.complianceRoadmap rep <> "" /\
    GrcEngine.risks rep = GrcEngine.generateBaseRisks p /\
    GrcEngine.maturity rep = m /\
    GrcEngine.gaps rep = identifyGaps p m.
Proof.
  intros Hm (Hs & Hr & (e3 & Hc) & Hq).
  unfold GrcEngine.generateReport. rewrite Hm. cbn [bind]. cbv zeta.
  destruct (Hs m) as [e1 ->].
  destruct (Hr (identifyGaps p m) m) as [e2 ->].
  rewrite Hc.
  destruct (Hq (GrcEngine.generateBaseRisks p)) as [e4 ->].
  cbn [bind tryCatch].
  eexists. split; [ reflexivity | ].
  cbn [GrcEngine.executiveSummary GrcEngine.recommendations GrcEngine.complianceRoadmap
       GrcEngine.risks GrcEngine.maturity GrcEngine.gaps].
  repeat split.
  - apply fallback_summary_nonempty.
  - apply fallback_roadmap_nonempty.
Qed.

(** The same for the engine that keeps 12, when in addition [dataTypes]
    is a list. *)
Lemma outage_report_top12 (ai : Collaborator R) (p : Profile) (m : MaturityResult)
  (dt : list string) :
  calculateMaturityScore p = Ok m ->
  dataTypes p = Some dt ->
  Outage.allFail ai p ->
  exists rep baseRisks,
    GrcEngine12.generateBaseRisks p = Ok baseRisks /\
    GrcEngine12.generateReport R Benchmarks getBenchmarkComparison ai p = Ok rep /\
    GrcEngine12.executiveSummary rep <> "" /\
    GrcEngine12.recommendations rep =
      map GrcEngine12.FromFallback
        (GrcEngine12.generateFallbackRecommendations (identifyGaps p m) p) /\
    GrcEngine12.complianceRoadmap rep <> "" /\
    GrcEngine12.risks rep = baseRisks.
Proof.
  intros Hm Hd (Hs & Hr & (e3 & Hc) & Hq).
  destruct (present_dataTypes_returns p dt Hd) as [baseRisks Hb].
  destruct (fallback_roadmap12_returns p dt Hd) as (text & Ht & Hne).
  destruct (complianceSection12_returns p dt Hd) as (frameworks & Hf).
  unfold GrcEngine12.generateReport. rewrite Hm. cbn [bind]. cbv zeta.
  rewrite Hb. cbn [bind].
  destruct (Hs m) as [e1 ->].
  destruct (Hr (identifyGaps p m) m) as [e2 ->].
  rewrite Hc.
  destruct (Hq baseRisks) as [e4 ->].
  cbn [bind tryCatch GrcEngine12.tryCatchM]. rewrite Ht, Hf. cbn [bind].
  do 2 eexists. split; [ reflexivity | ]. split; [ reflexivity | ].
  cbn [GrcEngine12.executiveSummary GrcEngine12.recommendations
       GrcEngine12.complianceRoadmap GrcEngine12.risks].
  repeat split.
  - apply fallback_summary12_nonempty.
  - exact Hne.
Qed.

Lemma failing_allFail (p : Profile) : Outage.allFail (Outage.failing R) p.
Proof. unfold Outage.allFail, Outage.failing. cbn. repeat split; eauto. Qed.

(** C7, at the failing inputs.  With all four generators rejecting, the
    engine that keeps 12 returns no report for the assessment form's
    initial profile: [generateBaseRisks] raises on the missing [dataTypes]
    before any fallback runs.  The engine that keeps 15 returns no report
    when [industry] is 'constructor': [calculateMaturityScore] raises. *)
Theorem outage_report_not_returned :
  Outage.allFail (Outage.failing R) formDefaults /\
  GrcEngine12.generateReport R Benchmarks getBenchmarkComparison
    (Outage.failing R) formDefaults =
    Throw (TypeError "Cannot read properties of undefined (reading 'includes')") /\
  GrcEngine.generateReport R Benchmarks getBenchmarkComparison
    (Outage.failing R) (withIndustry (Some "constructor") formDefaults) =
    Throw (TypeError "Cannot read properties of undefined (reading 'governance')").
Proof.
  split; [ apply failing_allFail | ]. split; reflexivity.
Qed.

End Assembly.

(* ================================================================== *)
(** * Further properties of the code *)

(** ** The sort of the pool *)

Section SortFacts.

Import RiskRegister.

Lemma insertBy_perm {A} (cmp : A -> A -> Z) (x : A) (l : list A) :
  Permutation (insertBy cmp x l) (x :: l).
Proof.
  induction l as [| y ys IH]; cbn [insertBy]; [ reflexivity | ].
  destruct (0 <? cmp x y); [ | reflexivity ].
  rewrite IH. apply perm_swap.
Qed.

Lemma sortBy_perm {A} (cmp : A -> A -> Z) (l : list A) :
  Permutation (sortBy cmp l) l.
Proof.
  induction l as [| x xs IH]; [ reflexivity | ].
  cbn [sortBy fold_right]. fold (sortBy cmp xs).
  rewrite insertBy_perm. now apply perm_skip.
Qed.

(** Inserting a record moves it past records of a strictly higher score
    only, so the records of any one score keep their order. *)
Lemma insertBy_score_class (t : Z) (x : RiskRecord) (l : list RiskRecord) :
  filter (fun r => score r =? t) (insertBy byScoreDesc x l) =
  filter (fun r => score r =? t) (x :: l).
Proof.
  induction l as [| y ys IH]; cbn [insertBy]; [ reflexivity | ].
  unfold byScoreDesc at 1.
  destruct (Z.ltb_spec 0 (score y - score x)) as [Hlt | Hge]; [ | reflexivity ].
  cbn [filter] in *. rewrite IH.
  destruct (Z.eqb_spec (score y) t), (Z.eqb_spec (score x) t); try reflexivity.
  lia.
Qed.

(** X1. [pool.sort((a, b) => b.score - a.score)] rearranges the pool
    without adding or dropping a record, and it is stable: the records of
    any one score stay in the order in which the rules added them. *)
Theorem sort_is_stable (l : list RiskRecord) :
  Permutation (sortBy byScoreDesc l) l /\
  forall t : Z,
    filter (fun r => score r =? t) (sortBy byScoreDesc l) =
    filter (fun r => score r =? t) l.
Proof.
  split; [ apply sortBy_perm | ].
  intros t. induction l as [| x xs IH]; [ reflexivity | ].
  cbn [sortBy fold_right]. fold (sortBy byScoreDesc xs).
  rewrite insertBy_score_class. cbn [filter]. now rewrite IH.
Qed.

End SortFacts.

(** ** What the rules add *)

Section BuiltFacts.

Import RiskRegister.

Lemma built_trans g P st0 st1 st2 :
  PoolSpec.built g P st0 st1 -> PoolSpec.built g P st1 st2 -> PoolSpec.built g P st0 st2.
Proof.
  intros H1 H2. induction H2 as [st | st st' name l c m H IH HP]; [ exact H1 | ].
  apply PoolSpec.built_add; auto.
Qed.

Lemma built_madeBy g P st st' :
  PoolSpec.built g P st st' ->
  Forall (PoolSpec.madeBy g P) (pool st) -> Forall (PoolSpec.madeBy g P) (pool st').
Proof.
  induction 1 as [st | st st' name l c m H IH HP]; intros H0; [ exact H0 | ].
  unfold addToPool, push. cbn [pool].
  apply Forall_app. split; [ now apply IH | ].
  constructor; [ | constructor ].
  unfold PoolSpec.madeBy. cbn [risk likelihoodScore consequenceScore score level
                               likelihoodLabel consequenceLabel].
  repeat split. exact HP.
Qed.

Lemma renumber_madeBy g P (r : RiskRecord) (k : Z) :
  PoolSpec.madeBy g P r -> PoolSpec.madeBy g P (renumber r k).
Proof. exact (fun H => H). Qed.

Lemma selectTop_madeBy g P (n : nat) (l : list RiskRecord) :
  Forall (PoolSpec.madeBy g P) l -> Forall (PoolSpec.madeBy g P) (selectTop n l).
Proof.
  intros H. unfold selectTop, mapIndex, slice0. cbv zeta.
  apply renumber_Forall; [ apply renumber_madeBy | ].
  now apply firstn_Forall, sortBy_Forall.
Qed.

Lemma grows_trans a b c d st0 st1 st2 :
  PoolSpec.grows a b st0 st1 -> PoolSpec.grows c d st1 st2 ->
  PoolSpec.grows (a + c) (b + d) st0 st2.
Proof. unfold PoolSpec.grows. lia. Qed.

Lemma grows_refl st : PoolSpec.grows 0 0 st st.
Proof. unfold PoolSpec.grows. lia. Qed.

Lemma addToPool_grows g st name l c m :
  PoolSpec.grows 1 1 st (addToPool g st name l c m).
Proof.
  unfold PoolSpec.grows, addToPool, push. cbn [pool]. rewrite length_app.
  cbn [List.length]. lia.
Qed.

Lemma grows_weaken a b a' b' st st' :
  PoolSpec.grows a b st st' -> (a' <= a)%nat -> (b <= b')%nat ->
  PoolSpec.grows a' b' st st'.
Proof. unfold PoolSpec.grows. lia. Qed.

(** The labels of ordinals on the scales are defined. *)
Lemma labels_defined (l c : Z) :
  PoolSpec.onScales l c ->
  scaleLabel LIKELIHOOD_SCALE l <> None /\ scaleLabel CONSEQUENCE_SCALE c <> None.
Proof.
  intros [Hl Hc].
  assert (El : l = 1 \/ l = 2 \/ l = 3 \/ l = 4 \/ l = 5) by lia.
  assert (Ec : c = 1 \/ c = 2 \/ c = 3 \/ c = 4 \/ c = 5 \/ c = 6) by lia.
  split.
  - destruct El as [-> | [-> | [-> | [-> | ->]]]]; discriminate.
  - destruct Ec as [-> | [-> | [-> | [-> | [-> | ->]]]]]; discriminate.
Qed.

End BuiltFacts.

(** ** The pool of the engine that keeps 15 *)

Ltac entry_ok :=
  unfold PoolSpec.entry15, PoolSpec.entry12, PoolSpec.onScales;
  repeat split; try lia; try (intros; first [ reflexivity | lia ]).

Ltac rule_built :=
  split_ifs;
  first [ apply PoolSpec.built_none
        | apply PoolSpec.built_add; [ apply PoolSpec.built_none | entry_ok ] ].

Ltac universal_built :=
  cbv zeta; split_ifs;
  repeat (apply PoolSpec.built_add; [ | entry_ok ]);
  apply PoolSpec.built_none.

Ltac rule_grows :=
  split_ifs;
  (eapply grows_weaken;
   [ first [ apply addToPool_grows | apply grows_refl ] | lia | lia ]).

Lemma grows_add g a b st st' name l c m :
  PoolSpec.grows a b st st' ->
  PoolSpec.grows (S a) (S b) st (RiskRegister.addToPool g st' name l c m).
Proof.
  intros H. pose proof (addToPool_grows g st' name l c m) as H'.
  unfold PoolSpec.grows in *. lia.
Qed.

Ltac universal_grows := cbv zeta; repeat apply grows_add; apply grows_refl.

Section Pool15.

Import RiskRegister.


Lemma remoteRule_built p st :
  PoolSpec.built GrcEngine.getRiskLevel (PoolSpec.entry15 p) st (GrcEngine.remoteRule p st).
Proof. unfold GrcEngine.remoteRule, GrcEngine.add, PoolSpec.entry15. rule_built. Qed.

Lemma cloudRule_built p st :
  PoolSpec.built GrcEngine.getRiskLevel (PoolSpec.entry15 p) st (GrcEngine.cloudRule p st).
Proof. unfold GrcEngine.cloudRule, GrcEngine.add, PoolSpec.entry15. rule_built. Qed.

Lemma ransomwareRule_built p st :
  PoolSpec.built GrcEngine.getRiskLevel (PoolSpec.entry15 p) st (GrcEngine.ransomwareRule p st).
Proof. unfold GrcEngine.ransomwareRule, GrcEngine.add, PoolSpec.entry15. rule_built. Qed.

Lemma authRule_built p st :
  PoolSpec.built GrcEngine.getRiskLevel (PoolSpec.entry15 p) st (GrcEngine.authRule p st).
Proof. unfold GrcEngine.authRule, GrcEngine.add, PoolSpec.entry15. rule_built. Qed.

Lemma encryptionRule_built p st :
  PoolSpec.built GrcEngine.getRiskLevel (PoolSpec.entry15 p) st (GrcEngine.encryptionRule p st).
Proof. unfold GrcEngine.encryptionRule, GrcEngine.add, PoolSpec.entry15. rule_built. Qed.

Lemma incidentResponseRule_built p st :
  PoolSpec.built GrcEngine.getRiskLevel (PoolSpec.entry15 p) st
    (GrcEngine.incidentResponseRule p st).
Proof. unfold GrcEngine.incidentResponseRule, GrcEngine.add, PoolSpec.entry15. rule_built. Qed.

Lemma supplyChainRule_built p st :
  PoolSpec.built GrcEngine.getRiskLevel (PoolSpec.entry15 p) st (GrcEngine.supplyChainRule p st).
Proof. unfold GrcEngine.supplyChainRule, GrcEngine.add, PoolSpec.entry15. rule_built. Qed.

Lemma universalRisks_built p st :
  PoolSpec.built GrcEngine.getRiskLevel (PoolSpec.entry15 p) st (GrcEngine.universalRisks p st).
Proof. unfold GrcEngine.universalRisks, GrcEngine.add, PoolSpec.entry15. universal_built. Qed.

Lemma remoteRule_grows p st : PoolSpec.grows 0 1 st (GrcEngine.remoteRule p st).
Proof. unfold GrcEngine.remoteRule, GrcEngine.add. rule_grows. Qed.

Lemma cloudRule_grows p st : PoolSpec.grows 0 1 st (GrcEngine.cloudRule p st).
Proof. unfold GrcEngine.cloudRule, GrcEngine.add. rule_grows. Qed.

Lemma ransomwareRule_grows p st : PoolSpec.grows 1 1 st (GrcEngine.ransomwareRule p st).
Proof. unfold GrcEngine.ransomwareRule, GrcEngine.add. rule_grows. Qed.

Lemma authRule_grows p st : PoolSpec.grows 0 1 st (GrcEngine.authRule p st).
Proof. unfold GrcEngine.authRule, GrcEngine.add. rule_grows. Qed.

Lemma encryptionRule_grows p st : PoolSpec.grows 0 1 st (GrcEngine.encryptionRule p st).
Proof. unfold GrcEngine.encryptionRule, GrcEngine.add. rule_grows. Qed.

Lemma incidentResponseRule_grows p st :
  PoolSpec.grows 0 1 st (GrcEngine.incidentResponseRule p st).
Proof. unfold GrcEngine.incidentResponseRule, GrcEngine.add. rule_grows. Qed.

Lemma supplyChainRule_grows p st : PoolSpec.grows 0 1 st (GrcEngine.supplyChainRule p st).
Proof. unfold GrcEngine.supplyChainRule, GrcEngine.add. rule_grows. Qed.

Lemma universalRisks_grows p st : PoolSpec.grows 6 6 st (GrcEngine.universalRisks p st).
Proof. unfold GrcEngine.universalRisks, GrcEngine.add. universal_grows. Qed.

Create HintDb built15.
Create HintDb grows15.

#[local] Hint Resolve remoteRule_built cloudRule_built ransomwareRule_built authRule_built
  encryptionRule_built incidentResponseRule_built supplyChainRule_built
  universalRisks_built : built15.

#[local] Hint Resolve remoteRule_grows cloudRule_grows ransomwareRule_grows authRule_grows
  encryptionRule_grows incidentResponseRule_grows supplyChainRule_grows
  universalRisks_grows : grows15.

Ltac chain_built :=
  first [ apply PoolSpec.built_none
        | eapply built_trans; [ | solve [ eauto with built15 ] ]; chain_built ].

Ltac chain_grows :=
  first [ apply grows_refl
        | eapply grows_trans; [ | solve [ eauto with grows15 ] ]; chain_grows ].

Lemma riskPool_built (p : Profile) :
  Forall (PoolSpec.madeBy GrcEngine.getRiskLevel (PoolSpec.entry15 p)) (GrcEngine.riskPool p).
Proof.
  unfold GrcEngine.riskPool. cbv zeta.
  apply (built_madeBy _ _ emptyPool); [ chain_built | constructor ].
Qed.

Lemma riskPool_size (p : Profile) :
  (7 <= List.length (GrcEngine.riskPool p) <= 13)%nat.
Proof.
  unfold GrcEngine.riskPool. cbv zeta.
  assert (H : PoolSpec.grows 7 13 emptyPool
                (GrcEngine.universalRisks p
                   (GrcEngine.supplyChainRule p
                      (GrcEngine.incidentResponseRule p
                         (GrcEngine.encryptionRule p
                            (GrcEngine.authRule p
                               (GrcEngine.ransomwareRule p
                                  (GrcEngine.cloudRule p
                                     (GrcEngine.remoteRule p emptyPool))))))))).
  { eapply grows_weaken; [ chain_grows | cbn; lia | cbn; lia ]. }
  unfold PoolSpec.grows in H. cbn [pool emptyPool List.length] in H. lia.
Qed.

(** X2. The engine that keeps 15 never drops a record: its pool holds
    between 7 and 13 records for every profile, so [slice(0, 15)] keeps
    them all and the returned list is the pool rearranged, ids apart. *)
Theorem top15_keeps_whole_pool (p : Profile) :
  (7 <= List.length (GrcEngine.riskPool p) <= 13)%nat /\
  List.length (GrcEngine.generateBaseRisks p) = List.length (GrcEngine.riskPool p) /\
  Permutation (map PoolSpec.content (GrcEngine.generateBaseRisks p))
              (map PoolSpec.content (GrcEngine.riskPool p)).
Proof.
  pose proof (riskPool_size p) as Hsize.
  assert (Hall : slice0 GrcEngine.TOP_N (sortBy byScoreDesc (GrcEngine.riskPool p)) =
                 sortBy byScoreDesc (GrcEngine.riskPool p)).
  { unfold slice0. apply firstn_all2. rewrite sortBy_length.
    unfold GrcEngine.TOP_N. lia. }
  split; [ exact Hsize | ].
  unfold GrcEngine.generateBaseRisks, selectTop, mapIndex. cbv zeta. rewrite Hall.
  split.
  - now rewrite mapIndexFrom_length, sortBy_length.
  - assert (Hc : forall i l, map PoolSpec.content (mapIndexFrom renumber i l) =
                             map PoolSpec.content l).
    { intros i l. revert i.
      induction l as [| x xs IH]; intros i; cbn [mapIndexFrom map];
        [ reflexivity | now rewrite IH ]. }
    rewrite Hc. apply Permutation_map, sortBy_perm.
Qed.

Lemma generateBaseRisks_built (p : Profile) :
  Forall (PoolSpec.madeBy GrcEngine.getRiskLevel (PoolSpec.entry15 p))
    (GrcEngine.generateBaseRisks p).
Proof. apply selectTop_madeBy, riskPool_built. Qed.

Lemma built_In g P st st' (r : RiskRecord) :
  PoolSpec.built g P st st' -> In r (pool st) -> In r (pool st').
Proof.
  induction 1 as [st | st st' name l c m H IH HP]; intros Hin; [ exact Hin | ].
  unfold addToPool, push. cbn [pool]. apply in_or_app. left. now apply IH.
Qed.

Lemma madeBy_wellFormed g P (r : RiskRecord) :
  (forall name l c, P name l c -> PoolSpec.onScales l c) ->
  PoolSpec.madeBy g P r -> PoolSpec.wellFormed g r.
Proof.
  intros HP (Hp & Hs & Hl & Hll & Hcl).
  pose proof (HP _ _ _ Hp) as Hon.
  destruct (labels_defined _ _ Hon) as [L1 L2].
  unfold PoolSpec.wellFormed. rewrite Hll, Hcl.
  split; [ exact Hon | ]. split; [ exact Hs | ].
  split; [ destruct Hon as [[? ?] [? ?]]; rewrite Hs; nia | ].
  split; [ exact Hl | ]. split; assumption.
Qed.

Lemma getRiskLevel_Low (s : Z) : GrcEngine.getRiskLevel s = "Low" -> s < 6.
Proof.
  unfold GrcEngine.getRiskLevel.
  destruct (Z.leb_spec 25 s); [ discriminate | ].
  destruct (Z.leb_spec 15 s); [ discriminate | ].
  destruct (Z.leb_spec 6 s); [ discriminate | ]. auto.
Qed.

Lemma getRiskLevel_Extreme (s : Z) : GrcEngine.getRiskLevel s = "Extreme" <-> 25 <= s.
Proof.
  unfold GrcEngine.getRiskLevel. split.
  - destruct (Z.leb_spec 25 s); [ auto | ].
    destruct (Z.leb_spec 15 s); [ discriminate | ].
    destruct (Z.leb_spec 6 s); discriminate.
  - intros H. destruct (Z.leb_spec 25 s); [ reflexivity | lia ].
Qed.

Lemma ransomware_data_loss_returned (p : Profile) :
  (backupFrequency p === "none") = true ->
  RiskSpec.hasRisk "Ransomware Data Loss" 5 6 30 (GrcEngine.generateBaseRisks p).
Proof.
  intros Hb.
  apply selectTop_keeps; [ | apply riskPool_countGe; lia ].
  unfold GrcEngine.riskPool. cbv zeta.
  match goal with
  | |- context [GrcEngine.ransomwareRule p ?st] =>
      assert (H : RiskSpec.hasRisk "Ransomware Data Loss" 5 6 30
                    (pool (GrcEngine.ransomwareRule p st)))
        by (unfold GrcEngine.ransomwareRule, GrcEngine.add; rewrite Hb;
            apply (addToPool_hasRisk _ _ _ 5 6));
      assert (Hb' : PoolSpec.built GrcEngine.getRiskLevel (PoolSpec.entry15 p)
                      (GrcEngine.ransomwareRule p st)
                      (GrcEngine.universalRisks p
                         (GrcEngine.supplyChainRule p
                            (GrcEngine.incidentResponseRule p
                               (GrcEngine.encryptionRule p
                                  (GrcEngine.authRule p
                                     (GrcEngine.ransomwareRule p st)))))))
        by chain_built
  end.
  destruct H as (r & Hin & Hr). exists r. split; [ | exact Hr ].
  eapply built_In; eauto.
Qed.

(** X3. In the list the engine that keeps 15 returns, no record is rated
    Low, and a record is rated Extreme exactly when the profile has no
    backups ([backupFrequency === 'none']). *)
Theorem top15_extreme_iff_no_backup (p : Profile) :
  Forall (fun r => level r <> "Low") (GrcEngine.generateBaseRisks p) /\
  ((exists r, In r (GrcEngine.generateBaseRisks p) /\ level r = "Extreme") <->
   (backupFrequency p === "none") = true).
Proof.
  pose proof (generateBaseRisks_built p) as Hall.
  split.
  - eapply Forall_impl; [ | exact Hall ]. cbv beta.
    intros r ((_ & H6 & _) & Hs & Hl & _) Hlow.
    rewrite Hl in Hlow. apply getRiskLevel_Low in Hlow. lia.
  - split.
    + intros (r & Hin & Hex). rewrite Forall_forall in Hall.
      destruct (Hall r Hin) as ((_ & _ & H25) & Hs & Hl & _).
      rewrite Hl in Hex. apply getRiskLevel_Extreme in Hex.
      apply H25. lia.
    + intros Hb. destruct (ransomware_data_loss_returned p Hb) as (r & Hin & _ & _ & _ & Hsc).
      exists r. split; [ exact Hin | ].
      rewrite Forall_forall in Hall. destruct (Hall r Hin) as (_ & _ & Hl & _).
      rewrite Hl, Hsc. reflexivity.
Qed.

(** With remote work and cloud hosting the first two rules both fire. *)
Lemma remote_cloud_pool (p : Profile) :
  remote p = Some "yes" -> hosting p = Some "cloud" ->
  (9 <= List.length (GrcEngine.riskPool p) <= 13)%nat /\
  (exists r, In r (GrcEngine.riskPool p) /\ risk r = "Remote Endpoint Compromise") /\
  (exists r, In r (GrcEngine.riskPool p) /\ risk r = "Cloud Misconfiguration / Data Leak").
Proof.
  intros Hr Hh. unfold GrcEngine.riskPool. cbv zeta.
  set (st1 := GrcEngine.remoteRule p emptyPool).
  set (st2 := GrcEngine.cloudRule p st1).
  assert (G1 : PoolSpec.grows 1 1 emptyPool st1).
  { subst st1. unfold GrcEngine.remoteRule, GrcEngine.add. rewrite Hr. eval_known.
    apply addToPool_grows. }
  assert (G2 : PoolSpec.grows 1 1 st1 st2).
  { subst st2. unfold GrcEngine.cloudRule, GrcEngine.add. rewrite Hh. eval_known.
    apply addToPool_grows. }
  assert (I1 : exists r, In r (pool st1) /\ risk r = "Remote Endpoint Compromise").
  { subst st1. unfold GrcEngine.remoteRule, GrcEngine.add. rewrite Hr. eval_known.
    match goal with
    | |- context [addToPool ?g ?st ?n ?l ?c ?m] =>
        destruct (addToPool_hasRisk g st n l c m) as (r & Hin & Hn & _)
    end.
    exists r. split; assumption. }
  assert (I2 : exists r, In r (pool st2) /\ risk r = "Cloud Misconfiguration / Data Leak").
  { subst st2. unfold GrcEngine.cloudRule, GrcEngine.add. rewrite Hh. eval_known.
    match goal with
    | |- context [addToPool ?g ?st ?n ?l ?c ?m] =>
        destruct (addToPool_hasRisk g st n l c m) as (r & Hin & Hn & _)
    end.
    exists r. split; assumption. }
  assert (B1 : PoolSpec.built GrcEngine.getRiskLevel (PoolSpec.entry15 p) st1 st2)
    by apply cloudRule_built.
  clearbody st1 st2.
  match goal with
  | |- context [pool ?st] =>
      assert (G : PoolSpec.grows 7 11 st2 st)
        by (eapply grows_weaken; [ chain_grows | cbn; lia | cbn; lia ]);
      assert (B : PoolSpec.built GrcEngine.getRiskLevel (PoolSpec.entry15 p) st2 st)
        by chain_built;
      set (st3 := st) in *; clearbody st3
  end.
  split; [ | split ].
  - unfold PoolSpec.grows in *. cbn [pool emptyPool List.length] in G1. lia.
  - destruct I1 as (r & Hin & Hn). exists r. split; [ | exact Hn ].
    eapply built_In; [ exact B | ]. eapply built_In; [ exact B1 | exact Hin ].
  - destruct I2 as (r & Hin & Hn). exists r. split; [ | exact Hn ].
    eapply built_In; [ exact B | exact Hin ].
Qed.

(** A name in the pool is a name in the returned list. *)
Lemma top15_keeps_names (p : Profile) (name : string) :
  (exists r, In r (GrcEngine.riskPool p) /\ risk r = name) ->
  exists r, In r (GrcEngine.generateBaseRisks p) /\ risk r = name.
Proof.
  intros (r & Hin & Hn).
  pose proof (riskPool_size p) as Hsize.
  unfold GrcEngine.generateBaseRisks, selectTop, mapIndex, slice0. cbv zeta.
  rewrite firstn_all2 by (rewrite sortBy_length; unfold GrcEngine.TOP_N; lia).
  apply (sortBy_In byScoreDesc) in Hin.
  revert Hin. generalize (sortBy byScoreDesc (GrcEngine.riskPool p)). intros l.
  generalize 0. induction l as [| x xs IH]; intros i Hin; [ destruct Hin | ].
  cbn [mapIndexFrom]. destruct Hin as [-> | Hin].
  - eexists. split; [ left; reflexivity | exact Hn ].
  - destruct (IH (i + 1) Hin) as (r' & Hin' & Hn').
    exists r'. split; [ right; exact Hin' | exact Hn' ].
Qed.

(** The returned list has the size of the pool. *)
Lemma riskPool_size_returned (p : Profile) :
  (7 <= List.length (GrcEngine.generateBaseRisks p) <= 13)%nat.
Proof.
  pose proof (riskPool_size p) as Hsize.
  unfold GrcEngine.generateBaseRisks, selectTop, mapIndex, slice0. cbv zeta.
  rewrite mapIndexFrom_length, length_firstn, sortBy_length.
  unfold GrcEngine.TOP_N. lia.
Qed.

End Pool15.

(** ** The pool of the engine that keeps 12 *)

Section Pool12.

Import RiskRegister.

Lemma remoteAccessRule12_built p st :
  PoolSpec.built GrcEngine12.getRiskLevel PoolSpec.entry12 st
    (GrcEngine12.remoteAccessRule p st).
Proof. unfold GrcEngine12.remoteAccessRule, GrcEngine12.add. rule_built. Qed.

Lemma cloudConfigurationRule12_built p st :
  PoolSpec.built GrcEngine12.getRiskLevel PoolSpec.entry12 st
    (GrcEngine12.cloudConfigurationRule p st).
Proof. unfold GrcEngine12.cloudConfigurationRule, GrcEngine12.add. rule_built. Qed.

Lemma supplyChainRule12_built p st :
  PoolSpec.built GrcEngine12.getRiskLevel PoolSpec.entry12 st
    (GrcEngine12.supplyChainRule p st).
Proof. unfold GrcEngine12.supplyChainRule, GrcEngine12.add. rule_built. Qed.

Lemma ransomwareRule12_built p st :
  PoolSpec.built GrcEngine12.getRiskLevel PoolSpec.entry12 st
    (GrcEngine12.ransomwareRule p st).
Proof. unfold GrcEngine12.ransomwareRule, GrcEngine12.add. rule_built. Qed.

Lemma weakAuthRule12_built p st :
  PoolSpec.built GrcEngine12.getRiskLevel PoolSpec.entry12 st
    (GrcEngine12.weakAuthRule p st).
Proof. unfold GrcEngine12.weakAuthRule, GrcEngine12.add. rule_built. Qed.

Lemma logFailureRule12_built p st :
  PoolSpec.built GrcEngine12.getRiskLevel PoolSpec.entry12 st
    (GrcEngine12.logFailureRule p st).
Proof. unfold GrcEngine12.logFailureRule, GrcEngine12.add. rule_built. Qed.

Lemma universalRisks12_built p st :
  PoolSpec.built GrcEngine12.getRiskLevel PoolSpec.entry12 st
    (GrcEngine12.universalRisks p st).
Proof. unfold GrcEngine12.universalRisks, GrcEngine12.add. universal_built. Qed.

Lemma remoteAccessRule12_grows p st :
  PoolSpec.grows 0 1 st (GrcEngine12.remoteAccessRule p st).
Proof. unfold GrcEngine12.remoteAccessRule, GrcEngine12.add. rule_grows. Qed.

Lemma cloudConfigurationRule12_grows p st :
  PoolSpec.grows 0 1 st (GrcEngine12.cloudConfigurationRule p st).
Proof. unfold GrcEngine12.cloudConfigurationRule, GrcEngine12.add. rule_grows. Qed.

Lemma supplyChainRule12_grows p st :
  PoolSpec.grows 0 1 st (GrcEngine12.supplyChainRule p st).
Proof. unfold GrcEngine12.supplyChainRule, GrcEngine12.add. rule_grows. Qed.

Lemma ransomwareRule12_grows p st :
  PoolSpec.grows 1 1 st (GrcEngine12.ransomwareRule p st).
Proof. unfold GrcEngine12.ransomwareRule, GrcEngine12.add. rule_grows. Qed.

Lemma weakAuthRule12_grows p st :
  PoolSpec.grows 0 1 st (GrcEngine12.weakAuthRule p st).
Proof. unfold GrcEngine12.weakAuthRule, GrcEngine12.add. rule_grows. Qed.

Lemma logFailureRule12_grows p st :
  PoolSpec.grows 0 1 st (GrcEngine12.logFailureRule p st).
Proof. unfold GrcEngine12.logFailureRule, GrcEngine12.add. rule_grows. Qed.

Lemma universalRisks12_grows p st :
  PoolSpec.grows 18 18 st (GrcEngine12.universalRisks p st).
Proof. unfold GrcEngine12.universalRisks, GrcEngine12.add. universal_grows. Qed.

(** The two rules that can raise: what they add when they return. *)
Lemma dataLeakageRule12_built p st st' :
  GrcEngine12.dataLeakageRule p st = Ok st' ->
  PoolSpec.built GrcEngine12.getRiskLevel PoolSpec.entry12 st st' /\
  PoolSpec.grows 0 1 st st'.
Proof.
  unfold GrcEngine12.dataLeakageRule, GrcEngine12.orElse, GrcEngine12.add, includesOf.
  destruct (dataTypes p) as [dt |]; cbn [bind]; [ | discriminate ].
  repeat match goal with
         | |- context [bind (if ?b then _ else _) _] => destruct b; cbn [bind]
         end;
    intros H; injection H as <-; (split; [ rule_built | rule_grows ]).
Qed.

Lemma complianceRule12_built p st st' :
  GrcEngine12.complianceRule p st = Ok st' ->
  PoolSpec.built GrcEngine12.getRiskLevel PoolSpec.entry12 st st' /\
  PoolSpec.grows 0 1 st st'.
Proof.
  unfold GrcEngine12.complianceRule, GrcEngine12.add, includesOf.
  match goal with
  | |- context [bind (if ?b then _ else _) _] => destruct b
  end;
    unfold GrcEngine12.orElse;
    (destruct (dataTypes p) as [dt |]; cbn [bind]; [ | try discriminate ]);
    repeat match goal with
           | |- context [bind (if ?b then _ else _) _] => destruct b; cbn [bind]
           end;
    intros H; injection H as <-; (split; [ rule_built | rule_grows ]).
Qed.

Create HintDb built12.
Create HintDb grows12.

#[local] Hint Resolve remoteAccessRule12_built cloudConfigurationRule12_built
  supplyChainRule12_built ransomwareRule12_built weakAuthRule12_built
  logFailureRule12_built universalRisks12_built : built12.

#[local] Hint Resolve remoteAccessRule12_grows cloudConfigurationRule12_grows
  supplyChainRule12_grows ransomwareRule12_grows weakAuthRule12_grows
  logFailureRule12_grows universalRisks12_grows : grows12.

Ltac chain_built12 :=
  first [ apply PoolSpec.built_none
        | eapply built_trans; [ | solve [ eauto with built12 ] ]; chain_built12 ].

Ltac chain_grows12 :=
  first [ apply grows_refl
        | eapply grows_trans; [ | solve [ eauto with grows12 ] ]; chain_grows12 ].

(** What the pool holds whenever it gets built. *)
Lemma riskPool12_built (p : Profile) (l : list RiskRecord) :
  GrcEngine12.riskPool p = Ok l ->
  Forall (PoolSpec.madeBy GrcEngine12.getRiskLevel PoolSpec.entry12) l /\
  (19 <= List.length l <= 26)%nat.
Proof.
  unfold GrcEngine12.riskPool, GrcEngine12.profileRisks. cbv zeta.
  match goal with
  | |- context [GrcEngine12.dataLeakageRule p ?st] =>
      assert (B0 : PoolSpec.built GrcEngine12.getRiskLevel PoolSpec.entry12 emptyPool st)
        by chain_built12;
      assert (G0 : PoolSpec.grows 0 3 emptyPool st)
        by (eapply grows_weaken; [ chain_grows12 | cbn; lia | cbn; lia ]);
      destruct (GrcEngine12.dataLeakageRule p st) as [st1 | e] eqn:E1;
        cbn [bind]; [ | discriminate ];
      generalize dependent st; intros st0 B0 G0 E1
  end.
  match goal with
  | |- context [GrcEngine12.complianceRule p ?st] =>
      assert (B1 : PoolSpec.built GrcEngine12.getRiskLevel PoolSpec.entry12 st1 st)
        by chain_built12;
      assert (G1 : PoolSpec.grows 1 3 st1 st)
        by (eapply grows_weaken; [ chain_grows12 | cbn; lia | cbn; lia ]);
      destruct (GrcEngine12.complianceRule p st) as [st3 | e] eqn:E2;
        cbn [bind]; [ | discriminate ];
      generalize dependent st; intros st2 B1 G1 E2
  end.
  intros H.
  assert (El : l = pool (GrcEngine12.universalRisks p st3)) by congruence.
  clear H. subst l.
  destruct (dataLeakageRule12_built _ _ _ E1) as [B01 G01].
  destruct (complianceRule12_built _ _ _ E2) as [B23 G23].
  pose proof (universalRisks12_built p st3) as B3.
  pose proof (universalRisks12_grows p st3) as G3.
  split.
  - apply (built_madeBy _ _ emptyPool); [ | constructor ].
    eapply built_trans; [ | exact B3 ].
    eapply built_trans; [ | exact B23 ].
    eapply built_trans; [ | exact B1 ].
    eapply built_trans; [ exact B0 | exact B01 ].
  - unfold PoolSpec.grows in *. change (pool emptyPool) with (@nil RiskRecord) in *.
    cbn [List.length] in *. lia.
Qed.

(** X4. Whenever the engine that keeps 12 returns, it returns exactly 12
    records: its pool holds between 19 and 26, so at least 7 are cut. *)
Theorem top12_returns_exactly_12 (p : Profile) (out : list RiskRecord) :
  GrcEngine12.generateBaseRisks p = Ok out ->
  List.length out = 12%nat /\
  exists pool, GrcEngine12.riskPool p = Ok pool /\
               (19 <= List.length pool <= 26)%nat.
Proof.
  unfold GrcEngine12.generateBaseRisks.
  destruct (GrcEngine12.riskPool p) as [l | e] eqn:E; cbn [bind]; [ | discriminate ].
  intros H. injection H as <-.
  destruct (riskPool12_built p l E) as [_ Hlen].
  split; [ | eauto ].
  destruct (selectTop_spec GrcEngine12.TOP_N l) as [Hn _].
  rewrite Hn. unfold GrcEngine12.TOP_N. lia.
Qed.

Lemma top12_returns_exactly_12_witness :
  List.length (selectTop 12 (match GrcEngine12.riskPool
                                     (withDataTypes (Some []) formDefaults) with
                             | Ok l => l
                             | Throw _ => []
                             end)) = 12%nat /\
  exists pool, GrcEngine12.riskPool (withDataTypes (Some []) formDefaults) = Ok pool /\
               (19 <= List.length pool <= 26)%nat.
Proof.
  apply (top12_returns_exactly_12 (withDataTypes (Some []) formDefaults)).
  vm_compute. reflexivity.
Defined.

Lemma generateBaseRisks12_built (p : Profile) (out : list RiskRecord) :
  GrcEngine12.generateBaseRisks p = Ok out ->
  Forall (PoolSpec.madeBy GrcEngine12.getRiskLevel PoolSpec.entry12) out.
Proof.
  unfold GrcEngine12.generateBaseRisks.
  destruct (GrcEngine12.riskPool p) as [l | e] eqn:E; cbn [bind]; [ | discriminate ].
  intros H. injection H as <-.
  apply selectTop_madeBy. now apply (riskPool12_built p l).
Qed.

(** X5. Every record either engine returns is well formed: a likelihood
    of 1..5 and a consequence of 1..6, both with their label defined, a
    score that is their product and lies in 1..30, and a level that is the
    class of that score under the engine's own breakpoints. *)
Theorem returned_records_well_formed (p : Profile) :
  Forall (PoolSpec.wellFormed GrcEngine.getRiskLevel) (GrcEngine.generateBaseRisks p) /\
  match GrcEngine12.generateBaseRisks p with
  | Ok out => Forall (PoolSpec.wellFormed GrcEngine12.getRiskLevel) out
  | Throw _ => dataTypes p = None
  end.
Proof.
  split.
  - eapply Forall_impl; [ | apply generateBaseRisks_built ].
    intros r. apply madeBy_wellFormed. now intros name l c (H & _).
  - destruct (GrcEngine12.generateBaseRisks p) as [out | e] eqn:E.
    + eapply Forall_impl; [ | exact (generateBaseRisks12_built p out E) ].
      intros r. apply madeBy_wellFormed. now intros name l c H.
    + destruct (dataTypes p) as [dt |] eqn:Hd; [ | reflexivity ].
      destruct (present_dataTypes_returns p dt Hd) as [out' E']. congruence.
Qed.

End Pool12.

(** ** The reachable scores *)

Ltac reachable_score :=
  split_ifs;
  match goal with
  | |- exists z, ?q = inject_Z z /\ _ =>
      let v := eval vm_compute in (Qnum q) in
      exists v; split; [ vm_compute; reflexivity | split; [ lia | reflexivity ] ]
  end.

Section ReachableScores.

Local Open Scope Q_scope.

Lemma governance_score_steps (p : Profile) :
  exists z, calculateGovernanceScore p = inject_Z z /\
            (35 <= z <= 100)%Z /\ (z mod 5 = 0)%Z.
Proof. unfold calculateGovernanceScore. reachable_score. Qed.

Lemma risk_score_steps (p : Profile) :
  exists z, calculateRiskScore p = inject_Z z /\
            (10 <= z <= 100)%Z /\ (z mod 5 = 0)%Z.
Proof. unfold calculateRiskScore. reachable_score. Qed.

Lemma compliance_score_steps (p : Profile) :
  exists z, calculateComplianceScore p = inject_Z z /\
            (50 <= z <= 100)%Z /\ (z mod 10 = 0)%Z.
Proof. unfold calculateComplianceScore. reachable_score. Qed.

Lemma technical_score_steps (p : Profile) :
  exists z, calculateTechnicalScore p = inject_Z z /\
            (35 <= z <= 100)%Z /\ (z mod 5 = 0)%Z.
Proof. unfold calculateTechnicalScore. reachable_score. Qed.

Lemma application_score_steps (p : Profile) :
  exists z, calculateApplicationScore p = inject_Z z /\
            (25 <= z <= 100)%Z /\ (z mod 5 = 0)%Z.
Proof. unfold calculateApplicationScore. reachable_score. Qed.

Lemma operational_score_steps (p : Profile) :
  exists z, calculateOperationalScore p = inject_Z z /\
            (25 <= z <= 95)%Z /\ (z mod 5 = 0)%Z.
Proof. unfold calculateOperationalScore. reachable_score. Qed.

(** X6. The dimension scores of a returned result move in steps of 5 (of
    10 for compliance) inside narrower ranges than [0,100]: governance and
    technical 35..100, risk 10..100, compliance 50..100, application
    25..100 and operational 25..95.  Compliance never falls below its
    baseline of 50 and operational never reaches 100. *)
Theorem dimension_scores_reachable (p : Profile) (r : MaturityResult) :
  calculateMaturityScore p = Ok r ->
  ((35 <= governance r <= 100) /\ governance r mod 5 = 0)%Z /\
  ((10 <= risk r <= 100) /\ risk r mod 5 = 0)%Z /\
  ((50 <= compliance r <= 100) /\ compliance r mod 10 = 0)%Z /\
  ((35 <= technical r <= 100) /\ technical r mod 5 = 0)%Z /\
  ((25 <= application r <= 100) /\ application r mod 5 = 0)%Z /\
  ((25 <= operational r <= 95) /\ operational r mod 5 = 0)%Z.
Proof.
  intros H. apply overall_inversion in H.
  destruct H as (c & _ & _ & Hg & Hr & Hc & Ht & Ha & Ho).
  destruct (governance_score_steps p) as (zg & Eg & Bg & Mg).
  destruct (risk_score_steps p) as (zr & Er & Br & Mr).
  destruct (compliance_score_steps p) as (zc & Ec & Bc & Mc).
  destruct (technical_score_steps p) as (zt & Et & Bt & Mt).
  destruct (application_score_steps p) as (za & Ea & Ba & Ma).
  destruct (operational_score_steps p) as (zo & Eo & Bo & Mo).
  rewrite Eg in Hg. rewrite Er in Hr. rewrite Ec in Hc.
  rewrite Et in Ht. rewrite Ea in Ha. rewrite Eo in Ho.
  rewrite Math_round_int in Hg, Hr, Hc, Ht, Ha, Ho.
  rewrite Hg, Hr, Hc, Ht, Ha, Ho. repeat split; assumption || lia.
Qed.

Lemma dimension_scores_reachable_witness :
  ((35 <= 35 <= 100) /\ 35 mod 5 = 0)%Z /\
  ((10 <= 10 <= 100) /\ 10 mod 5 = 0)%Z /\
  ((50 <= 50 <= 100) /\ 50 mod 10 = 0)%Z /\
  ((35 <= 55 <= 100) /\ 55 mod 5 = 0)%Z /\
  ((25 <= 25 <= 100) /\ 25 mod 5 = 0)%Z /\
  ((25 <= 25 <= 95) /\ 25 mod 5 = 0)%Z.
Proof.
  apply (dimension_scores_reachable formDefaults Spec.formMaturity).
  vm_compute. reflexivity.
Defined.

(** The penalised weighted sum of scores inside their reachable ranges
    stays between 19.5 and 99.25 under every entry of the table. *)
Lemma weighted_score_reachable (c : IndustryConfig) (zg zr zc zt za zo : Z) (pen : number) :
  In c (map snd INDUSTRY_WEIGHTS) ->
  (35 <= zg <= 100)%Z -> (10 <= zr <= 100)%Z -> (50 <= zc <= 100)%Z ->
  (35 <= zt <= 100)%Z -> (25 <= za <= 100)%Z -> (25 <= zo <= 95)%Z ->
  0 <= pen -> pen <= 10 ->
  let x := Spec.weightedScore c (inject_Z zg) (inject_Z zr) (inject_Z zc)
             (inject_Z zt) (inject_Z za) (inject_Z zo) - pen in
  39 # 2 <= x /\ x <= 397 # 4.
Proof.
  intros Hin Hg Hr Hc Ht Ha Ho Hp0 Hp1.
  assert (Qg : inject_Z 35 <= inject_Z zg /\ inject_Z zg <= inject_Z 100)
    by (rewrite <- !Zle_Qle; lia).
  assert (Qr : inject_Z 10 <= inject_Z zr /\ inject_Z zr <= inject_Z 100)
    by (rewrite <- !Zle_Qle; lia).
  assert (Qc : inject_Z 50 <= inject_Z zc /\ inject_Z zc <= inject_Z 100)
    by (rewrite <- !Zle_Qle; lia).
  assert (Qt : inject_Z 35 <= inject_Z zt /\ inject_Z zt <= inject_Z 100)
    by (rewrite <- !Zle_Qle; lia).
  assert (Qa : inject_Z 25 <= inject_Z za /\ inject_Z za <= inject_Z 100)
    by (rewrite <- !Zle_Qle; lia).
  assert (Qo : inject_Z 25 <= inject_Z zo /\ inject_Z zo <= inject_Z 95)
    by (rewrite <- !Zle_Qle; lia).
  change (inject_Z 35) with 35 in *. change (inject_Z 10) with 10 in *.
  change (inject_Z 50) with 50 in *. change (inject_Z 25) with 25 in *.
  change (inject_Z 100) with 100 in *. change (inject_Z 95) with 95 in *.
  generalize dependent (inject_Z zg). generalize dependent (inject_Z zr).
  generalize dependent (inject_Z zc). generalize dependent (inject_Z zt).
  generalize dependent (inject_Z za). generalize dependent (inject_Z zo).
  intros. cbn [map snd INDUSTRY_WEIGHTS In] in Hin. subst x.
  destruct Hin as [<- | [<- | [<- | [<- | []]]]];
    unfold Spec.weightedScore, Spec.weightOf;
    cbn [dimensions d_governance d_risk d_compliance d_technical d_application
         d_operational weight];
    split; lra.
Qed.

(** X7. The clamp around the overall score never acts: for every profile
    on which the scorer returns, the penalised weighted sum already lies
    between 19.5 and 99.25, so [overall] is its plain rounding and lies in
    20..99; no profile scores 100. *)
Theorem overall_between_20_and_99 (p : Profile) (r : MaturityResult) :
  calculateMaturityScore p = Ok r ->
  (20 <= overall r <= 99)%Z /\
  exists c,
    Spec.selectedConfig INDUSTRY_WEIGHTS p = Some c /\
    clamp (Spec.weightedScoreOf c p - Spec.globalPenalty (mfa p) (backupFrequency p)) ==
      Spec.weightedScoreOf c p - Spec.globalPenalty (mfa p) (backupFrequency p) /\
    overall r =
      Math_round (Spec.weightedScoreOf c p - Spec.globalPenalty (mfa p) (backupFrequency p)).
Proof.
  intros H. apply overall_inversion in H.
  destruct H as (c & Hsel & Ho & _).
  pose proof (selectedConfig_in _ _ _ Hsel) as Hin.
  rewrite (weightedSum_declared _ _ _ _ _ _ _ (table_weights_declared _ Hin)) in Ho.
  destruct (governance_score_steps p) as (zg & Eg & Bg & _).
  destruct (risk_score_steps p) as (zr & Er & Br & _).
  destruct (compliance_score_steps p) as (zc & Ec & Bc & _).
  destruct (technical_score_steps p) as (zt & Et & Bt & _).
  destruct (application_score_steps p) as (za & Ea & Ba & _).
  destruct (operational_score_steps p) as (zo & Eo & Bo & _).
  destruct (globalPenalty_range (mfa p) (backupFrequency p)) as [P0 P1].
  destruct (weighted_score_reachable c zg zr zc zt za zo
              (Spec.globalPenalty (mfa p) (backupFrequency p)) Hin)
    as [X0 X1]; try assumption.
  unfold Spec.weightedScoreOf, Spec.rawGovernance, Spec.rawRisk, Spec.rawCompliance,
    Spec.rawTechnical, Spec.rawApplication, Spec.rawOperational in *.
  rewrite Eg, Er, Ec, Et, Ea, Eo in *.
  set (x := Spec.weightedScore c _ _ _ _ _ _ - _) in *.
  assert (Hid : clamp x == x) by (apply clamp_id; lra).
  rewrite (Math_round_compat _ _ Hid) in Ho.
  split.
  - rewrite Ho. unfold Math_round. split.
    + change 20%Z with (Qfloor 20). apply Qfloor_resp_le. lra.
    + change 99%Z with (Qfloor ((397 # 4) + (1 # 2))). apply Qfloor_resp_le. lra.
  - exists c. split; [ exact Hsel | ]. split; [ exact Hid | exact Ho ].
Qed.

Lemma overall_between_20_and_99_witness :
  (20 <= 24 <= 99)%Z /\
  exists c,
    Spec.selectedConfig INDUSTRY_WEIGHTS formDefaults = Some c /\
    clamp (Spec.weightedScoreOf c formDefaults -
           Spec.globalPenalty (mfa formDefaults) (backupFrequency formDefaults)) ==
      Spec.weightedScoreOf c formDefaults -
      Spec.globalPenalty (mfa formDefaults) (backupFrequency formDefaults) /\
    24%Z =
      Math_round (Spec.weightedScoreOf c formDefaults -
                  Spec.globalPenalty (mfa formDefaults) (backupFrequency formDefaults)).
Proof.
  apply (overall_between_20_and_99 formDefaults Spec.formMaturity).
  vm_compute. reflexivity.
Defined.

End ReachableScores.

(** ** The gaps of a scored profile *)

Section GapFacts.

(** No call of [identifyGaps] returns more than its nine rules. *)
Lemma identifyGaps_length (p : Profile) (scores : MaturityResult) :
  (List.length (identifyGaps p scores) <= 9)%nat.
Proof.
  unfold identifyGaps. cbv zeta. split_ifs; cbn [push app List.length]; lia.
Qed.

(** With the compliance test false, the compliance rule adds nothing. *)
Lemma identifyGaps_compliance_off (p : Profile) (scores : MaturityResult) :
  (compliance scores <? 50)%Z = false ->
  ~ In gapCompliance (identifyGaps p scores) /\
  (List.length (identifyGaps p scores) <= 8)%nat.
Proof.
  intros Hc. unfold identifyGaps. cbv zeta. rewrite Hc. cbn [andb].
  split_ifs; cbn [push app List.length In]; (split; [ | lia ]);
    intros H; repeat (destruct H as [H | H]; [ discriminate H | ]); exact H.
Qed.

(** X8. The compliance rule of [identifyGaps] is dead behind the scorer:
    the compliance score of a returned result is never below its baseline
    of 50, so the gaps computed from it never contain the compliance gap,
    whatever the industry, and number at most eight. *)
Theorem compliance_gap_never_reported (p : Profile) (m : MaturityResult) :
  calculateMaturityScore p = Ok m ->
  ~ In gapCompliance (identifyGaps p m) /\
  (forall g, In g (identifyGaps p m) -> category g <> "Compliance") /\
  (List.length (identifyGaps p m) <= 8)%nat.
Proof.
  intros H. apply overall_inversion in H.
  destruct H as (c & _ & _ & _ & _ & Hc & _).
  destruct (compliance_score_steps p) as (z & E & B & _).
  rewrite E, Math_round_int in Hc.
  assert (Hoff : (compliance m <? 50)%Z = false) by (apply Z.ltb_ge; lia).
  clear - Hoff.
  destruct (identifyGaps_compliance_off p m Hoff) as [Hin Hlen].
  split; [ exact Hin | ]. split; [ | exact Hlen ].
  clear Hin Hlen. unfold identifyGaps. cbv zeta. rewrite Hoff. cbn [andb].
  intros g. split_ifs; cbn [push app In]; intros H;
    repeat (destruct H as [<- | H]; [ discriminate | ]); destruct H.
Qed.

Lemma compliance_gap_never_reported_witness :
  ~ In gapCompliance (identifyGaps fintechForm fintechMaturity) /\
  (forall g, In g (identifyGaps fintechForm fintechMaturity) ->
             category g <> "Compliance") /\
  (List.length (identifyGaps fintechForm fintechMaturity) <= 8)%nat.
Proof.
  apply (compliance_gap_never_reported fintechForm fintechMaturity).
  vm_compute. reflexivity.
Defined.

End GapFacts.

(** ** Answers and scores *)

Section Monotone.

Import Assessment.

Local Open Scope Q_scope.

Lemma clamp_mono (x y : number) : x <= y -> clamp x <= clamp y.
Proof.
  intros H. unfold clamp, Math_max, Math_min.
  apply Q.max_le_compat_l. apply Q.min_le_compat_l. exact H.
Qed.

Lemma Math_round_mono (x y : number) : x <= y -> (Math_round x <= Math_round y)%Z.
Proof.
  intros H. unfold Math_round. apply Qfloor_resp_le. lra.
Qed.

Lemma application_weight_nonneg (c : IndustryConfig) :
  In c (map snd INDUSTRY_WEIGHTS) -> 0 <= Spec.weightOf (d_application (dimensions c)).
Proof.
  cbn [map snd INDUSTRY_WEIGHTS In].
  intros [<- | [<- | [<- | [<- | []]]]]; vm_compute; discriminate.
Qed.

(** Making MFA mandatory raises the raw application score or leaves it. *)
Lemma application_score_with_mfa (p : Profile) :
  calculateApplicationScore p <=
  calculateApplicationScore (update (SetText f_mfa "mandatory") p).
Proof.
  unfold calculateApplicationScore.
  cbn [update sameField mfa sso encryption codeReview]. eval_known.
  split_ifs; apply clamp_mono; vm_compute; discriminate.
Qed.

Lemma penalty_with_mfa (p : Profile) :
  Spec.globalPenalty (Some "mandatory") (backupFrequency p) <=
  Spec.globalPenalty (mfa p) (backupFrequency p).
Proof.
  unfold Spec.globalPenalty. eval_known. split_ifs; vm_compute; discriminate.
Qed.

(** X9. Answering "mandatory" to the MFA question never lowers a score:
    whenever the scorer returns on a profile it returns on the edited one
    too, with the same governance, risk, compliance, technical and
    operational scores, an application score at least as high and an
    overall score at least as high. *)
Theorem mandatory_mfa_never_lowers (p : Profile) (m : MaturityResult) :
  calculateMaturityScore p = Ok m ->
  exists m',
    calculateMaturityScore (update (SetText f_mfa "mandatory") p) = Ok m' /\
    (overall m <= overall m')%Z /\
    (application m <= application m')%Z /\
    governance m' = governance m /\ risk m' = risk m /\
    compliance m' = compliance m /\ technical m' = technical m /\
    operational m' = operational m.
Proof.
  intros H.
  assert (Hret : exists m', calculateMaturityScore (update (SetText f_mfa "mandatory") p) = Ok m').
  { revert H. unfold calculateMaturityScore, calculateMaturityScoreIn. cbv zeta.
    change (selectConfig INDUSTRY_WEIGHTS (update (SetText f_mfa "mandatory") p))
      with (selectConfig INDUSTRY_WEIGHTS p).
    destruct (dimensionsOf (selectConfig INDUSTRY_WEIGHTS p)); cbn [bind];
      [ intros _; eexists; reflexivity | discriminate ]. }
  destruct Hret as [m' H']. exists m'. split; [ exact H' | ].
  apply overall_inversion in H. apply overall_inversion in H'.
  destruct H as (c & Hsel & Ho & Hg & Hr & Hc & Ht & Ha & Hp).
  destruct H' as (c' & Hsel' & Ho' & Hg' & Hr' & Hc' & Ht' & Ha' & Hp').
  change (Spec.selectedConfig INDUSTRY_WEIGHTS (update (SetText f_mfa "mandatory") p))
    with (Spec.selectedConfig INDUSTRY_WEIGHTS p) in Hsel'.
  rewrite Hsel in Hsel'. injection Hsel' as <-.
  pose proof (selectedConfig_in _ _ _ Hsel) as Hin.
  pose proof (table_weights_declared _ Hin) as Hw.
  rewrite (weightedSum_declared _ _ _ _ _ _ _ Hw) in Ho.
  rewrite (weightedSum_declared _ _ _ _ _ _ _ Hw) in Ho'.
  change (calculateGovernanceScore (update (SetText f_mfa "mandatory") p))
    with (calculateGovernanceScore p) in *.
  change (calculateRiskScore (update (SetText f_mfa "mandatory") p))
    with (calculateRiskScore p) in *.
  change (calculateComplianceScore (update (SetText f_mfa "mandatory") p))
    with (calculateComplianceScore p) in *.
  change (calculateTechnicalScore (update (SetText f_mfa "mandatory") p))
    with (calculateTechnicalScore p) in *.
  change (calculateOperationalScore (update (SetText f_mfa "mandatory") p))
    with (calculateOperationalScore p) in *.
  change (mfa (update (SetText f_mfa "mandatory") p)) with (Some "mandatory") in Ho'.
  change (backupFrequency (update (SetText f_mfa "mandatory") p))
    with (backupFrequency p) in Ho'.
  pose proof (application_score_with_mfa p) as Happ.
  pose proof (penalty_with_mfa p) as Hpen.
  pose proof (application_weight_nonneg c Hin) as Hnn.
  repeat split; try congruence.
  - rewrite Ho, Ho'. apply Math_round_mono, clamp_mono.
    unfold Spec.weightedScore.
    set (a := calculateApplicationScore p) in *.
    set (a' := calculateApplicationScore (update (SetText f_mfa "mandatory") p)) in *.
    set (w := Spec.weightOf (d_application (dimensions c))) in *.
    assert (a * w <= a' * w) by (apply Qmult_le_compat_r; assumption).
    lra.
  - rewrite Ha, Ha'. apply Math_round_mono. exact Happ.
Qed.

Lemma mandatory_mfa_never_lowers_witness :
  exists m',
    calculateMaturityScore (update (SetText f_mfa "mandatory") formDefaults) = Ok m' /\
    (24 <= overall m')%Z /\
    (25 <= application m')%Z /\
    governance m' = 35%Z /\ risk m' = 10%Z /\
    compliance m' = 50%Z /\ technical m' = 55%Z /\
    operational m' = 25%Z.
Proof.
  apply (mandatory_mfa_never_lowers formDefaults Spec.formMaturity).
  vm_compute. reflexivity.
Defined.

End Monotone.

(** ** What the assessment form can submit *)

Section FormFacts.

Import Assessment RiskRegister.

Lemma toggled_NoDup (arr : list string) (value : string) :
  NoDup arr -> NoDup (toggled arr value).
Proof.
  intros H. unfold toggled. destruct (includes arr value) eqn:E.
  - now apply NoDup_filter.
  - apply NoDup_app; [ exact H | repeat constructor; intros [] | ].
    intros x Hx [<- | []].
    unfold includes in E.
    assert (Ht : existsb (String.eqb value) arr = true)
      by (apply existsb_exists; exists value; split; [ exact Hx | apply String.eqb_refl ]).
    congruence.
Qed.

Lemma toggled_incl (arr allowed : list string) (value : string) :
  incl arr allowed -> In value allowed -> incl (toggled arr value) allowed.
Proof.
  intros H Hv x. unfold toggled. destruct (includes arr value).
  - rewrite filter_In. intros [Hx _]. now apply H.
  - rewrite in_app_iff. intros [Hx | [<- | []]]; [ now apply H | exact Hv ].
Qed.

(** X10. The wizard never leaves its six steps, and its check boxes never
    break the form: in every state the buttons, inputs and check boxes
    can lead to, [step] is between 1 and 6 and [complianceFrameworks] is
    a list without duplicates of ids of [COMPLIANCE_LIST], so [toggle]
    returns for every id. *)
Theorem wizard_stays_in_bounds (w : Wizard) :
  reachable w ->
  1 <= step w <= totalSteps /\
  (exists arr, complianceFrameworks (formData w) = Some arr /\
               NoDup arr /\ incl arr (map fst COMPLIANCE_LIST)) /\
  (forall value, exists data, toggleFramework value (formData w) = Ok data).
Proof.
  intros H.
  assert (Hinv : 1 <= step w <= totalSteps /\
                 (exists arr, complianceFrameworks (formData w) = Some arr /\
                              NoDup arr /\ incl arr (map fst COMPLIANCE_LIST))).
  { induction H as [| w H IH | w H IH | w e H IH | w value data H IH Hv Ht].
    - unfold totalSteps. cbn. split; [ lia | ].
      exists []. repeat split; [ constructor | intros x [] ].
    - destruct IH as (Hs & Hf). unfold next, totalSteps in *.
      destruct (Z.ltb_spec (step w) 6); cbn [step formData completed];
        (split; [ lia | exact Hf ]).
    - destruct IH as (Hs & Hf). unfold back, totalSteps in *.
      cbn [step formData completed]. split; [ lia | exact Hf ].
    - destruct IH as (Hs & Hf). cbn [step formData completed].
      split; [ exact Hs | exact Hf ].
    - destruct IH as (Hs & (arr & Ha & Hnd & Hincl)). cbn [step formData completed].
      split; [ exact Hs | ].
      unfold toggleFramework in Ht. rewrite Ha in Ht. injection Ht as <-.
      exists (toggled arr value). split; [ reflexivity | ].
      split; [ now apply toggled_NoDup | now apply toggled_incl ]. }
  destruct Hinv as (Hs & (arr & Ha & Hnd & Hincl)).
  split; [ exact Hs | ]. split; [ eauto | ].
  intros value. unfold toggleFramework. rewrite Ha. eauto.
Qed.

Lemma wizard_stays_in_bounds_witness :
  1 <= 2 <= totalSteps /\
  (exists arr, Some ["soc2"] = Some arr /\
               NoDup arr /\ incl arr (map fst COMPLIANCE_LIST)) /\
  (forall value, exists data,
     toggleFramework value
       (withComplianceFrameworks (Some (toggled [] "soc2")) formDefaults) = Ok data).
Proof.
  apply (wizard_stays_in_bounds
           (mkWizard 2 (withComplianceFrameworks (Some (toggled [] "soc2")) formDefaults) None)).
  apply (reach_toggle (next initial) "soc2").
  - apply reach_next, reach_initial.
  - vm_compute. tauto.
  - reflexivity.
Defined.

(** The fields no input writes keep their initial values, in the form
    and in what it hands over. *)
Lemma form_fixed_fields (w : Wizard) :
  reachable w ->
  (dataTypes (formData w) = None /\ remote (formData w) = Some "yes" /\
   hosting (formData w) = Some "cloud" /\
   criticalVendorCount (formData w) = Some (Int 5)) /\
  (forall p, completed w = Some p ->
     dataTypes p = None /\ remote p = Some "yes" /\ hosting p = Some "cloud" /\
     criticalVendorCount p = Some (Int 5)).
Proof.
  induction 1 as [| w H IH | w H IH | w e H IH | w value data H IH Hv Ht].
  - split; [ repeat split | discriminate ].
  - destruct IH as [Hf Hc]. unfold next.
    destruct (step w <? totalSteps); cbn [formData completed];
      (split; [ exact Hf | ]); [ exact Hc | ].
    intros p [= <-]. exact Hf.
  - exact IH.
  - destruct IH as [Hf Hc]. cbn [formData completed]. split; [ exact Hf | exact Hc ].
  - destruct IH as [Hf Hc]. cbn [formData completed]. split; [ | exact Hc ].
    unfold toggleFramework in Ht.
    destruct (complianceFrameworks (formData w)); [ | discriminate ].
    injection Ht as <-. exact Hf.
Qed.

(** X11. No profile the form can hand over gets through the engine that
    keeps 12: the form has no input for [dataTypes], so the field is
    missing from every submission and the risk builder raises a TypeError
    on each of them. *)
Theorem form_submissions_raise_in_top12 (w : Wizard) (p : Profile) :
  reachable w -> completed w = Some p ->
  dataTypes p = None /\
  GrcEngine12.generateBaseRisks p =
  Throw (TypeError "Cannot read properties of undefined (reading 'includes')").
Proof.
  intros H Hc. destruct (form_fixed_fields w H) as [_ Hp].
  destruct (Hp p Hc) as (Hd & _). split; [ exact Hd | ].
  unfold GrcEngine12.generateBaseRisks.
  pose proof (riskPool12_cases p) as Hcases. rewrite Hd in Hcases.
  rewrite Hcases. reflexivity.
Qed.

Lemma form_submissions_raise_in_top12_witness :
  dataTypes formDefaults = None /\
  GrcEngine12.generateBaseRisks formDefaults =
  Throw (TypeError "Cannot read properties of undefined (reading 'includes')").
Proof.
  apply (form_submissions_raise_in_top12
           (next (next (next (next (next (next initial)))))) formDefaults).
  - do 6 apply reach_next. apply reach_initial.
  - reflexivity.
Defined.

(** X12. In the engine that keeps 15 every profile the form can hand over
    gets between 9 and 13 risks, the remote-endpoint and the cloud record
    among them: the form has no input for [remote] and [hosting], which
    stay at "yes" and "cloud". *)
Theorem form_submissions_in_top15 (w : Wizard) (p : Profile) :
  reachable w -> completed w = Some p ->
  (9 <= List.length (GrcEngine.generateBaseRisks p) <= 13)%nat /\
  (exists r, In r (GrcEngine.generateBaseRisks p) /\ risk r = "Remote Endpoint Compromise") /\
  (exists r, In r (GrcEngine.generateBaseRisks p) /\
             risk r = "Cloud Misconfiguration / Data Leak").
Proof.
  intros H Hc. destruct (form_fixed_fields w H) as [_ Hp].
  destruct (Hp p Hc) as (_ & Hr & Hh & _).
  destruct (remote_cloud_pool p Hr Hh) as (Hsize & H1 & H2).
  split; [ | split; apply top15_keeps_names; assumption ].
  unfold GrcEngine.generateBaseRisks, selectTop, mapIndex, slice0. cbv zeta.
  rewrite mapIndexFrom_length, length_firstn, sortBy_length.
  unfold GrcEngine.TOP_N. lia.
Qed.

Lemma form_submissions_in_top15_witness :
  (9 <= List.length (GrcEngine.generateBaseRisks formDefaults) <= 13)%nat /\
  (exists r, In r (GrcEngine.generateBaseRisks formDefaults) /\
             risk r = "Remote Endpoint Compromise") /\
  (exists r, In r (GrcEngine.generateBaseRisks formDefaults) /\
             risk r = "Cloud Misconfiguration / Data Leak").
Proof.
  apply (form_submissions_in_top15
           (next (next (next (next (next (next initial)))))) formDefaults).
  - do 6 apply reach_next. apply reach_initial.
  - reflexivity.
Defined.

End FormFacts.

(** ** The risk matrix *)

Section MatrixFacts.

Import RiskRegister RiskMatrix.

Lemma get_set_same {A} (m : list (string * A)) (k : string) (v : A) :
  getProperty (setProperty m k v) k = OwnProperty v.
Proof.
  unfold getProperty.
  induction m as [| [k0 a] m IH]; cbn [setProperty find fst snd].
  - now rewrite String.eqb_refl.
  - destruct (String.eqb k0 k) eqn:E; cbn [find fst snd]; rewrite E; [ reflexivity | exact IH ].
Qed.

Lemma get_set_other {A} (m : list (string * A)) (k k' : string) (v : A) :
  String.eqb k k' = false ->
  getProperty (setProperty m k v) k' = getProperty m k'.
Proof.
  intros Hk. unfold getProperty.
  induction m as [| [k0 a] m IH]; cbn [setProperty find fst snd].
  - now rewrite Hk.
  - destruct (String.eqb k0 k) eqn:E; cbn [find fst snd].
    + apply String.eqb_eq in E. subst k0. now rewrite Hk.
    + destruct (String.eqb k0 k'); [ reflexivity | exact IH ].
Qed.

Lemma occurs_app (ch : ascii) (a b : string) :
  occurs ch (a ++ b) = occurs ch a || occurs ch b.
Proof.
  induction a as [| x a IH]; cbn [String.append occurs]; [ reflexivity | ].
  now rewrite IH, orb_assoc.
Qed.

(** A cell key holds a dash, which no name of [Object.prototype] does. *)
Lemma cellKey_not_inherited (l c : Z) :
  existsb (String.eqb (cellKey l c)) Object_prototype_keys = false.
Proof.
  destruct (existsb _ _) eqn:E; [ | reflexivity ].
  apply existsb_exists in E. destruct E as (x & Hin & Hx).
  apply String.eqb_eq in Hx.
  assert (Hd : occurs "-" (cellKey l c) = true).
  { unfold cellKey. rewrite !occurs_app. cbn. now rewrite orb_true_r. }
  rewrite Hx in Hd.
  cbn in Hin. repeat (destruct Hin as [<- | Hin]; [ discriminate Hd | ]). destruct Hin.
Qed.

Lemma cell_lookup (m : RiskMap) (l c : Z) :
  getProperty m (cellKey l c) <> InheritedProperty.
Proof.
  unfold getProperty. destruct (find _ m); [ discriminate | ].
  rewrite cellKey_not_inherited. discriminate.
Qed.

Lemma addRisk_spec (m : RiskMap) (r : RiskRecord) :
  exists m',
    addRisk m r = Ok m' /\
    getProperty m' (cellKey (likelihoodScore r) (consequenceScore r)) =
      OwnProperty (idsOf (getProperty m (cellKey (likelihoodScore r) (consequenceScore r)))
                   ++ [id r])%list /\
    (forall k', String.eqb (cellKey (likelihoodScore r) (consequenceScore r)) k' = false ->
                getProperty m' k' = getProperty m k').
Proof.
  unfold addRisk. cbv zeta.
  set (k := cellKey (likelihoodScore r) (consequenceScore r)).
  pose proof (cell_lookup m (likelihoodScore r) (consequenceScore r)) as Hni. fold k in Hni.
  destruct (getProperty m k) as [ids | |] eqn:E; [ | congruence | ].
  - rewrite E. eexists. split; [ reflexivity | ]. split.
    + apply get_set_same.
    + intros k' Hk. now apply get_set_other.
  - rewrite get_set_same. eexists. split; [ reflexivity | ]. split.
    + apply get_set_same.
    + intros k' Hk. now rewrite !get_set_other.
Qed.

(** The keys of two cells of the grid differ when the cells do. *)
Lemma cellKey_on_grid (l c l' c' : Z) :
  PoolSpec.onScales l c -> PoolSpec.onScales l' c' ->
  String.eqb (cellKey l c) (cellKey l' c') = (l =? l') && (c =? c').
Proof.
  intros [Hl Hc] [Hl' Hc'].
  assert (El : l = 1 \/ l = 2 \/ l = 3 \/ l = 4 \/ l = 5) by lia.
  assert (Ec : c = 1 \/ c = 2 \/ c = 3 \/ c = 4 \/ c = 5 \/ c = 6) by lia.
  assert (El' : l' = 1 \/ l' = 2 \/ l' = 3 \/ l' = 4 \/ l' = 5) by lia.
  assert (Ec' : c' = 1 \/ c' = 2 \/ c' = 3 \/ c' = 4 \/ c' = 5 \/ c' = 6) by lia.
  clear Hl Hc Hl' Hc'.
  destruct El as [-> | [-> | [-> | [-> | ->]]]];
    destruct El' as [-> | [-> | [-> | [-> | ->]]]];
    destruct Ec as [-> | [-> | [-> | [-> | [-> | ->]]]]];
    destruct Ec' as [-> | [-> | [-> | [-> | [-> | ->]]]]];
    vm_compute; reflexivity.
Qed.

Lemma forEachRisk_spec (risks : list RiskRecord) (m : RiskMap) :
  Forall (fun r => PoolSpec.onScales (likelihoodScore r) (consequenceScore r)) risks ->
  exists m',
    forEachRisk m risks = Ok m' /\
    forall l c, PoolSpec.onScales l c ->
      getProperty m' (cellKey l c) =
      match idsAt l c risks with
      | [] => getProperty m (cellKey l c)
      | new => OwnProperty (idsOf (getProperty m (cellKey l c)) ++ new)%list
      end.
Proof.
  intros H. revert m.
  induction H as [| r risks Hr _ IH]; intros m.
  - exists m. split; [ reflexivity | ]. intros l c _. reflexivity.
  - cbn [forEachRisk].
    destruct (addRisk_spec m r) as (m1 & -> & Hsame & Hother). cbn [bind].
    destruct (IH m1) as (m' & Hrun & Hcells).
    exists m'. split; [ exact Hrun | ].
    intros l c Hon. rewrite (Hcells l c Hon).
    unfold idsAt. cbn [filter].
    pose proof (cellKey_on_grid _ _ l c Hr Hon) as Hk.
    destruct ((likelihoodScore r =? l) && (consequenceScore r =? c)) eqn:E.
    + apply String.eqb_eq in Hk. rewrite <- Hk, Hsame. cbn [map idsOf].
      destruct (map id (filter _ risks)) as [| i is_]; [ reflexivity | ].
      now rewrite <- app_assoc.
    + rewrite (Hother _ Hk). reflexivity.
Qed.

(** X13. The risk matrix files every record under its own cell: on a
    list whose ordinals are on the two scales [risks.forEach] never
    raises, each of the 30 cells of the grid holds exactly the ids of the
    records with that likelihood and that consequence, in the order of
    the list, and so every record appears in a cell. *)
Theorem matrix_cells_hold_their_risks (risks : list RiskRecord) :
  Forall (fun r => PoolSpec.onScales (likelihoodScore r) (consequenceScore r)) risks ->
  exists riskMap,
    buildRiskMap risks = Ok riskMap /\
    Forall (fun l =>
              Forall (fun c => cellIds riskMap l c = Some (idsAt l c risks)) consequences)
           likelihoods /\
    Forall (fun r =>
              In (likelihoodScore r) likelihoods /\ In (consequenceScore r) consequences /\
              exists ids, cellIds riskMap (likelihoodScore r) (consequenceScore r) = Some ids /\
                          In (id r) ids)
           risks.
Proof.
  intros H. unfold buildRiskMap.
  destruct (forEachRisk_spec risks [] H) as (m & Hrun & Hcells).
  exists m. split; [ exact Hrun | ].
  assert (Hcell : forall l c, PoolSpec.onScales l c ->
                              cellIds m l c = Some (idsAt l c risks)).
  { intros l c Hon. unfold cellIds. rewrite (Hcells l c Hon).
    assert (E : getProperty (@nil (string * list RiskId)) (cellKey l c) = Undefined).
    { unfold getProperty. cbn [find]. now rewrite cellKey_not_inherited. }
    rewrite E. cbn [idsOf app]. now destruct (idsAt l c risks). }
  split.
  - unfold likelihoods, consequences.
    repeat (constructor; [ repeat (constructor; [ apply Hcell; unfold PoolSpec.onScales; lia | ]);
                           constructor | ]).
    constructor.
  - rewrite Forall_forall in *. intros r Hin. pose proof (H r Hin) as Hon.
    assert (Hgrid : In (likelihoodScore r) likelihoods /\ In (consequenceScore r) consequences).
    { destruct Hon as [Hl Hc]. unfold likelihoods, consequences. cbn [In]. lia. }
    destruct Hgrid as [Hl Hc]. split; [ exact Hl | ]. split; [ exact Hc | ].
    exists (idsAt (likelihoodScore r) (consequenceScore r) risks).
    split; [ now apply Hcell | ].
    unfold idsAt. apply in_map, filter_In. split; [ exact Hin | ].
    now rewrite !Z.eqb_refl.
Qed.

Lemma matrix_cells_hold_their_risks_witness :
  exists riskMap,
    buildRiskMap (GrcEngine.generateBaseRisks formDefaults) = Ok riskMap /\
    Forall (fun l =>
              Forall (fun c => cellIds riskMap l c =
                               Some (idsAt l c (GrcEngine.generateBaseRisks formDefaults)))
                     consequences)
           likelihoods /\
    Forall (fun r =>
              In (likelihoodScore r) likelihoods /\ In (consequenceScore r) consequences /\
              exists ids, cellIds riskMap (likelihoodScore r) (consequenceScore r) = Some ids /\
                          In (id r) ids)
           (GrcEngine.generateBaseRisks formDefaults).
Proof.
  apply (matrix_cells_hold_their_risks (GrcEngine.generateBaseRisks formDefaults)).
  vm_compute. repeat (apply Forall_cons; [ repeat split; discriminate | ]). apply Forall_nil.
Defined.

End MatrixFacts.

Section MatrixColours.

Import RiskRegister RiskMatrix.

(** The colour of a cell is the badge colour of the level the engine
    that keeps 15 gives the cell's score. *)
Lemma cell_colour_top15 (l c : Z) :
  getCellColor l c = levelColor (GrcEngine.getRiskLevel (l * c)).
Proof.
  unfold getCellColor, GrcEngine.getRiskLevel. cbv zeta.
  destruct (25 <=? l * c); [ reflexivity | ].
  destruct (15 <=? l * c); [ reflexivity | ].
  destruct (6 <=? l * c); reflexivity.
Qed.

(** Under the breakpoints of the engine that keeps 12 the two colours
    part for the scores 12..14 and 20..24. *)
Lemma cell_colour_top12 (l c : Z) :
  getCellColor l c = levelColor (GrcEngine12.getRiskLevel (l * c)) <->
  ~ (12 <= l * c < 15 \/ 20 <= l * c < 25).
Proof.
  unfold getCellColor, GrcEngine12.getRiskLevel. cbv zeta.
  destruct (Z.leb_spec 25 (l * c)); destruct (Z.leb_spec 20 (l * c));
    destruct (Z.leb_spec 15 (l * c)); destruct (Z.leb_spec 12 (l * c));
    destruct (Z.leb_spec 6 (l * c)); cbn;
    (split; [ intros E; try discriminate E; lia | intros N; try reflexivity; exfalso; lia ]).
Qed.

(** X14. The risk matrix colours its cells by the breakpoints 6, 15 and
    25.  For every record the engine that keeps 15 returns, the cell the
    record is filed under has the colour of the record's level badge.
    For the records of the engine that keeps 12 (breakpoints 6, 12, 20)
    the two colours agree except for the scores 12..14 and 20..24, and
    such a record is returned for every profile with [dataTypes] present,
    no MFA, no backups, remote work and cloud hosting. *)
Theorem matrix_colour_against_level :
  (forall p,
     Forall (fun r => getCellColor (likelihoodScore r) (consequenceScore r) =
                      levelColor (level r))
            (GrcEngine.generateBaseRisks p)) /\
  (forall p,
     match GrcEngine12.generateBaseRisks p with
     | Ok out =>
         Forall (fun r => getCellColor (likelihoodScore r) (consequenceScore r) =
                          levelColor (level r) <->
                          ~ (12 <= score r < 15 \/ 20 <= score r < 25))
                out
     | Throw _ => dataTypes p = None
     end) /\
  (forall p dt,
     dataTypes p = Some dt -> mfa p = Some "none" -> backupFrequency p = Some "none" ->
     remote p = Some "yes" -> hosting p = Some "cloud" ->
     exists out r,
       GrcEngine12.generateBaseRisks p = Ok out /\ In r out /\
       getCellColor (likelihoodScore r) (consequenceScore r) <> levelColor (level r)).
Proof.
  split; [ | split ].
  - intros p. eapply Forall_impl; [ | apply generateBaseRisks_built ].
    intros r (_ & Hs & Hl & _). rewrite Hl, Hs. apply cell_colour_top15.
  - intros p. destruct (GrcEngine12.generateBaseRisks p) as [out | e] eqn:E.
    + eapply Forall_impl; [ | exact (generateBaseRisks12_built p out E) ].
      intros r (_ & Hs & Hl & _). rewrite Hl, Hs. apply cell_colour_top12.
    + destruct (dataTypes p) as [dt |] eqn:Hd; [ | reflexivity ].
      destruct (present_dataTypes_returns p dt Hd) as [out' E']. congruence.
  - intros p dt Hd Hm Hb Hr Hh.
    destruct (scenarioB_in_top12 p dt Hd Hm Hb Hr Hh)
      as (pool & out & _ & Hout & _ & _ & _ & (r & Hin & _ & Hl & Hc & Hs)).
    exists out, r. split; [ exact Hout | ]. split; [ exact Hin | ].
    pose proof (generateBaseRisks12_built p out Hout) as Hall.
    rewrite Forall_forall in Hall. destruct (Hall r Hin) as (_ & _ & Hlev & _).
    rewrite Hlev, Hs, Hl, Hc. vm_compute. discriminate.
Qed.

(** The form's initial answers with an empty [dataTypes] list. *)
Lemma matrix_colour_against_level_witness :
  exists out r,
    GrcEngine12.generateBaseRisks (withDataTypes (Some []) formDefaults) = Ok out /\
    In r out /\
    getCellColor (likelihoodScore r) (consequenceScore r) <> levelColor (level r).
Proof.
  apply (proj2 (proj2 matrix_colour_against_level)
           (withDataTypes (Some []) formDefaults) []); reflexivity.
Defined.

End MatrixColours.

(** ** The report and the page that shows it *)

Section ReportFacts.

Import AiEngine RiskRegister ReportPage.

Variable R : Type.
Variable Benchmarks : Type.
Variable getBenchmarkComparison : Profile -> Z -> Benchmarks.
Variable categoryOf : R -> option string.
Variable toLowerCase : string -> string.

Lemma sorted_app_le (l1 l2 : list RiskRecord) :
  RiskSpec.sortedByScoreDesc (l1 ++ l2) ->
  Forall (fun r => Forall (fun r' => score r' <= score r) l2) l1.
Proof.
  unfold RiskSpec.sortedByScoreDesc.
  induction l1 as [| a l1 IH]; cbn [app]; intros H; [ constructor | ].
  inversion H as [| ? ? Hs Ha]; subst.
  constructor; [ | now apply IH ].
  rewrite Forall_forall in *. intros r' Hin. apply Ha, in_or_app. now right.
Qed.

(** X15. The risk table of the report page shows the five highest
    records: for every profile [data.risks.slice(0, 5)] has exactly five
    rows, numbered 1 to 5 and ordered by non-increasing score, and each of
    the two to eight records it leaves out scores no more than any row. *)
Theorem report_page_shows_five_highest (p : Profile) :
  let risks := GrcEngine.generateBaseRisks p in
  let rows := riskRows risks in
  map id rows = [SeqId 1; SeqId 2; SeqId 3; SeqId 4; SeqId 5] /\
  RiskSpec.sortedByScoreDesc rows /\
  exists rest,
    risks = (rows ++ rest)%list /\
    (2 <= List.length rest <= 8)%nat /\
    Forall (fun r => Forall (fun r' => score r' <= score r) rest) rows.
Proof.
  cbv zeta. unfold riskRows, slice0.
  destruct (selectTop_spec GrcEngine.TOP_N (GrcEngine.riskPool p)) as (Hlen & Hsorted & Hids).
  fold (GrcEngine.generateBaseRisks p) in Hlen, Hsorted, Hids.
  pose proof (riskPool_size p) as Hsize. unfold GrcEngine.TOP_N in Hlen.
  set (risks := GrcEngine.generateBaseRisks p) in *.
  assert (Hn : (7 <= List.length risks <= 13)%nat) by lia.
  split; [ | split ].
  - rewrite <- firstn_map. unfold RiskSpec.idsFromOne in Hids. rewrite Hids.
    destruct (List.length risks) as [| [| [| [| [| n]]]]]; try lia. reflexivity.
  - now apply firstn_sorted.
  - exists (skipn 5 risks). split; [ symmetry; apply firstn_skipn | ].
    split; [ rewrite length_skipn; lia | ].
    apply sorted_app_le. now rewrite firstn_skipn.
Qed.



Lemma mapIndexFrom_map {A B C} (f : A -> Z -> B) (g : B -> C) (h : A -> C)
  (i : Z) (l : list A) :
  (forall a k, g (f a k) = h a) -> map g (mapIndexFrom f i l) = map h l.
Proof.
  intros H. revert i.
  induction l as [| x xs IH]; intros i; cbn [mapIndexFrom map]; [ reflexivity | ].
  now rewrite H, IH.
Qed.

Lemma mapIndexFrom_ids {A B} (f : A -> Z -> B) (g : B -> Z) (n : nat) (l : list A) :
  (forall a k, g (f a k) = k + 1) ->
  map g (mapIndexFrom f (Z.of_nat n) l) = map Z.of_nat (seq (S n) (List.length l)).
Proof.
  intros H. revert n.
  induction l as [| x xs IH]; intros n; [ reflexivity | ].
  cbn [mapIndexFrom map List.length seq]. rewrite H. f_equal; [ lia | ].
  replace (Z.of_nat n + 1) with (Z.of_nat (S n)) by lia. apply IH.
Qed.

(** X17. Every gap gets its fallback recommendation: [identifyGaps]
    returns at most nine gaps, so the [slice(0, 10)] of both engines'
    [generateFallbackRecommendations] drops none of them, and the list has
    one entry per gap, numbered from 1, with the gap's severity as its
    priority. *)
Theorem fallback_recommendations_cover_gaps (p : Profile) (scores : MaturityResult) :
  let gaps := identifyGaps p scores in
  (map GrcEngine.priority (GrcEngine.generateFallbackRecommendations gaps) = map severity gaps /\
   map GrcEngine.rec_id (GrcEngine.generateFallbackRecommendations gaps) =
     map Z.of_nat (seq 1 (List.length gaps))) /\
  (forall q,
     map GrcEngine12.priority (GrcEngine12.generateFallbackRecommendations gaps q) =
       map severity gaps /\
     map GrcEngine12.rec_category (GrcEngine12.generateFallbackRecommendations gaps q) =
       map ScoringFramework.category gaps /\
     map GrcEngine12.rec_id (GrcEngine12.generateFallbackRecommendations gaps q) =
       map Z.of_nat (seq 1 (List.length gaps))).
Proof.
  cbv zeta. pose proof (identifyGaps_length p scores) as Hlen.
  unfold GrcEngine.generateFallbackRecommendations,
    GrcEngine12.generateFallbackRecommendations, mapIndex, slice0.
  rewrite firstn_all2 by lia.
  split; [ split | intros q; split; [ | split ] ].
  - now apply mapIndexFrom_map.
  - now apply (mapIndexFrom_ids _ _ 0).
  - now apply mapIndexFrom_map.
  - now apply mapIndexFrom_map.
  - now apply (mapIndexFrom_ids _ _ 0).
Qed.

Lemma overall_range (p : Profile) (m : MaturityResult) :
  calculateMaturityScore p = Ok m -> 20 <= overall m <= 99.
Proof.
  intros Hm. apply overall_inversion in Hm.
  destruct Hm as (c & Hsel & Ho & _).
  pose proof (selectedConfig_in _ _ _ Hsel) as Hin.
  rewrite (weightedSum_declared _ _ _ _ _ _ _ (table_weights_declared _ Hin)) in Ho.
  destruct (governance_score_steps p) as (zg & Eg & Bg & _).
  destruct (risk_score_steps p) as (zr & Er & Br & _).
  destruct (compliance_score_steps p) as (zc & Ec & Bc & _).
  destruct (technical_score_steps p) as (zt & Et & Bt & _).
  destruct (application_score_steps p) as (za & Ea & Ba & _).
  destruct (operational_score_steps p) as (zo & Eo & Bo & _).
  destruct (globalPenalty_range (mfa p) (backupFrequency p)) as [P0 P1].
  destruct (weighted_score_reachable c zg zr zc zt za zo
              (Spec.globalPenalty (mfa p) (backupFrequency p)) Hin)
    as [X0 X1]; try assumption.
  rewrite Eg, Er, Ec, Et, Ea, Eo in Ho. rewrite Ho. split.
  - apply (Z.le_trans _ (Math_round (clamp (39 # 2)))); [ vm_compute; discriminate | ].
    apply Math_round_mono, clamp_mono. exact X0.
  - apply (Z.le_trans _ (Math_round (clamp (397 # 4)))); [ | vm_compute; discriminate ].
    apply Math_round_mono, clamp_mono. exact X1.
Qed.

(** X18. The collaborator can neither stop the report nor touch its
    computed parts: whatever the four generators do, [generateReport] of
    the engine that keeps 15 returns exactly when the scorer does, with
    the scorer's result, the gaps and the risk list computed from the
    profile alone; an overall score in 20..99, at most eight gaps and
    between 7 and 13 risks. *)
Theorem report_survives_collaborator (ai : Collaborator R) (p : Profile) :
  match calculateMaturityScore p with
  | Ok m =>
      exists rep,
        GrcEngine.generateReport R Benchmarks getBenchmarkComparison ai p = Ok rep /\
        GrcEngine.maturity rep = m /\
        GrcEngine.gaps rep = identifyGaps p m /\
        GrcEngine.risks rep = GrcEngine.generateBaseRisks p /\
        GrcEngine.benchmarks rep = getBenchmarkComparison p (overall m) /\
        20 <= overall (GrcEngine.maturity rep) <= 99 /\
        (List.length (GrcEngine.gaps rep) <= 8)%nat /\
        (7 <= List.length (GrcEngine.risks rep) <= 13)%nat
  | Throw e =>
      GrcEngine.generateReport R Benchmarks getBenchmarkComparison ai p = Throw e
  end.
Proof.
  unfold GrcEngine.generateReport.
  destruct (calculateMaturityScore p) as [m | e] eqn:Hm; cbn [bind]; [ | reflexivity ].
  cbv zeta. eexists. split; [ reflexivity | ].
  cbn [GrcEngine.maturity GrcEngine.gaps GrcEngine.risks GrcEngine.benchmarks].
  repeat split; try reflexivity.
  - now apply (overall_range p m).
  - now apply (overall_range p m).
  - apply overall_inversion in Hm. destruct Hm as (c & _ & _ & _ & _ & Hc & _).
    destruct (compliance_score_steps p) as (z & E & B & _).
    rewrite E, Math_round_int in Hc.
    apply identifyGaps_compliance_off. apply Z.ltb_ge. lia.
  - apply riskPool_size_returned.
  - apply riskPool_size_returned.
Qed.

End ReportFacts.


(** ** The slide deck *)

Section DeckFacts.

Import SlideDeck.

Variable Slide : Type.
Variable slides : list Slide.

Lemma rem_next (z n : Z) :
  0 <= z < n -> 0 <= Z.rem (z + 1) n < n /\ Z.rem (Z.rem (z + 1) n - 1 + n) n = z.
Proof.
  intros H. assert (C : z + 1 < n \/ z + 1 = n) by lia. destruct C as [C | C].
  - rewrite (Z.rem_small (z + 1) n) by lia. split; [ lia | ].
    replace (z + 1 - 1 + n) with (z + 1 * n) by lia.
    rewrite Z.rem_add by nia. rewrite Z.rem_small by lia. lia.
  - rewrite C, Z.rem_same by lia. split; [ lia | ].
    rewrite Z.rem_small by lia. lia.
Qed.

Lemma rem_prev (z n : Z) :
  0 <= z < n -> 0 <= Z.rem (z - 1 + n) n < n /\ Z.rem (Z.rem (z - 1 + n) n + 1) n = z.
Proof.
  intros H. assert (C : z = 0 \/ 0 < z) by lia. destruct C as [C | C].
  - subst z. rewrite (Z.rem_small (0 - 1 + n) n) by lia. split; [ lia | ].
    replace (0 - 1 + n + 1) with n by lia. rewrite Z.rem_same by lia. lia.
  - replace (z - 1 + n) with (z - 1 + 1 * n) by lia.
    rewrite Z.rem_add by nia. rewrite (Z.rem_small (z - 1) n) by lia.
    split; [ lia | ]. replace (z - 1 + 1) with z by lia. rewrite Z.rem_small by lia. lia.
Qed.

(** X19. On a deck with at least one slide the index never leaves the
    deck: whatever sequence of arrows and dots is clicked, [currentSlide]
    is an integer between 0 and [slides.length - 1], so
    [slides[currentSlide]] is a slide, and the two arrows undo each
    other. *)
Theorem slide_index_stays_on_deck (cur : jsnum) :
  slides <> [] ->
  reachable Slide slides cur ->
  (exists z slide,
     cur = Int z /\ 0 <= z < Z.of_nat (List.length slides) /\
     slideAt Slide slides cur = Some slide) /\
  prevSlide Slide slides (nextSlide Slide slides cur) = cur /\
  nextSlide Slide slides (prevSlide Slide slides cur) = cur.
Proof.
  intros Hne H.
  assert (Hn : 0 < Z.of_nat (List.length slides))
    by (destruct slides; [ congruence | cbn [List.length]; lia ]).
  assert (Hz : exists z, cur = Int z /\ 0 <= z < Z.of_nat (List.length slides)).
  { induction H as [| cur H IH | cur H IH | cur idx H IH Hidx].
    - exists 0. split; [ reflexivity | lia ].
    - destruct IH as (z & -> & Hz).
      unfold nextSlide, slides_length, plus, remainder.
      destruct (Z.eqb_spec (Z.of_nat (List.length slides)) 0); [ lia | ].
      eexists. split; [ reflexivity | ]. now apply rem_next.
    - destruct IH as (z & -> & Hz).
      unfold prevSlide, slides_length, plus, minus, remainder.
      destruct (Z.eqb_spec (Z.of_nat (List.length slides)) 0); [ lia | ].
      eexists. split; [ reflexivity | ]. now apply rem_prev.
    - exists (Z.of_nat idx). split; [ reflexivity | lia ]. }
  destruct Hz as (z & -> & Hz). split; [ | split ].
  - unfold slideAt. destruct (Z.ltb_spec z 0); [ lia | ].
    destruct (nth_error slides (Z.to_nat z)) as [slide |] eqn:E.
    + exists z, slide. repeat split; lia.
    + apply nth_error_None in E. lia.
  - unfold prevSlide, nextSlide, slides_length, plus, minus, remainder.
    destruct (Z.eqb_spec (Z.of_nat (List.length slides)) 0); [ lia | ].
    f_equal. now apply rem_next.
  - unfold prevSlide, nextSlide, slides_length, plus, minus, remainder.
    destruct (Z.eqb_spec (Z.of_nat (List.length slides)) 0); [ lia | ].
    f_equal. now apply rem_prev.
Qed.

End DeckFacts.

Lemma slide_index_stays_on_deck_witness :
  (exists z slide,
     Int 2 = Int z /\ 0 <= z < Z.of_nat (List.length ["a"; "b"; "c"]) /\
     SlideDeck.slideAt string ["a"; "b"; "c"] (Int 2) = Some slide) /\
  SlideDeck.prevSlide string ["a"; "b"; "c"]
    (SlideDeck.nextSlide string ["a"; "b"; "c"] (Int 2)) = Int 2 /\
  SlideDeck.nextSlide string ["a"; "b"; "c"]
    (SlideDeck.prevSlide string ["a"; "b"; "c"] (Int 2)) = Int 2.
Proof.
  apply (slide_index_stays_on_deck string ["a"; "b"; "c"] (Int 2)).
  - discriminate.
  - apply (SlideDeck.reach_prev string ["a"; "b"; "c"] (Int 0)).
    apply SlideDeck.reach_initial.
Defined.

(** ** The report of the engine that keeps 12 *)

Section Report12.

Import AiEngine RiskRegister.

Variable R : Type.
Variable Benchmarks : Type.
Variable getBenchmarkComparison : Profile -> Z -> Benchmarks.

(** X20. When the report of the engine that keeps 12 is returned: it
    depends on the profile alone, never on the collaborator.  If the
    scorer raises, so does [generateReport], with the same error; if the
    scorer returns and [dataTypes] is missing, [generateReport] raises the
    TypeError of the risk builder; otherwise it returns a report with the
    scorer's result, the gaps computed from it and exactly 12 risks. *)
Theorem report12_returned_by_profile_alone (ai : Collaborator R) (p : Profile) :
  match calculateMaturityScore p, dataTypes p with
  | Throw e, _ =>
      GrcEngine12.generateReport R Benchmarks getBenchmarkComparison ai p = Throw e
  | Ok _, None =>
      GrcEngine12.generateReport R Benchmarks getBenchmarkComparison ai p =
      Throw (TypeError "Cannot read properties of undefined (reading 'includes')")
  | Ok m, Some _ =>
      exists rep,
        GrcEngine12.generateReport R Benchmarks getBenchmarkComparison ai p = Ok rep /\
        GrcEngine12.maturity rep = m /\
        GrcEngine12.gaps rep = identifyGaps p m /\
        GrcEngine12.generateBaseRisks p = Ok (GrcEngine12.risks rep) /\
        List.length (GrcEngine12.risks rep) = 12%nat
  end.
Proof.
  unfold GrcEngine12.generateReport.
  destruct (calculateMaturityScore p) as [m | e]; cbn [bind]; [ | reflexivity ].
  destruct (dataTypes p) as [dt |] eqn:Hd.
  - destruct (present_dataTypes_returns p dt Hd) as [out Hout].
    rewrite Hout. cbn [bind]. cbv zeta.
    destruct (fallback_roadmap12_returns p dt Hd) as (text & Htext & _).
    destruct (complianceSection12_returns p dt Hd) as (frameworks & ->).
    assert (Hlen : List.length out = 12%nat).
    { revert Hout. unfold GrcEngine12.generateBaseRisks.
      destruct (GrcEngine12.riskPool p) as [l | e] eqn:E; cbn [bind]; [ | discriminate ].
      intros H. injection H as <-.
      destruct (riskPool12_built p l E) as [_ Hl].
      destruct (selectTop_spec GrcEngine12.TOP_N l) as [Hn _].
      rewrite Hn. unfold GrcEngine12.TOP_N. lia. }
    destruct (generateComplianceRoadmap ai p) as [roadmap | e];
      cbn [GrcEngine12.tryCatchM bind]; [ | rewrite Htext; cbn [bind] ];
      (eexists; split; [ reflexivity | ];
       cbn [GrcEngine12.maturity GrcEngine12.gaps GrcEngine12.risks];
       repeat split; assumption || reflexivity).
  - pose proof (riskPool12_cases p) as Hcases. rewrite Hd in Hcases.
    unfold GrcEngine12.generateBaseRisks. rewrite Hcases. reflexivity.
Qed.

End Report12.
